(** * Episode-to-time normalisation and comparative statistics

    A shallow embedding of the analysis scripts
    [Analysis/Compare_results_time_based.py], [Analysis/analyze_stats.py],
    [Analysis/Compare_results.py],
    [Analysis/analyze_ml_training_time_based.py] and
    [Analysis/analyze_results.py], and the properties of the
    normalisation pipeline established on it.

    Numbers.  The scripts compute on numpy [float64] values.  A finite
    value is modelled by an exact rational kept in lowest terms, and the
    three kinds of special values (+inf, -inf, nan) are explicit
    constructors with the IEEE rules for producing and propagating them.
    Rounding, overflow, underflow and the sign of zero are not modelled:
    a finite value stated below is the exact value that the float64
    result approximates.  Where underflow decides which branch the code
    takes, the expression is repeated on binary64 values (module
    [Binary64]). *)

From Stdlib Require Import QArith Qround Lqa.
From Stdlib Require PrimFloat.
From stdpp Require Import base option list gmap strings fin_maps.

Local Open Scope Q_scope.

(* ------------------------------------------------------------------ *)
(** ** Floating point values *)

Module Float.

Inductive float : Type :=
| Fin (q : Q)
| PInf
| NInf
| NaN.

Definition of_Z (z : Z) : float := Fin (inject_Z z).
Definition of_nat (n : nat) : float := of_Z (Z.of_nat n).

Definition is_nan (x : float) : bool :=
  match x with NaN => true | _ => false end.

Definition is_finite (x : float) : bool :=
  match x with Fin _ => true | _ => false end.

(** The sign of a rational, as a comparison with zero. *)
Definition sgn (q : Q) : comparison := q ?= 0.

Definition neg (x : float) : float :=
  match x with
  | Fin q => Fin (Qred (- q))
  | PInf => NInf
  | NInf => PInf
  | NaN => NaN
  end.

Definition add (x y : float) : float :=
  match x, y with
  | NaN, _ | _, NaN => NaN
  | Fin a, Fin b => Fin (Qred (a + b))
  | PInf, NInf | NInf, PInf => NaN
  | PInf, _ | _, PInf => PInf
  | NInf, _ | _, NInf => NInf
  end.

Definition sub (x y : float) : float :=
  match x, y with
  | NaN, _ | _, NaN => NaN
  | Fin a, Fin b => Fin (Qred (a - b))
  | PInf, PInf | NInf, NInf => NaN
  | PInf, _ | _, NInf => PInf
  | NInf, _ | _, PInf => NInf
  end.

(** An infinity with the sign [s]; a zero sign gives nan (inf * 0). *)
Definition inf_of_sign (s : comparison) : float :=
  match s with Gt => PInf | Lt => NInf | Eq => NaN end.

Definition flip (s : comparison) : comparison := CompOpp s.

Definition mul (x y : float) : float :=
  match x, y with
  | NaN, _ | _, NaN => NaN
  | Fin a, Fin b => Fin (Qred (a * b))
  | PInf, Fin b | Fin b, PInf => inf_of_sign (sgn b)
  | NInf, Fin b | Fin b, NInf => inf_of_sign (flip (sgn b))
  | PInf, PInf | NInf, NInf => PInf
  | PInf, NInf | NInf, PInf => NInf
  end.

(** numpy division: a finite value divided by zero is an infinity of the
    sign of the numerator, 0/0 and inf/inf are nan; nothing is raised. *)
Definition div (x y : float) : float :=
  match x, y with
  | NaN, _ | _, NaN => NaN
  | Fin a, Fin b =>
      match sgn b with
      | Eq => inf_of_sign (sgn a)
      | _ => Fin (Qred (a / b))
      end
  | Fin _, (PInf | NInf) => Fin 0
  | PInf, Fin b => match sgn b with Lt => NInf | _ => PInf end
  | NInf, Fin b => match sgn b with Lt => PInf | _ => NInf end
  | (PInf | NInf), (PInf | NInf) => NaN
  end.

(** Comparison; [None] when an operand is nan (every test is then false). *)
Definition cmp (x y : float) : option comparison :=
  match x, y with
  | NaN, _ | _, NaN => None
  | Fin a, Fin b => Some (a ?= b)
  | PInf, PInf | NInf, NInf => Some Eq
  | PInf, _ | _, NInf => Some Gt
  | NInf, _ | _, PInf => Some Lt
  end.

Definition gtb (x y : float) : bool :=
  match cmp x y with Some Gt => true | _ => false end.
Definition ltb (x y : float) : bool :=
  match cmp x y with Some Lt => true | _ => false end.
Definition eqb (x y : float) : bool :=
  match cmp x y with Some Eq => true | _ => false end.
Definition geb (x y : float) : bool :=
  match cmp x y with Some (Gt | Eq) => true | _ => false end.
Definition leb (x y : float) : bool :=
  match cmp x y with Some (Lt | Eq) => true | _ => false end.

(** [np.sqrt] is kept symbolic: [Sqrt v] stands for the float square root
    of [v].  It is nan exactly when [v] is nan or negative, and zero
    exactly when [v] is zero. *)
Inductive root : Type := Sqrt (radicand : float).

Definition root_is_nan (r : root) : bool :=
  match r with Sqrt v => is_nan v || ltb v (Fin 0) end.

Definition root_is_zero (r : root) : bool :=
  match r with Sqrt v => eqb v (Fin 0) end.

End Float.

Import Float.

Declare Scope float_scope.
Delimit Scope float_scope with float.
Bind Scope float_scope with float.
Infix "+" := Float.add : float_scope.
Infix "-" := Float.sub : float_scope.
Infix "*" := Float.mul : float_scope.
Infix "/" := Float.div : float_scope.
Infix ">?" := Float.gtb (at level 70) : float_scope.
Infix "<?" := Float.ltb (at level 70) : float_scope.
Infix "=?" := Float.eqb (at level 70) : float_scope.
Infix ">=?" := Float.geb (at level 70) : float_scope.
Infix "<=?" := Float.leb (at level 70) : float_scope.

(** Literals of the scripts. *)
Definition f0 : float := Fin 0.
Definition f30 : float := Fin 30.
Definition f60 : float := Fin 60.
Definition f100 : float := Fin 100.

(* ------------------------------------------------------------------ *)
(** ** Exceptions *)

Inductive exn : Type :=
| KeyError (key : string)
| ValueError (msg : string)
| IndexError (msg : string).

Inductive result (A : Type) : Type :=
| Ok (a : A)
| Raise (e : exn).
Arguments Ok {A} a.
Arguments Raise {A} e.

#[global] Instance result_ret : MRet result := fun A a => Ok a.
#[global] Instance result_bind : MBind result := fun A B f m =>
  match m with
  | Ok a => f a
  | Raise e => Raise e
  end.

#[global] Instance result_fmap : FMap result := fun A B f m =>
  match m with
  | Ok a => Ok (f a)
  | Raise e => Raise e
  end.

Definition raises {A} (m : result A) : bool :=
  match m with Ok _ => false | Raise _ => true end.

(* ------------------------------------------------------------------ *)
(** ** The pandas and numpy operations the scripts call *)

Module Pandas.

(** A column is a list of floats; a missing cell is nan. *)
Abbreviation Series := (list float).

(** A data frame: the length of its index and its named columns. *)
Record DataFrame : Type := mkDF {
  index_len : nat;
  data : gmap string Series
}.

(** Every column has one cell per row. *)
Definition wf_df (df : DataFrame) : Prop :=
  ∀ c s, data df !! c = Some s → length s = index_len df.

(** [column in df.columns] *)
Definition has_column (df : DataFrame) (c : string) : bool :=
  bool_decide (is_Some (data df !! c)).

(** [len(df)] *)
Definition len (df : DataFrame) : nat := index_len df.

(** [df[c]] *)
Definition getcol (df : DataFrame) (c : string) : result Series :=
  match data df !! c with
  | Some s => Ok s
  | None => Raise (KeyError c)
  end.

(** [df[c] = s] *)
Definition setcol (df : DataFrame) (c : string) (s : Series) : DataFrame :=
  mkDF (index_len df) (<[c := s]> (data df)).

(** [df[c] = v] with a scalar [v], broadcast over the index *)
Definition setcol_scalar (df : DataFrame) (c : string) (v : float) : DataFrame :=
  setcol df c (replicate (index_len df) v).

(** [df.iloc[i][c]]: the row is selected first, then the cell. *)
Definition iloc (df : DataFrame) (i : nat) (c : string) : result float :=
  if bool_decide (i < index_len df)%nat then
    match data df !! c with
    | Some s =>
        match s !! i with
        | Some v => Ok v
        | None => Raise (IndexError "single positional indexer is out-of-bounds")
        end
    | None => Raise (KeyError c)
    end
  else Raise (IndexError "single positional indexer is out-of-bounds").

(** [s.dropna()] *)
Definition dropna (s : Series) : Series :=
  filter (λ x, is_nan x = false) s.

(** Sum of a list, left to right from zero. *)
Definition fsum (s : Series) : float := foldl Float.add f0 s.

(** [s.cumsum()]: nan cells are skipped by the running sum and stay nan. *)
Fixpoint cumsum_from (acc : float) (s : Series) : Series :=
  match s with
  | [] => []
  | x :: r =>
      if is_nan x then NaN :: cumsum_from acc r
      else let a := (acc + x)%float in a :: cumsum_from a r
  end.
Definition cumsum (s : Series) : Series := cumsum_from f0 s.

Definition fmax (a b : float) : float := if (b >? a)%float then b else a.
Definition fmin (a b : float) : float := if (b <? a)%float then b else a.

(** [s.max()] and [s.min()]: nan cells are skipped; nan for no cells. *)
Definition max (s : Series) : float :=
  match dropna s with
  | [] => NaN
  | x :: r => foldl fmax x r
  end.
Definition min (s : Series) : float :=
  match dropna s with
  | [] => NaN
  | x :: r => foldl fmin x r
  end.

(** [s.mean()]: nan cells are skipped; nan (0/0) for no cells. *)
Definition mean (s : Series) : float :=
  let v := dropna s in (fsum v / of_nat (length v))%float.

(** Sum of squared deviations from [avg]. *)
Definition sqdev (avg : float) (s : Series) : float :=
  fsum (map (λ x, let d := (avg - x)%float in (d * d)%float) s).

(** [s.var()] with the default [ddof=1]: nan when at most one cell is
    left after the nan cells are dropped. *)
Definition var (s : Series) : float :=
  let v := dropna s in
  let count := length v in
  if bool_decide (count ≤ 1)%nat then NaN
  else (sqdev (fsum v / of_nat count)%float v / of_nat (count - 1))%float.

(** [s.std()] = sqrt of [s.var()] *)
Definition std (s : Series) : root := Sqrt (var s).

(** Insertion into a list sorted by [<=], for the median. *)
Fixpoint insert_sorted (x : float) (l : Series) : Series :=
  match l with
  | [] => [x]
  | y :: r => if (x <=? y)%float then x :: l else y :: insert_sorted x r
  end.
Definition sort (s : Series) : Series := foldr insert_sorted [] s.

(** [s.median()]: middle cell of the sorted non-nan cells, or the mean of
    the two middle cells. *)
Definition median (s : Series) : float :=
  let v := sort (dropna s) in
  let n := length v in
  if bool_decide (n = 0)%nat then NaN
  else if Nat.even n
       then ((default NaN (v !! (n / 2 - 1)%nat) + default NaN (v !! (n / 2)%nat))
             / Fin 2)%float
       else default NaN (v !! (n / 2)%nat).

End Pandas.

Module Numpy.

Abbreviation ndarray := (list float).

(** [np.mean(a)]: the sum over the length, nan cells included; the mean
    of an empty array is nan (0/0). *)
Definition mean (a : ndarray) : float :=
  (Pandas.fsum a / of_nat (length a))%float.

(** [np.arange(0, stop, step)] for a float [stop]: [ceil(stop/step)]
    points [0, step, 2*step, ...].  The length cannot be computed from a
    nan, and a length that is infinite is reported as
    ValueError('Maximum allowed size exceeded').  numpy reports that
    error also for a finite length above the largest array size of the
    machine, and a MemoryError below it when the memory is short; this
    bound is not modelled: every finite length gives a grid, so a
    returned grid stands for a run in which the array could be
    allocated. *)
Definition arange0 (stop step : float) : result ndarray :=
  match (stop / step)%float with
  | NaN => Raise (ValueError "arange: cannot compute length")
  | PInf | NInf => Raise (ValueError "Maximum allowed size exceeded")
  | Fin q =>
      let n := Z.to_nat (Qceiling q) in
      Ok (map (λ i, (of_nat i * step)%float) (seq 0 n))
  end.

(** Cell [j] of an array that is read in bounds. *)
Definition at_ (a : ndarray) (j : nat) : float := default NaN (a !! j).

(** The index that the search of [np.interp] returns: [-1] for a query
    left of the first sample point, [len] for one right of the last, or
    an index [j] of the array. *)
Inductive bracket : Type :=
| Before
| After
| At (j : nat).

(** Number of leading cells [a] with [key >= a]: the linear search
    [for (i = 1; i < len && key >= arr[i]; ++i)] over the tail. *)
Fixpoint scan (key : float) (l : ndarray) : nat :=
  match l with
  | [] => 0
  | a :: r => if (key >=? a)%float then S (scan key r) else 0
  end.

(** The bisection [while (imin < imax)]: the middle cell moves one of
    the two bounds.  The loop ends after at most [imax - imin] turns,
    which [fuel] has to cover; its result is the final [imin]. *)
Fixpoint bisect (fuel : nat) (key : float) (xp : ndarray) (imin imax : nat) : nat :=
  match fuel with
  | O => imin
  | S fuel =>
      if bool_decide (imin < imax)%nat then
        let imid := (imin + (imax - imin) / 2)%nat in
        if (key >=? at_ xp imid)%float
        then bisect fuel key xp (imid + 1) imax
        else bisect fuel key xp imin imid
      else imin
  end.

(** The return value [imin - 1] of the bisection. *)
Definition index_before (imin : nat) : bracket :=
  match imin with
  | O => Before
  | S j => At j
  end.

Definition LIKELY_IN_CACHE_SIZE : nat := 8.

(** [binary_search_with_guess(key, arr, len, guess)] of numpy's compiled
    code, the search of [np.interp]: the two range tests, a linear
    search for at most four sample points, otherwise the cells around
    the guess and then a bisection.  On sample points that do not
    decrease it returns the largest [j] with [xp[j] <= key]; on other
    arrays the result depends on the cells that are probed.  A guess of
    [-1] is passed as [0]: both are raised to [1]. *)
Definition binary_search_with_guess (key : float) (xp : ndarray) (guess : nat)
  : bracket :=
  let len := length xp in
  if (key >? at_ xp (len - 1))%float then After
  else if (key <? at_ xp 0)%float then Before
  else if bool_decide (len ≤ 4)%nat then At (scan key (tail xp))
  else
    let guess := Nat.max 1 (Nat.min guess (len - 3)) in
    if (key <? at_ xp guess)%float then
      if (key <? at_ xp (guess - 1))%float then
        let imax := (guess - 1)%nat in
        let imin :=
          if bool_decide (LIKELY_IN_CACHE_SIZE < guess)%nat
             && (key >=? at_ xp (guess - LIKELY_IN_CACHE_SIZE))%float
          then (guess - LIKELY_IN_CACHE_SIZE)%nat else 0%nat in
        index_before (bisect len key xp imin imax)
      else At (guess - 1)
    else if (key <? at_ xp (guess + 1))%float then At guess
    else if (key <? at_ xp (guess + 2))%float then At (guess + 1)
    else
      let imin := (guess + 2)%nat in
      let imax :=
        if bool_decide (guess + LIKELY_IN_CACHE_SIZE + 1 < len)%nat
           && (key <? at_ xp (guess + LIKELY_IN_CACHE_SIZE))%float
        then (guess + LIKELY_IN_CACHE_SIZE)%nat else len in
      index_before (bisect len key xp imin imax).

(** The interpolated value for a query [x] that is not nan, from the
    index found for it, for at least two sample points. *)
Definition interp_value (xp fp : ndarray) (x : float) (b : bracket) : float :=
  match b with
  | Before => at_ fp 0
  | After => at_ fp (length xp - 1)
  | At j =>
      if bool_decide (j = length xp - 1)%nat then at_ fp j
      else if (at_ xp j =? x)%float then at_ fp j
      else
        let slope :=
          ((at_ fp (j + 1) - at_ fp j) / (at_ xp (j + 1) - at_ xp j))%float in
        let r := (slope * (x - at_ xp j) + at_ fp j)%float in
        if is_nan r then
          let r' := (slope * (x - at_ xp (j + 1)) + at_ fp (j + 1))%float in
          if is_nan r' && (at_ fp j =? at_ fp (j + 1))%float then at_ fp j
          else r'
        else r
  end.

(** The index as the next guess. *)
Definition guess_of (b : bracket) (len : nat) : nat :=
  match b with
  | Before => 0
  | After => len
  | At j => j
  end.

(** The loop over the query points, for at least two sample points: a
    nan query gives nan, and the index found for one query is the guess
    for the next. *)
Fixpoint interp_loop (xp fp : ndarray) (j : nat) (x : ndarray) : ndarray :=
  match x with
  | [] => []
  | x_val :: r =>
      if is_nan x_val then x_val :: interp_loop xp fp j r
      else
        let b := binary_search_with_guess x_val xp j in
        interp_value xp fp x_val b :: interp_loop xp fp (guess_of b (length xp)) r
  end.

(** [np.interp(x, xp, fp)], after numpy's compiled routine: linear
    interpolation between the two bracketing samples and the end values
    outside them (the resampler of section 4.3).  An empty sample array
    and arrays of different lengths are rejected, a single sample gives a
    constant, a query equal to the sample point that is found returns
    that sample's value without arithmetic, and on sample points that do
    not decrease the last of several samples at one abscissa is the one
    that is found. *)
Definition interp (x xp fp : ndarray) : result ndarray :=
  if bool_decide (length xp = 0)%nat then
    Raise (ValueError "array of sample points is empty")
  else if bool_decide (length fp ≠ length xp) then
    Raise (ValueError "fp and xp are not of the same length.")
  else if bool_decide (length xp = 1)%nat then
    Ok (map (λ _, at_ fp 0) x)
  else Ok (interp_loop xp fp 0 x).

End Numpy.

Import Pandas.

(* ------------------------------------------------------------------ *)
(** ** Python helpers *)

(** [max(a, b)] on two arguments: [b] only when [b > a]. *)
Definition py_max (a b : float) : float := if (b >? a)%float then b else a.

(** A [for] loop over a list of indices that threads a state and stops
    at the first exception. *)
Fixpoint for_each {S I : Type} (body : S → I → result S) (s : S) (items : list I)
  : result S :=
  match items with
  | [] => Ok s
  | i :: r => s' ← body s i; for_each body s' r
  end.

(** [range(a, b)] *)
Definition range (a b : nat) : list nat := seq a (b - a).

(** [l.insert(0, x)] *)
Definition insert0 {A} (x : A) (l : list A) : list A := x :: l.

(** [a[-1]], read when [len(a) > 0]. *)
Definition last_of (a : list float) : float := List.last a NaN.

(** A formatted cell of a report table: a literal text, or a float
    printed with a fixed number of decimals and a suffix
    ([f"{v:.1f}%"] is [Fmt 1 v "%"]). *)
Inductive cell : Type :=
| Text (s : string)
| Fmt (decimals : nat) (v : float) (suffix : string).

(* ------------------------------------------------------------------ *)
(** ** Analysis/Compare_results_time_based.py

    Console output, the plots and the files written are not modelled. *)

Module Compare_results_time_based.

Definition convert_episodes_to_time (episode_df : DataFrame)
  : result (DataFrame * Numpy.ndarray) :=
  let episode_df :=
    if negb (has_column episode_df "GreenLightTime")
    then setcol_scalar episode_df "GreenLightTime" f30
    else episode_df in
  g ← getcol episode_df "GreenLightTime";
  let episode_df := setcol episode_df "CumulativeTime" (cumsum g) in
  c ← getcol episode_df "CumulativeTime";
  time_points ← Numpy.arange0 (Pandas.max c) f30;
  mret (episode_df, time_points).

(** Body of the loop of [calculate_rates] over [range(1, len(episode_df))]. *)
Definition rate_step (episode_df : DataFrame) (column : string)
    (rates : list float) (i : nat) : result (list float) :=
  g ← iloc episode_df i "GreenLightTime";
  let duration_minutes := (g / f60)%float in
  if (duration_minutes >? f0)%float then
    a ← iloc episode_df i column;
    b ← iloc episode_df (i - 1) column;
    let rate := ((a - b) / duration_minutes)%float in
    mret (rates ++ [py_max f0 rate])
  else mret (rates ++ [f0]).

(** The list [rates] of [calculate_rates] for one column, as it stands
    when it is handed to [np.interp]. *)
Definition rates_of (episode_df : DataFrame) (column : string)
  : result (list float) :=
  rates ← for_each (rate_step episode_df column) [] (range 1 (len episode_df));
  if bool_decide (0 < len episode_df)%nat then
    g ← iloc episode_df 0 "GreenLightTime";
    first_rate ←
      (if (g >? f0)%float then
         v ← iloc episode_df 0 column;
         g' ← iloc episode_df 0 "GreenLightTime";
         mret (v / (g' / f60))%float
       else mret f0);
    mret (insert0 first_rate rates)
  else mret rates.

Definition rate_columns : list string :=
  ["TotalVehicles"; "VehiclesWaiting"; "FuelConsumed"].

(** Body of the loop of [calculate_rates] over the three columns. *)
Definition calculate_column (episode_df : DataFrame) (time_points : Numpy.ndarray)
    (interpolated_data : gmap string Numpy.ndarray) (column : string)
  : result (gmap string Numpy.ndarray) :=
  if has_column episode_df column then
    rates ← rates_of episode_df column;
    xp ← getcol episode_df "CumulativeTime";
    v ← Numpy.interp time_points xp rates;
    mret (<[column +:+ "_Rate" := v]> interpolated_data)
  else mret interpolated_data.

Definition calculate_rates (episode_df : DataFrame) (time_points : Numpy.ndarray)
  : result (gmap string Numpy.ndarray) :=
  for_each (calculate_column episode_df time_points) ∅ rate_columns.

(** The dictionary [summary_data]: three columns of seven cells. *)
Record summary : Type := mkSummary {
  Metric : list string;
  ML_Agent : list cell;
  Static_Controller : list cell
}.

Definition set_ML_Agent (i : nat) (c : cell) (s : summary) : summary :=
  mkSummary (Metric s) (<[i := c]> (ML_Agent s)) (Static_Controller s).
Definition set_Static_Controller (i : nat) (c : cell) (s : summary) : summary :=
  mkSummary (Metric s) (ML_Agent s) (<[i := c]> (Static_Controller s)).

(** [np.mean(d.get(key, [0]))] *)
Definition mean_rate (d : gmap string Numpy.ndarray) (key : string) : float :=
  Numpy.mean (default [f0] (d !! key)).

Definition throughput_improvement (ml_throughput static_throughput : float) : float :=
  (((ml_throughput - static_throughput) / static_throughput) * f100)%float.
Definition queue_reduction (ml_queue static_queue : float) : float :=
  (((static_queue - ml_queue) / static_queue) * f100)%float.
Definition fuel_savings (ml_fuel static_fuel : float) : float :=
  (((static_fuel - ml_fuel) / static_fuel) * f100)%float.

Definition total_time_cell (time : Numpy.ndarray) : cell :=
  if bool_decide (0 < length time)%nat
  then Fmt 2 (last_of time / f60)%float ""
  else Text "0.00".

Definition generate_time_based_summary
    (ml_episode static_episode : DataFrame)
    (ml_data static_data : gmap string Numpy.ndarray)
    (ml_time static_time : Numpy.ndarray) : summary :=
  let summary_data := {|
    Metric := [
      "Total Simulation Time (minutes)";
      "Average Throughput Rate (vehicles/min)";
      "Average Queue Growth Rate (vehicles/min)";
      "Average Fuel Consumption Rate (L/min)";
      "ML vs Static Throughput Improvement (%)";
      "ML vs Static Queue Reduction (%)";
      "ML vs Static Fuel Savings (%)" ];
    ML_Agent := [
      total_time_cell ml_time;
      Fmt 2 (mean_rate ml_data "TotalVehicles_Rate") "";
      Fmt 2 (mean_rate ml_data "VehiclesWaiting_Rate") "";
      Fmt 2 (mean_rate ml_data "FuelConsumed_Rate") "";
      Text "-"; Text "-"; Text "-" ];
    Static_Controller := [
      total_time_cell static_time;
      Fmt 2 (mean_rate static_data "TotalVehicles_Rate") "";
      Fmt 2 (mean_rate static_data "VehiclesWaiting_Rate") "";
      Fmt 2 (mean_rate static_data "FuelConsumed_Rate") "";
      Text "-"; Text "-"; Text "-" ]
  |} in
  let ml_throughput := mean_rate ml_data "TotalVehicles_Rate" in
  let static_throughput := mean_rate static_data "TotalVehicles_Rate" in
  let ml_queue := mean_rate ml_data "VehiclesWaiting_Rate" in
  let static_queue := mean_rate static_data "VehiclesWaiting_Rate" in
  let ml_fuel := mean_rate ml_data "FuelConsumed_Rate" in
  let static_fuel := mean_rate static_data "FuelConsumed_Rate" in
  let summary_data :=
    if (static_throughput >? f0)%float then
      set_Static_Controller 4 (Text "0.0%")
        (set_ML_Agent 4
           (Fmt 1 (throughput_improvement ml_throughput static_throughput) "%")
           summary_data)
    else summary_data in
  let summary_data :=
    if (static_queue >? f0)%float then
      set_Static_Controller 5 (Text "0.0%")
        (set_ML_Agent 5 (Fmt 1 (queue_reduction ml_queue static_queue) "%")
           summary_data)
    else summary_data in
  let summary_data :=
    if (static_fuel >? f0)%float then
      set_Static_Controller 6 (Text "0.0%")
        (set_ML_Agent 6 (Fmt 1 (fuel_savings ml_fuel static_fuel) "%")
           summary_data)
    else summary_data in
  summary_data.

(** [main], after the files are loaded: both policies are converted,
    then both rate tables are computed, then the summary is built. *)
Definition main (ml_episode static_episode : DataFrame) : result summary :=
  '(ml_episode, ml_time) ← convert_episodes_to_time ml_episode;
  '(static_episode, static_time) ← convert_episodes_to_time static_episode;
  ml_data ← calculate_rates ml_episode ml_time;
  static_data ← calculate_rates static_episode static_time;
  mret (generate_time_based_summary ml_episode static_episode
          ml_data static_data ml_time static_time).

End Compare_results_time_based.

(* ------------------------------------------------------------------ *)
(** ** The two rate expressions on binary64 values

    The cells that [calculate_rates] divides are [float64] values.  Its
    two rate expressions are repeated here on binary64 values, whose
    operations round as those of numpy do, for the one effect that
    decides a branch and that exact values cannot show: a positive
    duration whose value in minutes rounds to zero. *)

Module Binary64.
#[local] Set Warnings "-notation-overridden".
Import PrimFloat.
Local Open Scope float_scope.

(** Line 59: the rate of the first episode; the test reads the
    duration, the division is by the duration in minutes. *)
Definition first_rate (value duration : float) : float :=
  if 0 <? duration then value / (duration / 60) else 0.

(** Lines 50-55: the rate of a later episode; the test reads the
    duration in minutes, and [max(0, rate)] is [rate] only when
    [rate > 0]. *)
Definition loop_rate (value previous duration : float) : float :=
  let duration_minutes := duration / 60 in
  if 0 <? duration_minutes then
    let rate := (value - previous) / duration_minutes in
    if 0 <? rate then rate else 0
  else 0.

(** The smallest positive binary64 value, 5e-324. *)
Definition smallest_positive : float := 0x1p-1074.

Definition f10 : float := 10.
Definition f25 : float := 25.
Definition f60 : float := 60.

End Binary64.

(* ------------------------------------------------------------------ *)
(** ** Analysis/analyze_stats.py, class TrafficSignalComparison

    The methods are modelled on the two episode tables, that is on
    [self.ml_data['episodes']] and [self.static_data['episodes']]. *)

Module analyze_stats.

(** The dictionaries [ml_stats] and [static_stats]. *)
Record stats : Type := mkStats {
  mean : float;
  std : root;
  median : float;
  min : float;
  max : float
}.

Definition stats_of (values : Series) : stats := {|
  mean := Pandas.mean values;
  std := Pandas.std values;
  median := Pandas.median values;
  min := Pandas.min values;
  max := Pandas.max values
|}.

(** One entry of [results]. *)
Record row : Type := mkRow {
  Metric : string;
  ML_Mean : float;
  Static_Mean : float;
  ML_Std : root;
  Static_Std : root;
  Improvement_pct : float
}.

Definition comparison_metrics : list string :=
  ["TotalVehicles"; "VehiclesWaiting"; "FuelConsumed"; "EpisodeDuration"].

(** The improvement percentage of [statistical_comparison], the same
    expression for every metric. *)
Definition improvement (ml_stats static_stats : stats) : float :=
  (((mean static_stats - mean ml_stats) / mean static_stats) * f100)%float.

(** The verdict printed next to the improvement. *)
Definition verdict (improvement : float) : string :=
  if (improvement >? f0)%float then "(ML better)" else "(Static better)".

Definition statistical_comparison (ml_episodes static_episodes : DataFrame)
  : result (list row) :=
  for_each
    (λ (results : list row) metric,
       if has_column ml_episodes metric && has_column static_episodes metric then
         ml_col ← getcol ml_episodes metric;
         let ml_values := dropna ml_col in
         static_col ← getcol static_episodes metric;
         let static_values := dropna static_col in
         let ml_stats := stats_of ml_values in
         let static_stats := stats_of static_values in
         let improvement := improvement ml_stats static_stats in
         mret (results ++ [ {|
           Metric := metric;
           ML_Mean := mean ml_stats;
           Static_Mean := mean static_stats;
           ML_Std := std ml_stats;
           Static_Std := std static_stats;
           Improvement_pct := improvement |} ])
       else mret results)
    [] comparison_metrics.

(** The choice of the better policy in [generate_performance_report]:
    a higher mean wins for TotalVehicles, a lower mean for the others. *)
Definition better (metric : string) (ml_mean static_mean : float) : string :=
  if bool_decide (metric = "TotalVehicles") then
    if (ml_mean >? static_mean)%float then "ML" else "Static"
  else
    if (ml_mean <? static_mean)%float then "ML" else "Static".

End analyze_stats.

(* ------------------------------------------------------------------ *)
(** ** Analysis/Compare_results.py

    The two episode tables are [None] when their file does not exist.
    The result is the comparison table that is printed and saved, or
    [None] when a table is missing. *)

Module Compare_results.

Record table : Type := mkTable {
  Metric : list string;
  ML_Agent : list cell;
  Fixed_Time : list cell
}.

(** [l[-1] = c] on a non-empty list *)
Definition set_last (c : cell) (l : list cell) : list cell :=
  <[(length l - 1)%nat := c]> l.

(** The improvement of the comparison table, computed without a test
    of the divisor. *)
Definition improvement (ml_throughput static_throughput : float) : float :=
  (((ml_throughput - static_throughput) / static_throughput) * f100)%float.

(** The column reads of one line plot of the figure. *)
Definition plot_reads (ml static : DataFrame) (column : string) : result unit :=
  _ ← getcol ml "Episode";
  _ ← getcol ml column;
  _ ← getcol static "Episode";
  _ ← getcol static column;
  mret ().

(** The test for the fuel column; the message is the one of the script,
    with its typographic quotes (a string holds the UTF-8 bytes). *)
Definition check_fuel (file : string) (df : option DataFrame) : result unit :=
  match df with
  | Some d =>
      if negb (has_column d "FuelConsumed")
      then Raise (KeyError (file +:+ " missing ‘FuelConsumed’ column"))
      else mret ()
  | None => mret ()
  end.

Definition analyze_comparison_results
    (ml_episode_df static_episode_df : option DataFrame) : result (option table) :=
  _ ← check_fuel "episode_results.csv" ml_episode_df;
  _ ← check_fuel "static_episode_results.csv" static_episode_df;
  match ml_episode_df, static_episode_df with
  | Some ml, Some static =>
      _ ← plot_reads ml static "TotalVehicles";
      _ ← plot_reads ml static "VehiclesWaiting";
      _ ← plot_reads ml static "FuelConsumed";
      ml_tv ← getcol ml "TotalVehicles";
      static_tv ← getcol static "TotalVehicles";
      ml_fc ← getcol ml "FuelConsumed";
      static_fc ← getcol static "FuelConsumed";
      ml_vw ← getcol ml "VehiclesWaiting";
      static_vw ← getcol static "VehiclesWaiting";
      let ml_avg_fuel := Pandas.mean ml_fc in
      let static_avg_fuel := Pandas.mean static_fc in
      let comparison_data := {|
        Metric := [
          "Average Vehicles Served";
          "Average Queue Length";
          "Average Fuel Consumed (L)";
          "Max Throughput";
          "Min Queue Length";
          "Performance Improvement (%)" ];
        ML_Agent := [
          Fmt 2 (Pandas.mean ml_tv) "";
          Fmt 2 (Pandas.mean ml_vw) "";
          Fmt 2 ml_avg_fuel "";
          Fmt 0 (Pandas.max ml_tv) "";
          Fmt 0 (Pandas.min ml_vw) "";
          Text "-" ];
        Fixed_Time := [
          Fmt 2 (Pandas.mean static_tv) "";
          Fmt 2 (Pandas.mean static_vw) "";
          Fmt 2 static_avg_fuel "";
          Fmt 0 (Pandas.max static_tv) "";
          Fmt 0 (Pandas.min static_vw) "";
          Text "-" ]
      |} in
      let ml_throughput := Pandas.mean ml_tv in
      let static_throughput := Pandas.mean static_tv in
      let improvement := improvement ml_throughput static_throughput in
      mret (Some {|
        Metric := Metric comparison_data;
        ML_Agent := set_last (Fmt 1 improvement "%") (ML_Agent comparison_data);
        Fixed_Time := set_last (Text "Baseline (0%)") (Fixed_Time comparison_data)
      |})
  | _, _ => mret None
  end.

End Compare_results.

(* ------------------------------------------------------------------ *)
(** ** Definitions used to state the properties *)

Import Compare_results_time_based.

(** Cell [i] of column [c], for a cell that exists. *)
Definition cell_at (df : DataFrame) (c : string) (i : nat) : float :=
  default NaN (data df !! c ≫= λ s, s !! i).

(** The entry that one turn [i] of the loop of [calculate_rates] appends. *)
Definition loop_rate (df : DataFrame) (column : string) (i : nat) : float :=
  let duration_minutes := (cell_at df "GreenLightTime" i / f60)%float in
  if (duration_minutes >? f0)%float then
    py_max f0 ((cell_at df column i - cell_at df column (i - 1)) / duration_minutes)%float
  else f0.

(** The entry that is inserted in front for the first episode. *)
Definition first_rate_of (df : DataFrame) (column : string) : float :=
  if (cell_at df "GreenLightTime" 0 >? f0)%float then
    (cell_at df column 0 / (cell_at df "GreenLightTime" 0 / f60))%float
  else f0.

(** A rate that is not negative: a finite value [>= 0] or +inf. *)
Definition nonneg (x : float) : bool := (x >=? f0)%float.

(** Example tables. *)
Definition episodes (duration vehicles : Series) : DataFrame :=
  mkDF (length duration)
       (<["GreenLightTime" := duration]> (<["TotalVehicles" := vehicles]> ∅)).

Definition one_episode : DataFrame := episodes [Fin 30] [Fin 10].
Definition two_episodes : DataFrame := episodes [Fin 30; Fin 30] [Fin 10; Fin 25].

(** Example tables and auxiliary definitions of the later sections. *)

(** Three episodes: the second lasts 0 s, the third has a lower value
    than the second. *)
Definition three_episodes : DataFrame :=
  episodes [Fin 30; Fin 0; Fin 30] [Fin 10; Fin 25; Fin 5].

(** One episode of 30 s whose metric value is -10. *)
Definition negative_first : DataFrame := episodes [Fin 30] [Fin (-10)].

(** A table with the single column [c]. *)
Definition single_column (c : string) (v : Series) : DataFrame :=
  mkDF (length v) {[ c := v ]}.

(** A table with the four columns that [Compare_results] reads. *)
Definition comparison_table (episode vehicles waiting fuel : Series) : DataFrame :=
  mkDF (length episode)
    (<["Episode" := episode]> (<["TotalVehicles" := vehicles]>
      (<["VehiclesWaiting" := waiting]> {[ "FuelConsumed" := fuel ]}))).

(** A table with the duration and vehicle columns and no episode. *)
Definition no_episodes : DataFrame := episodes [] [].

(** The three improvement rows of the summary: the row index and the
    rate series whose static mean guards it. *)
Definition improvement_rows : list (nat * string) :=
  [(4%nat, "TotalVehicles_Rate"); (5%nat, "VehiclesWaiting_Rate");
   (6%nat, "FuelConsumed_Rate")].

(** The improvement that a row reports when it is computed. *)
Definition row_improvement (i : nat) (ml static : float) : float :=
  match i with
  | 4%nat => throughput_improvement ml static
  | 5%nat => queue_reduction ml static
  | _ => fuel_savings ml static
  end.

Ltac rate_column_cases H :=
  unfold rate_columns in H;
  repeat (apply elem_of_cons in H as [H|H]); [..|by apply elem_of_nil in H];
  subst.

(** Two episodes with the FuelConsumed column as well. *)
Definition episodes_with_fuel (duration vehicles fuel : Series) : DataFrame :=
  setcol (episodes duration vehicles) "FuelConsumed" fuel.

Definition ml_with_fuel : DataFrame :=
  episodes_with_fuel [Fin 30; Fin 30] [Fin 10; Fin 25] [Fin 2; Fin 5].

(** A comparison table without the FuelConsumed column. *)
Definition table_without_fuel : DataFrame :=
  mkDF 1 (<["Episode" := [Fin 1]]> (<["TotalVehicles" := [Fin 10]]>
            {[ "VehiclesWaiting" := [Fin 3] ]})).

(** The table [two_episodes] once its time axis is added. *)
Definition two_episodes_timed : DataFrame :=
  setcol two_episodes "CumulativeTime" [Fin 30; Fin 60].

(** Sum of a list of rationals. *)
Definition Qsum (l : list Q) : Q := foldr Qplus 0 l.

(** The higher-is-better improvement of series [a] over series [b]. *)
Definition improvement_of (a b : Numpy.ndarray) : float :=
  throughput_improvement (Numpy.mean a) (Numpy.mean b).

(** Two episodes of which the second lasts 0 s. *)
Definition tied_episodes : DataFrame := episodes [Fin 30; Fin 0] [Fin 10; Fin 25].
Definition tied_episodes_timed : DataFrame :=
  setcol tied_episodes "CumulativeTime" [Fin 30; Fin 30].

(* ------------------------------------------------------------------ *)
(** ** Analysis/analyze_stats.py, further methods of the class *)

Module TrafficSignalComparison.

Definition metrics_to_analyze : list string :=
  ["TotalVehicles"; "VehiclesWaiting"; "FuelConsumed"; "EpisodeDuration"].

(** The two counters of [generate_performance_report]. *)
Record counts : Type := mkCounts {
  ml_better_count : nat;
  static_better_count : nat
}.

(** The three overall verdicts that the report prints. *)
Inductive overall : Type :=
| ML_Agent_better
| Static_Controller_better
| Comparable.

(** Body of the loop over [metrics_to_analyze]. *)
Definition count_step (ml_episodes static_episodes : DataFrame)
    (c : counts) (metric : string) : result counts :=
  if has_column ml_episodes metric && has_column static_episodes metric then
    ml_col ← getcol ml_episodes metric;
    let ml_mean := Pandas.mean ml_col in
    static_col ← getcol static_episodes metric;
    let static_mean := Pandas.mean static_col in
    let better := analyze_stats.better metric ml_mean static_mean in
    if bool_decide (better = "ML")
    then mret (mkCounts (S (ml_better_count c)) (static_better_count c))
    else mret (mkCounts (ml_better_count c) (S (static_better_count c)))
  else mret c.

Definition overall_of (c : counts) : overall :=
  if bool_decide (static_better_count c < ml_better_count c)%nat then ML_Agent_better
  else if bool_decide (ml_better_count c < static_better_count c)%nat
       then Static_Controller_better
       else Comparable.

(** [generate_performance_report] up to its overall verdict: the counting
    loop and the verdict that is printed.  The printout of the reward
    trend that follows is not modelled. *)
Definition generate_performance_report (ml_episodes static_episodes : DataFrame)
  : result (counts * overall) :=
  c ← for_each (count_step ml_episodes static_episodes) (mkCounts 0 0)
        metrics_to_analyze;
  mret (c, overall_of c).

(** [df[m].mean() if m in df.columns else 0] *)
Definition mean_or_zero (df : DataFrame) (m : string) : float :=
  match data df !! m with
  | Some s => Pandas.mean s
  | None => f0
  end.

(** The column reads of one line plot of [create_dashboard]: only the
    ML interval table is tested for the column. *)
Definition line_plot_reads (ml_intervals static_intervals : DataFrame)
    (column : string) : result unit :=
  if has_column ml_intervals column then
    _ ← getcol ml_intervals "SimulationTime";
    _ ← getcol ml_intervals column;
    _ ← getcol static_intervals "SimulationTime";
    _ ← getcol static_intervals column;
    mret ()
  else mret ().

(** One row [ml_val, static_val] of the heat map, divided by its
    maximum when that is positive. *)
Definition normalize_row (row : float * float) : float * float :=
  let max_val := py_max row.1 row.2 in
  if (max_val >? f0)%float
  then ((row.1 / max_val)%float, (row.2 / max_val)%float)
  else row.

(** Body of the loop that collects [comparison_data]. *)
Definition comparison_step (ml_episodes static_episodes : DataFrame)
    (comparison_data : list (float * float)) (metric : string)
  : result (list (float * float)) :=
  if has_column ml_episodes metric && has_column static_episodes metric then
    ml_col ← getcol ml_episodes metric;
    static_col ← getcol static_episodes metric;
    mret (comparison_data ++ [(Pandas.mean ml_col, Pandas.mean static_col)])
  else mret comparison_data.

(** What [create_dashboard] draws: the two bar groups and the heat map
    with its row labels, if any. *)
Record dashboard : Type := mkDashboard {
  ml_means : list float;
  static_means : list float;
  heatmap : option (list string * list (float * float))
}.

Definition create_dashboard
    (ml_episodes static_episodes ml_intervals static_intervals ml_rewards : DataFrame)
  : result dashboard :=
  let metrics := ["TotalVehicles"; "VehiclesWaiting"] in
  let ml_means := map (mean_or_zero ml_episodes) metrics in
  let static_means := map (mean_or_zero static_episodes) metrics in
  _ ← line_plot_reads ml_intervals static_intervals "FuelConsumed";
  _ ← line_plot_reads ml_intervals static_intervals "QueueLength";
  _ ← (if has_column ml_rewards "CumulativeReward" then
         _ ← getcol ml_rewards "Step";
         _ ← getcol ml_rewards "CumulativeReward";
         mret ()
       else mret ());
  let metrics := metrics_to_analyze in
  comparison_data ← for_each (comparison_step ml_episodes static_episodes) [] metrics;
  mret {|
    ml_means := ml_means;
    static_means := static_means;
    heatmap :=
      if bool_decide (comparison_data = []) then None
      else Some (filter (λ m, has_column ml_episodes m = true
                              ∧ has_column static_episodes m = true) metrics,
                 map normalize_row comparison_data)
  |}.

End TrafficSignalComparison.

(* ------------------------------------------------------------------ *)
(** ** matplotlib *)

Module Matplotlib.

(** [ax.plot(x, y)]: the two series must have the same length. *)
Definition plot (x y : Series) : result unit :=
  if bool_decide (length x = length y) then Ok ()
  else Raise (ValueError "x and y must have same first dimension").

End Matplotlib.

(* ------------------------------------------------------------------ *)
(** ** Analysis/Compare_results_time_based.py, the plots *)

(** [d[key]] on a dictionary of rate series *)
Definition getitem (d : gmap string Numpy.ndarray) (key : string)
  : result Numpy.ndarray :=
  match d !! key with
  | Some v => Ok v
  | None => Raise (KeyError key)
  end.

(** One of the three rate plots: it is drawn when both rate tables have
    the key, each series against its own grid in minutes. *)
Definition rate_plot (ml_data static_data : gmap string Numpy.ndarray)
    (ml_time static_time : Numpy.ndarray) (key : string) : result unit :=
  if bool_decide (is_Some (ml_data !! key))
     && bool_decide (is_Some (static_data !! key)) then
    ml_rate ← getitem ml_data key;
    _ ← Matplotlib.plot (map (λ t, (t / f60)%float) ml_time) ml_rate;
    static_rate ← getitem static_data key;
    Matplotlib.plot (map (λ t, (t / f60)%float) static_time) static_rate
  else mret ().

(** [time[-1] / 60 if len(time) > 0 else 0] *)
Definition total_time (time : Numpy.ndarray) : float :=
  if bool_decide (0 < length time)%nat then (last_of time / f60)%float else f0.

(** The four bar heights of one policy. *)
Definition bar_values (rate_data : gmap string Numpy.ndarray)
    (time : Numpy.ndarray) : list float :=
  [ total_time time;
    mean_rate rate_data "TotalVehicles_Rate";
    mean_rate rate_data "VehiclesWaiting_Rate";
    mean_rate rate_data "FuelConsumed_Rate" ].

(** [create_time_based_plots]: the three rate plots, then the bar heights
    [ml_values] and [static_values] of the fourth plot. *)
Definition create_time_based_plots (ml_data static_data : gmap string Numpy.ndarray)
    (ml_time static_time : Numpy.ndarray) : result (list float * list float) :=
  _ ← rate_plot ml_data static_data ml_time static_time "TotalVehicles_Rate";
  _ ← rate_plot ml_data static_data ml_time static_time "VehiclesWaiting_Rate";
  _ ← rate_plot ml_data static_data ml_time static_time "FuelConsumed_Rate";
  let ml_values := bar_values ml_data ml_time in
  let static_values := bar_values static_data static_time in
  mret (ml_values, static_values).

(** [main] with its call of [create_time_based_plots], which stands
    between the rate tables and the summary. *)
Definition main_with_plots (ml_episode static_episode : DataFrame) : result summary :=
  '(ml_episode, ml_time) ← convert_episodes_to_time ml_episode;
  '(static_episode, static_time) ← convert_episodes_to_time static_episode;
  ml_data ← calculate_rates ml_episode ml_time;
  static_data ← calculate_rates static_episode static_time;
  _ ← create_time_based_plots ml_data static_data ml_time static_time;
  mret (generate_time_based_summary ml_episode static_episode
          ml_data static_data ml_time static_time).

(* ------------------------------------------------------------------ *)
(** ** Analysis/analyze_ml_training_time_based.py *)

Module analyze_ml_training_time_based.

Import Matplotlib.

(** [s.iloc[-1]] *)
Definition iloc_last (s : Series) : result float :=
  match last s with
  | Some v => Ok v
  | None => Raise (IndexError "single positional indexer is out-of-bounds")
  end.

(** [s.diff()]: nan in front, then the differences of neighbours. *)
Definition diff (s : Series) : Series :=
  match s with
  | [] => []
  | _ :: r => NaN :: zip_with (λ prev cur, (cur - prev)%float) s r
  end.

(** The mean of one window of [s.rolling(window=w).mean()]: nan unless the
    window holds [w] cells that are not nan. *)
Definition window_mean (w : nat) (win : Series) : float :=
  let v := dropna win in
  if bool_decide (length v < w)%nat then NaN
  else (fsum v / of_nat (length v))%float.

(** [s.rolling(window=w).mean()]: cell [i] is the mean of the cells
    [i-w+1 .. i]. *)
Definition rolling_mean (w : nat) (s : Series) : Series :=
  map (λ i, window_mean w (take (Nat.min w (S i)) (drop (S i - w) s)))
      (seq 0 (length s)).

(** [x < np.sqrt(v) * 0.1], decided on the exact values. *)
Definition lt_tenth_of_root (x : float) (r : root) : bool :=
  match r with
  | Sqrt (Fin q) =>
      match q ?= 0 with
      | Lt => false
      | _ =>
          match x with
          | Fin a =>
              match a ?= 0 with
              | Lt => true
              | _ => match 100 * a * a ?= q with Lt => true | _ => false end
              end
          | NInf => true
          | _ => false
          end
      end
  | Sqrt PInf => match x with Fin _ | NInf => true | _ => false end
  | Sqrt _ => false
  end.

(** [np.where(mask)[0]]: the indices of the cells that satisfy [p]. *)
Definition where_ (p : float → bool) (s : Series) : list nat :=
  filter (λ i, p (default NaN (s !! i)) = true) (seq 0 (length s)).

(** [analyze_training_efficiency] on two loaded tables: the table with
    its time axis added, the total time and the efficiency. *)
Definition training_efficiency_of (episode_data : DataFrame)
  : result (DataFrame * float * float) :=
  if has_column episode_data "EpisodeDuration" then
    d ← getcol episode_data "EpisodeDuration";
    let episode_data := setcol episode_data "CumulativeTime" (cumsum d) in
    c ← getcol episode_data "CumulativeTime";
    total_training_time ← iloc_last c;
    let training_efficiency :=
      (of_nat (len episode_data) / (total_training_time / f60))%float in
    mret (episode_data, total_training_time, training_efficiency)
  else
    let episode_data :=
      setcol episode_data "CumulativeTime"
        (map (λ i, (of_nat i * f60)%float) (seq 0 (len episode_data))) in
    c ← getcol episode_data "CumulativeTime";
    total_training_time ← iloc_last c;
    let training_efficiency :=
      (of_nat (len episode_data) / (total_training_time / f60))%float in
    mret (episode_data, total_training_time, training_efficiency).

Definition analyze_training_efficiency (episode_data reward_data : option DataFrame)
  : result (option (DataFrame * float * float)) :=
  match episode_data, reward_data with
  | Some episode_data, Some _ => Some <$> training_efficiency_of episode_data
  | _, _ => mret None
  end.

(** A raw series and, for a window above 1, its moving average. *)
Definition smoothed_plot (episode_data : DataFrame) (time_minutes : Series)
    (column : string) : result unit :=
  if has_column episode_data column then
    let window := Nat.min 10 (len episode_data / 10) in
    _ ← (if bool_decide (1 < window)%nat then
           c ← getcol episode_data column;
           plot time_minutes (rolling_mean window c)
         else mret ());
    c ← getcol episode_data column;
    plot time_minutes c
  else mret ().

Definition create_training_progress_plots (episode_data reward_data : DataFrame)
  : result unit :=
  ct ← getcol episode_data "CumulativeTime";
  let time_minutes := map (λ t, (t / f60)%float) ct in
  _ ← (if has_column episode_data "CumulativeReward" then
         c ← getcol episode_data "CumulativeReward";
         plot time_minutes c
       else mret ());
  _ ← smoothed_plot episode_data time_minutes "TotalVehicles";
  _ ← smoothed_plot episode_data time_minutes "FuelConsumed";
  if has_column episode_data "CurrentReward" then
    let window := Nat.min 20 (len episode_data / 5) in
    if bool_decide (1 < window)%nat then
      c ← getcol episode_data "CurrentReward";
      let reward_improvement := diff (rolling_mean window c) in
      let valid_time := drop window time_minutes in
      let valid_improvement := dropna reward_improvement in
      if bool_decide (0 < length valid_improvement)%nat
      then plot valid_time valid_improvement
      else mret ()
    else mret ()
  else mret ().

(** A cell of the column [Value] of the training summary. *)
Inductive value : Type :=
| Str (s : string)
| Len (n : nat)
| Fmt (decimals : nat) (v : float)
| Plain (v : float).

(** The eight labels of the column [Training Metric]. *)
Definition training_metrics : list string :=
  [ "Total Training Time (minutes)";
    "Total Episodes Completed";
    "Training Efficiency (episodes/min)";
    "Final Cumulative Reward";
    "Average Vehicles per Episode";
    "Average Fuel per Episode (L)";
    "Best Episode Performance (Vehicles)";
    "Training Convergence Time (minutes)" ].

(** [l[i] = v] on a Python list *)
Definition list_assign (l : list value) (i : nat) (v : value) : result (list value) :=
  if bool_decide (i < length l)%nat then Ok (<[i := v]> l)
  else Raise (IndexError "list assignment index out of range").

(** The cell for the convergence time. *)
Definition convergence_value (episode_data : DataFrame) : result value :=
  if has_column episode_data "CumulativeReward"
     && bool_decide (10 < len episode_data)%nat then
    c ← getcol episode_data "CumulativeReward";
    let reward_diff := rolling_mean 10 (diff c) in
    let convergence_idx :=
      where_ (λ x, lt_tenth_of_root x (Pandas.std reward_diff)) reward_diff in
    match convergence_idx with
    | i :: _ =>
        t ← iloc episode_data i "CumulativeTime";
        mret (Fmt 2 (t / f60)%float)
    | [] => mret (Str "Not converged")
    end
  else mret (Str "N/A").

(** [pd.DataFrame(summary)]: the two columns must have the same length. *)
Definition make_frame (labels : list string) (values : list value)
  : result (list string * list value) :=
  if bool_decide (length labels = length values) then Ok (labels, values)
  else Raise (ValueError "All arrays must be of the same length").

Definition generate_training_summary (episode_data reward_data : DataFrame)
    (total_training_time training_efficiency : float)
  : result (list string * list value) :=
  let Value := [] in
  let Value := Value ++ [Fmt 2 (total_training_time / f60)%float] in
  let Value := Value ++ [Len (len episode_data)] in
  let Value := Value ++ [Fmt 2 training_efficiency] in
  Value ←
    (if has_column episode_data "CumulativeReward" then
       c ← getcol episode_data "CumulativeReward";
       final ← iloc_last c;
       mret (Value ++ [Fmt 2 final])
     else mret (Value ++ [Str "N/A"]));
  Value ←
    (if has_column episode_data "TotalVehicles" then
       c ← getcol episode_data "TotalVehicles";
       mret ((Value ++ [Fmt 1 (Pandas.mean c)]) ++ [Plain (Pandas.max c)])
     else mret ((Value ++ [Str "N/A"]) ++ [Str "N/A"]));
  Value ←
    (if has_column episode_data "FuelConsumed" then
       c ← getcol episode_data "FuelConsumed";
       list_assign Value 5 (Fmt 2 (Pandas.mean c))
     else mret (Value ++ [Str "N/A"]));
  conv ← convergence_value episode_data;
  let Value := Value ++ [conv] in
  make_frame training_metrics Value.

(** [main], after the two files are loaded. *)
Definition main (episode_data reward_data : DataFrame)
  : result (list string * list value) :=
  '(episode_data, total_training_time, training_efficiency) ←
    training_efficiency_of episode_data;
  _ ← create_training_progress_plots episode_data reward_data;
  generate_training_summary episode_data reward_data
    total_training_time training_efficiency.

End analyze_ml_training_time_based.

(* ------------------------------------------------------------------ *)
(** ** Analysis/analyze_results.py *)

Module analyze_results.

(** The five values that [analyze_traffic_results] prints under
    EPISODE STATISTICS, once both files are loaded. *)
Record statistics : Type := mkStatistics {
  Total_Episodes : nat;
  Average_Vehicles : float;
  Average_Wait : float;
  Average_Duration : float;
  Final_Cumulative_Reward : float
}.

(** The columns that are read for them, in the order of the reads. *)
Definition statistics_columns : list string :=
  ["TotalVehicles"; "VehiclesWaiting"; "EpisodeDuration"; "CumulativeReward"].

(** The first block of [analyze_traffic_results]: it stands before every
    plot and before the summary table. *)
Definition episode_statistics (episode_df : DataFrame) : result statistics :=
  let total := len episode_df in
  tv ← getcol episode_df "TotalVehicles";
  vw ← getcol episode_df "VehiclesWaiting";
  ed ← getcol episode_df "EpisodeDuration";
  cr ← getcol episode_df "CumulativeReward";
  final ← analyze_ml_training_time_based.iloc_last cr;
  mret (mkStatistics total (Pandas.mean tv) (Pandas.mean vw) (Pandas.mean ed) final).

End analyze_results.

(** Two training episodes with every column that the training scripts read. *)
Definition training_episodes : DataFrame :=
  mkDF 2 (<["TotalVehicles" := [Fin 10; Fin 25]]>
           (<["VehiclesWaiting" := [Fin 3; Fin 4]]>
             (<["EpisodeDuration" := [Fin 30; Fin 30]]>
               (<["FuelConsumed" := [Fin 2; Fin 5]]>
                 (<["CumulativeTime" := [Fin 30; Fin 60]]>
                   {[ "CumulativeReward" := [Fin 5; Fin 12] ]}))))).

(** Both tables have the column [m]. *)
Definition in_both (ml static : DataFrame) (m : string) : bool :=
  has_column ml m && has_column static m.

(** The metric [m] is compared and counted for the ML agent. *)
Definition ml_wins (ml static : DataFrame) (m : string) : bool :=
  in_both ml static m
  && bool_decide (analyze_stats.better m
                    (TrafficSignalComparison.mean_or_zero ml m)
                    (TrafficSignalComparison.mean_or_zero static m) = "ML").

(** The metric [m] is compared and counted for the static controller. *)
Definition static_wins (ml static : DataFrame) (m : string) : bool :=
  in_both ml static m && negb (ml_wins ml static m).

(** The columns that [analyze_comparison_results] reads from each table. *)
Definition required_columns : list string :=
  ["Episode"; "TotalVehicles"; "VehiclesWaiting"; "FuelConsumed"].

Definition required_present (df : DataFrame) : bool :=
  forallb (has_column df) required_columns.

(** A duration that is a number [>= 0]. *)
Definition duration_ok (x : float) : bool := is_finite x && nonneg x.

(* ------------------------------------------------------------------ *)
(** ** Basic facts *)

Lemma wf_df_decide (df : DataFrame) :
  bool_decide (map_Forall (λ _ (s : Series), length s = index_len df) (data df)) = true →
  wf_df df.
Proof. intros H. exact (proj1 (bool_decide_eq_true _) H). Qed.

Lemma cmp_Fin (a b : Q) : Float.cmp (Fin a) (Fin b) = Some (a ?= b).
Proof. reflexivity. Qed.

Lemma div_f60_Fin (q : Q) : (Fin q / f60)%float = Fin (Qred (q / 60)).
Proof. reflexivity. Qed.

Section rates.
Variables (df : DataFrame) (column : string).
Hypothesis Hwf : wf_df df.
Hypothesis Hdur : has_column df "GreenLightTime" = true.
Hypothesis Hcol : has_column df column = true.

Lemma iloc_cell (c : string) (i : nat) :
  has_column df c = true → (i < len df)%nat →
  iloc df i c = Ok (cell_at df c i).
Proof using Hwf.
  unfold has_column, iloc, cell_at, len. intros Hc Hi.
  apply bool_decide_eq_true in Hc. destruct Hc as [s Hs].
  rewrite bool_decide_eq_true_2 by done. rewrite Hs. simpl.
  destruct (s !! i) eqn:E; [done|].
  apply lookup_ge_None in E. rewrite (Hwf _ _ Hs) in E. lia.
Qed.

Lemma rate_step_ok (rates : list float) (i : nat) :
  (1 ≤ i < len df)%nat →
  rate_step df column rates i = Ok (rates ++ [loop_rate df column i]).
Proof using Hwf Hdur Hcol.
  intros Hi. unfold rate_step, loop_rate.
  rewrite (iloc_cell "GreenLightTime" i) by (done || lia). simpl.
  destruct (_ >? f0)%float; [|done].
  rewrite (iloc_cell column i) by (done || lia). simpl.
  rewrite (iloc_cell column (i - 1)) by (done || lia). done.
Qed.

Lemma loop_ok (k a : nat) (acc : list float) :
  (1 ≤ a)%nat → (a + k ≤ len df)%nat →
  for_each (rate_step df column) acc (seq a k)
  = Ok (acc ++ map (loop_rate df column) (seq a k)).
Proof using Hwf Hdur Hcol.
  revert a acc. induction k as [|k IH]; intros a acc Ha Hk; simpl.
  - by rewrite app_nil_r.
  - rewrite rate_step_ok by lia. simpl.
    rewrite IH by lia. by rewrite <- app_assoc.
Qed.

Lemma first_rate_ok :
  (0 < len df)%nat →
  (iloc df 0 "GreenLightTime" ≫= λ g,
     (if (g >? f0)%float then
        v ← iloc df 0 column;
        g' ← iloc df 0 "GreenLightTime";
        mret (v / (g' / f60))%float
      else mret f0))
  = Ok (first_rate_of df column).
Proof using Hwf Hdur Hcol.
  intros Hn. unfold first_rate_of.
  rewrite (iloc_cell "GreenLightTime" 0) by done. simpl.
  destruct (_ >? f0)%float; [|done].
  rewrite (iloc_cell column 0) by done. done.
Qed.

(** The list [rates] in closed form. *)
Lemma rates_of_closed :
  rates_of df column
  = Ok (if bool_decide (0 < len df)%nat
        then first_rate_of df column :: map (loop_rate df column) (seq 1 (len df - 1))
        else []).
Proof using Hwf Hdur Hcol.
  unfold rates_of, range.
  case_bool_decide as Hn.
  - rewrite loop_ok by lia. simpl.
    pose proof (first_rate_ok Hn) as Hf. simpl in Hf.
    destruct (iloc df 0 "GreenLightTime") as [g|e]; [|discriminate]. simpl in *.
    destruct (g >? f0)%float.
    + destruct (iloc df 0 column) as [v|]; [|discriminate]. simpl in *.
      unfold insert0, mret, result_ret in *. congruence.
    + unfold insert0, mret, result_ret in *. simpl in *. congruence.
  - replace (len df - 1)%nat with 0%nat by lia. done.
Qed.

End rates.

Lemma rates_lookup (df : DataFrame) (column : string) (rates : list float) (i : nat) :
  rates = (if bool_decide (0 < len df)%nat
           then first_rate_of df column :: map (loop_rate df column) (seq 1 (len df - 1))
           else []) →
  (i < len df)%nat →
  rates !! i = Some (match i with 0%nat => first_rate_of df column
                             | S _ => loop_rate df column i end)
  ∧ length rates = len df.
Proof.
  intros -> Hi. rewrite bool_decide_eq_true_2 by lia. split.
  - destruct i as [|j]; [done|]. simpl.
    rewrite list_lookup_fmap, lookup_seq_lt by lia. done.
  - simpl. rewrite length_map, length_seq. lia.
Qed.

(** The scenarios of section 8: one episode (30 s, 10 vehicles) gives the
    rate 20; two episodes (30, 10), (30, 25) give the rates 20 and 30. *)
Example rates_one_episode :
  rates_of one_episode "TotalVehicles" = Ok [Fin 20].
Proof. vm_compute. reflexivity. Qed.

Example rates_two_episodes :
  rates_of two_episodes "TotalVehicles" = Ok [Fin 20; Fin 30].
Proof. vm_compute. reflexivity. Qed.

(* ------------------------------------------------------------------ *)
(** ** The rate estimator *)

(** The entries of the rate list, branch by branch: entry [i > 0] is the
    rate [(value[i] - value[i-1]) / (duration[i] / 60)] when the divisor
    and the rate are [> 0], and 0 when the divisor is [> 0] and the rate
    is not, or when the divisor is not [> 0]; entry 0 is
    [value[0] / (duration[0] / 60)] when [duration[0] > 0] and 0
    otherwise. *)
Lemma rates_of_branches (df : DataFrame) (column : string) :
  wf_df df →
  has_column df "GreenLightTime" = true →
  has_column df column = true →
  ∃ rates : list float,
    rates_of df column = Ok rates ∧ length rates = len df ∧
    ∀ i, (i < len df)%nat →
      let value := cell_at df column in
      let duration := cell_at df "GreenLightTime" in
      ((0 < i)%nat →
         let divisor := (duration i / f60)%float in
         let rate := ((value i - value (i - 1)%nat) / divisor)%float in
         ((divisor >? f0)%float = true → (rate >? f0)%float = true →
            rates !! i = Some rate)
         ∧ ((divisor >? f0)%float = true → (rate >? f0)%float = false →
            rates !! i = Some f0)
         ∧ ((divisor >? f0)%float = false → rates !! i = Some f0))
      ∧ (i = 0%nat →
         ((duration 0%nat >? f0)%float = true →
            rates !! i = Some (value 0%nat / (duration 0%nat / f60))%float)
         ∧ ((duration 0%nat >? f0)%float = false → rates !! i = Some f0)).
Proof.
  intros Hwf Hdur Hcol. eexists. split; [by apply rates_of_closed|].
  split.
  - case_bool_decide; simpl; [rewrite length_map, length_seq|]; lia.
  - intros i Hi value duration.
    destruct (rates_lookup df column _ i eq_refl Hi) as [Hl _].
    rewrite Hl. clear Hl. split.
    + intros Hpos divisor rate. destruct i as [|k]; [lia|].
      unfold loop_rate. fold duration value. fold divisor. fold rate.
      repeat split.
      * intros -> Hr. unfold py_max. by rewrite Hr.
      * intros -> Hr. unfold py_max. by rewrite Hr.
      * by intros ->.
    + intros ->. unfold first_rate_of. fold duration value.
      split; by intros ->.
Qed.

(** C1: the rate list follows the stated formula branch by branch, and
    in the loop a divisor that is zero gives the rate 0, because the loop
    tests the divisor [duration / 60].  The first entry is guarded by a
    test of the duration itself: for the smallest positive duration the
    divisor [duration / 60] is zero in binary64, the test [duration > 0]
    holds, and the first rate is [10 / 0 = inf] (and nan for the value
    0), where the loop on the same duration gives 0. *)
Theorem first_rate_divides_by_zero :
  (PrimFloat.ltb PrimFloat.zero Binary64.smallest_positive = true
   ∧ PrimFloat.div Binary64.smallest_positive Binary64.f60 = PrimFloat.zero
   ∧ Binary64.first_rate Binary64.f10 Binary64.smallest_positive = PrimFloat.infinity
   ∧ PrimFloat.is_nan (Binary64.first_rate PrimFloat.zero Binary64.smallest_positive)
     = true
   ∧ Binary64.loop_rate Binary64.f25 Binary64.f10 Binary64.smallest_positive
     = PrimFloat.zero)
  ∧ rates_of three_episodes "TotalVehicles" = Ok [Fin 20; Fin 0; Fin 0]
  ∧ ∀ df column,
      wf_df df →
      has_column df "GreenLightTime" = true →
      has_column df column = true →
      ∃ rates : list float,
        rates_of df column = Ok rates ∧ length rates = len df ∧
        ∀ i, (i < len df)%nat →
          let value := cell_at df column in
          let duration := cell_at df "GreenLightTime" in
          ((0 < i)%nat →
             let divisor := (duration i / f60)%float in
             let rate := ((value i - value (i - 1)%nat) / divisor)%float in
             ((divisor >? f0)%float = true → (rate >? f0)%float = true →
                rates !! i = Some rate)
             ∧ ((divisor >? f0)%float = true → (rate >? f0)%float = false →
                rates !! i = Some f0)
             ∧ ((divisor >? f0)%float = false → rates !! i = Some f0))
          ∧ (i = 0%nat →
             ((duration 0%nat >? f0)%float = true →
                rates !! i = Some (value 0%nat / (duration 0%nat / f60))%float)
             ∧ ((duration 0%nat >? f0)%float = false → rates !! i = Some f0)).
Proof.
  split; [repeat split; vm_compute; reflexivity|].
  split; [vm_compute; reflexivity|].
  apply rates_of_branches.
Qed.

(** Every entry appended by the loop is clamped at zero. *)
Lemma py_max_f0_nonneg (r : float) : nonneg (py_max f0 r) = true.
Proof.
  unfold py_max, nonneg, Float.gtb, Float.geb.
  destruct (Float.cmp r f0) as [[]|] eqn:E; try reflexivity.
  by rewrite E.
Qed.

Lemma loop_rate_nonneg (df : DataFrame) (column : string) (i : nat) :
  nonneg (loop_rate df column i) = true.
Proof.
  unfold loop_rate. destruct (_ >? f0)%float; [apply py_max_f0_nonneg|reflexivity].
Qed.

(** In the rate list every entry after the first is [>= 0]. *)
Lemma later_rates_nonneg (df : DataFrame) (column : string) (rates : list float)
    (i : nat) :
  wf_df df →
  has_column df "GreenLightTime" = true →
  has_column df column = true →
  rates_of df column = Ok rates →
  (0 < i < len df)%nat →
  ∃ r, rates !! i = Some r ∧ nonneg r = true.
Proof.
  intros Hwf Hdur Hcol. rewrite rates_of_closed by done. intros [= <-] Hi.
  destruct (rates_lookup df column _ i eq_refl ltac:(lia)) as [Hl _].
  destruct i as [|k]; [lia|]. eexists. split; [exact Hl|].
  apply loop_rate_nonneg.
Qed.

(** C2: the entry for the first episode is not clamped: for one episode
    of 30 s with the metric value -10 the rate list is [-20], an entry
    that is not [>= 0]; the entries of the later episodes are clamped. *)
Theorem first_rate_negative :
  rates_of negative_first "TotalVehicles" = Ok [Fin (-20)]
  ∧ nonneg (Fin (-20)) = false
  ∧ ∀ df column rates i,
      wf_df df →
      has_column df "GreenLightTime" = true →
      has_column df column = true →
      rates_of df column = Ok rates →
      (0 < i < len df)%nat →
      ∃ r, rates !! i = Some r ∧ nonneg r = true.
Proof.
  split; [vm_compute; reflexivity|].
  split; [vm_compute; reflexivity|].
  apply later_rates_nonneg.
Qed.

(* ------------------------------------------------------------------ *)
(** ** Improvement percentages *)

(** C3: in [statistical_comparison] the improvement of TotalVehicles is
    computed with the lower-is-better expression: for an ML mean of 20
    and a static mean of 10 it is -100 and the verdict is "(Static
    better)", where the higher-is-better expression of the time-based
    summary gives +100 and [generate_performance_report] of the same
    class names ML as the better policy. *)
Theorem total_vehicles_improvement_direction :
  analyze_stats.statistical_comparison
    (single_column "TotalVehicles" [Fin 20]) (single_column "TotalVehicles" [Fin 10])
  = Ok [ {| analyze_stats.Metric := "TotalVehicles";
            analyze_stats.ML_Mean := Fin 20;
            analyze_stats.Static_Mean := Fin 10;
            analyze_stats.ML_Std := Sqrt NaN;
            analyze_stats.Static_Std := Sqrt NaN;
            analyze_stats.Improvement_pct := Fin (-100) |} ]
  ∧ analyze_stats.verdict (Fin (-100)) = "(Static better)"
  ∧ analyze_stats.better "TotalVehicles" (Fin 20) (Fin 10) = "ML"
  ∧ throughput_improvement (Fin 20) (Fin 10) = Fin 100
  ∧ Compare_results.improvement (Fin 20) (Fin 10) = Fin 100.
Proof. repeat split; vm_compute; reflexivity. Qed.

(** C4: without a test of the divisor, a static mean of 0 gives an
    infinite improvement in [statistical_comparison] (nan when the ML
    mean is 0 as well) and in the comparison table of [Compare_results],
    where the time-based summary leaves its placeholder. *)
Theorem zero_baseline_improvement :
  (map analyze_stats.Improvement_pct <$>
     analyze_stats.statistical_comparison
       (single_column "TotalVehicles" [Fin 10]) (single_column "TotalVehicles" [Fin 0]))
  = Ok [NInf]
  ∧ (map analyze_stats.Improvement_pct <$>
     analyze_stats.statistical_comparison
       (single_column "TotalVehicles" [Fin 0]) (single_column "TotalVehicles" [Fin 0]))
  = Ok [NaN]
  ∧ ((λ t : option Compare_results.table,
        t ≫= λ t', Compare_results.ML_Agent t' !! 5%nat) <$>
     Compare_results.analyze_comparison_results
       (Some (comparison_table [Fin 1] [Fin 10] [Fin 3] [Fin 2]))
       (Some (comparison_table [Fin 1] [Fin 0] [Fin 3] [Fin 2])))
  = Ok (Some (Fmt 1 PInf "%"))
  ∧ ML_Agent (generate_time_based_summary one_episode one_episode
                {[ "TotalVehicles_Rate" := [Fin 10] ]}
                {[ "TotalVehicles_Rate" := [Fin 0] ]} [Fin 0] [Fin 0]) !! 4%nat
  = Some (Text "-").
Proof. repeat split; vm_compute; reflexivity. Qed.

(* ------------------------------------------------------------------ *)
(** ** Empty input *)

(** On a table without rows the time axis is empty, its maximum is nan,
    and the grid cannot be built. *)
Lemma convert_empty_raises (df : DataFrame) :
  wf_df df → len df = 0%nat →
  convert_episodes_to_time df = Raise (ValueError "arange: cannot compute length").
Proof.
  intros Hwf Hn. unfold convert_episodes_to_time.
  assert (Hg : ∃ df', (if negb (has_column df "GreenLightTime")
                       then setcol_scalar df "GreenLightTime" f30 else df) = df'
                      ∧ getcol df' "GreenLightTime" = Ok []) .
  { unfold has_column. case_bool_decide as Hc; simpl.
    - destruct Hc as [s Hs]. exists df. split; [done|].
      unfold getcol. rewrite Hs. pose proof (Hwf _ _ Hs) as Hl.
      unfold len in Hn. rewrite Hn in Hl. by destruct s.
    - eexists. split; [done|]. unfold getcol, setcol_scalar, setcol. simpl.
      rewrite lookup_insert_eq. unfold len in Hn. by rewrite Hn. }
  destruct Hg as (df' & -> & Hg). rewrite Hg. simpl.
  unfold getcol, setcol. simpl. rewrite lookup_insert_eq. simpl. reflexivity.
Qed.

(** C7: for a table without episodes the running sum and the rate list
    are empty, but [convert_episodes_to_time] raises a ValueError when it
    builds the grid up to the maximum of the empty time axis,
    [calculate_rates] raises one when it interpolates over an empty
    sample array, and [main] ends with the first of these exceptions. *)
Theorem empty_input_raises :
  cumsum [] = []
  ∧ rates_of no_episodes "TotalVehicles" = Ok []
  ∧ convert_episodes_to_time no_episodes
    = Raise (ValueError "arange: cannot compute length")
  ∧ calculate_rates (setcol no_episodes "CumulativeTime" []) []
    = Raise (ValueError "array of sample points is empty")
  ∧ main no_episodes two_episodes
    = Raise (ValueError "arange: cannot compute length").
Proof. repeat split; vm_compute; reflexivity. Qed.

(* ------------------------------------------------------------------ *)
(** ** The time-based summary *)

Lemma leb_not_gtb (m : float) : (m <=? f0)%float = true → (m >? f0)%float = false.
Proof.
  unfold Float.leb, Float.gtb. by destruct (Float.cmp m f0) as [[]|].
Qed.

Section summary.
Variables (ml_episode static_episode : DataFrame).
Variables (ml_data static_data : gmap string Numpy.ndarray).
Variables (ml_time static_time : Numpy.ndarray).

Let s := generate_time_based_summary ml_episode static_episode
           ml_data static_data ml_time static_time.

(** Each improvement row is filled exactly when the static mean of its
    series is greater than zero. *)
Lemma improvement_cells (i : nat) (key : string) :
  (i, key) ∈ improvement_rows →
  let ml := mean_rate ml_data key in
  let static := mean_rate static_data key in
  ML_Agent s !! i
  = Some (if (static >? f0)%float then Fmt 1 (row_improvement i ml static) "%"
          else Text "-")
  ∧ Static_Controller s !! i
  = Some (if (static >? f0)%float then Text "0.0%" else Text "-").
Proof using Type.
  intros Hin. subst s. unfold generate_time_based_summary, improvement_rows in *.
  cbv zeta.
  repeat (apply elem_of_cons in Hin as [Hin|Hin]); [..|by apply elem_of_nil in Hin];
    inversion Hin; subst;
    generalize (mean_rate ml_data "TotalVehicles_Rate")
               (mean_rate ml_data "VehiclesWaiting_Rate")
               (mean_rate ml_data "FuelConsumed_Rate")
               (mean_rate static_data "TotalVehicles_Rate")
               (mean_rate static_data "VehiclesWaiting_Rate")
               (mean_rate static_data "FuelConsumed_Rate");
    intros a1 a2 a3 b1 b2 b3;
    destruct (b1 >? f0)%float; destruct (b2 >? f0)%float; destruct (b3 >? f0)%float;
    split; reflexivity.
Qed.
End summary.

(** C10: in the time-based summary each of the three improvement rows
    keeps the placeholder "-" in both columns whenever the static mean
    of its rate series is [<= 0], a negative mean as well as a zero
    one. *)
Theorem placeholder_unless_baseline_positive
    (ml_episode static_episode : DataFrame)
    (ml_data static_data : gmap string Numpy.ndarray)
    (ml_time static_time : Numpy.ndarray) (i : nat) (key : string) :
  (i, key) ∈ improvement_rows →
  (mean_rate static_data key <=? f0)%float = true →
  let s := generate_time_based_summary ml_episode static_episode
             ml_data static_data ml_time static_time in
  ML_Agent s !! i = Some (Text "-") ∧ Static_Controller s !! i = Some (Text "-").
Proof.
  intros Hin Hle s.
  destruct (improvement_cells ml_episode static_episode ml_data static_data
              ml_time static_time i key Hin) as [H1 H2].
  cbv zeta in H1, H2. rewrite (leb_not_gtb _ Hle) in H1, H2. done.
Qed.

Lemma placeholder_unless_baseline_positive_witness :
  let s := generate_time_based_summary one_episode one_episode
             {[ "TotalVehicles_Rate" := [Fin 20] ]}
             {[ "TotalVehicles_Rate" := [Fin (-20)] ]} [Fin 0] [Fin 0] in
  ML_Agent s !! 4%nat = Some (Text "-")
  ∧ Static_Controller s !! 4%nat = Some (Text "-").
Proof.
  apply (placeholder_unless_baseline_positive one_episode one_episode
           {[ "TotalVehicles_Rate" := [Fin 20] ]}
           {[ "TotalVehicles_Rate" := [Fin (-20)] ]} [Fin 0] [Fin 0]
           4%nat "TotalVehicles_Rate").
  - apply list_elem_of_here.
  - vm_compute. reflexivity.
Defined.

(* ------------------------------------------------------------------ *)
(** ** Missing metrics *)

Lemma bind_Ok_inv {A B} (m : result A) (f : A → result B) (b : B) :
  m ≫= f = Ok b → ∃ a, m = Ok a ∧ f a = Ok b.
Proof. destruct m as [a|e]; [eauto|discriminate]. Qed.

(** One turn of the loop over the columns writes at most its own key. *)
Lemma calculate_column_other_keys (df : DataFrame) (tp : Numpy.ndarray)
    (acc d : gmap string Numpy.ndarray) (c k : string) :
  calculate_column df tp acc c = Ok d → k ≠ c +:+ "_Rate" → d !! k = acc !! k.
Proof.
  unfold calculate_column. intros H Hk. destruct (has_column df c).
  - apply bind_Ok_inv in H as (rates & _ & H).
    apply bind_Ok_inv in H as (xp & _ & H).
    apply bind_Ok_inv in H as (v & _ & H).
    inversion H; subst. by rewrite lookup_insert_ne.
  - inversion H; subst. done.
Qed.

Lemma calculate_column_absent (df : DataFrame) (tp : Numpy.ndarray)
    (acc : gmap string Numpy.ndarray) (c : string) :
  has_column df c = false → calculate_column df tp acc c = Ok acc.
Proof. unfold calculate_column. by intros ->. Qed.

(** The outcome of [analyze_comparison_results] on two loaded tables:
    the table with its cells when both have the four columns that are
    read, a KeyError otherwise. *)
Lemma comparison_outcome (ml static : DataFrame) :
  match Compare_results.analyze_comparison_results (Some ml) (Some static) with
  | Ok (Some t) =>
      required_present ml = true ∧ required_present static = true
      ∧ ∃ ml_tv static_tv ml_vw static_vw ml_fc static_fc,
          data ml !! "TotalVehicles" = Some ml_tv
          ∧ data static !! "TotalVehicles" = Some static_tv
          ∧ data ml !! "VehiclesWaiting" = Some ml_vw
          ∧ data static !! "VehiclesWaiting" = Some static_vw
          ∧ data ml !! "FuelConsumed" = Some ml_fc
          ∧ data static !! "FuelConsumed" = Some static_fc
          ∧ Compare_results.Metric t
            = [ "Average Vehicles Served"; "Average Queue Length";
                "Average Fuel Consumed (L)"; "Max Throughput";
                "Min Queue Length"; "Performance Improvement (%)" ]
          ∧ Compare_results.ML_Agent t
            = [ Fmt 2 (Pandas.mean ml_tv) ""; Fmt 2 (Pandas.mean ml_vw) "";
                Fmt 2 (Pandas.mean ml_fc) ""; Fmt 0 (Pandas.max ml_tv) "";
                Fmt 0 (Pandas.min ml_vw) "";
                Fmt 1 (((Pandas.mean ml_tv - Pandas.mean static_tv)
                        / Pandas.mean static_tv) * f100)%float "%" ]
          ∧ Compare_results.Fixed_Time t
            = [ Fmt 2 (Pandas.mean static_tv) ""; Fmt 2 (Pandas.mean static_vw) "";
                Fmt 2 (Pandas.mean static_fc) ""; Fmt 0 (Pandas.max static_tv) "";
                Fmt 0 (Pandas.min static_vw) ""; Text "Baseline (0%)" ]
  | Ok None => False
  | Raise e =>
      required_present ml && required_present static = false
      ∧ ∃ key, e = KeyError key
  end.
Proof.
  unfold Compare_results.analyze_comparison_results, Compare_results.check_fuel,
    Compare_results.plot_reads, required_present, required_columns, has_column, getcol.
  cbn [forallb].
  destruct (data ml !! "FuelConsumed") as [ml_fc|]; simpl.
  2:{ split; [|eauto]. by rewrite !andb_false_r. }
  destruct (data static !! "FuelConsumed") as [static_fc|]; simpl.
  2:{ split; [|eauto]. by rewrite !andb_false_r. }
  destruct (data ml !! "Episode"); simpl; [|eauto].
  destruct (data ml !! "TotalVehicles") as [ml_tv|]; simpl; [|eauto].
  destruct (data static !! "Episode"); simpl.
  2:{ split; [|eauto]. destruct (bool_decide _); done. }
  destruct (data static !! "TotalVehicles") as [static_tv|]; simpl.
  2:{ split; [|eauto]. destruct (bool_decide _); done. }
  destruct (data ml !! "VehiclesWaiting") as [ml_vw|]; simpl; [|eauto].
  destruct (data static !! "VehiclesWaiting") as [static_vw|]; simpl; [|eauto].
  split; [done|]. split; [done|].
  exists ml_tv, static_tv, ml_vw, static_vw, ml_fc, static_fc.
  repeat split; reflexivity.
Qed.

(** A table that lacks one of the three rate columns lacks a column that
    the comparison reads. *)
Lemma rate_column_required (df : DataFrame) (column : string) :
  column ∈ rate_columns → has_column df column = false →
  required_present df = false.
Proof.
  intros Hin Habs. unfold required_present, required_columns. cbn [forallb].
  rate_column_cases Hin; rewrite Habs; by rewrite ?andb_false_r.
Qed.

(** C6: a metric among the three rate columns that is absent from the
    table is skipped by [calculate_rates] without a failure: the result
    is the one computed for the other columns alone, it holds no series
    under the key of the absent metric, and the summary then averages
    the default [0] in its place.  In [Compare_results] the absence of
    such a column from either table raises a KeyError, which ends the
    whole comparison; for FuelConsumed it is the KeyError with the
    message of the script. *)
Theorem missing_metric_skipped (df : DataFrame) (time_points : Numpy.ndarray)
    (column : string) :
  column ∈ rate_columns →
  has_column df column = false →
  calculate_rates df time_points
  = for_each (calculate_column df time_points) ∅
      (filter (λ c, c ≠ column) rate_columns)
  ∧ (∀ d, calculate_rates df time_points = Ok d →
       d !! (column +:+ "_Rate") = None ∧ mean_rate d (column +:+ "_Rate") = f0)
  ∧ (∀ other,
       (∃ key, Compare_results.analyze_comparison_results (Some df) (Some other)
               = Raise (KeyError key))
       ∧ (∃ key, Compare_results.analyze_comparison_results (Some other) (Some df)
                 = Raise (KeyError key)))
  ∧ (column = "FuelConsumed" →
     (∀ static, Compare_results.analyze_comparison_results (Some df) static
                = Raise (KeyError "episode_results.csv missing ‘FuelConsumed’ column"))
     ∧ (∀ ml, ∃ msg, Compare_results.analyze_comparison_results ml (Some df)
                     = Raise (KeyError msg))).
Proof.
  intros Hin Habs.
  assert (Hskip : calculate_rates df time_points
                  = for_each (calculate_column df time_points) ∅
                      (filter (λ c, c ≠ column) rate_columns)).
  { unfold calculate_rates. rate_column_cases Hin.
    - change (filter _ rate_columns) with ["VehiclesWaiting"; "FuelConsumed"].
      unfold rate_columns. cbn [for_each].
      by rewrite calculate_column_absent.
    - change (filter _ rate_columns) with ["TotalVehicles"; "FuelConsumed"].
      unfold rate_columns. cbn [for_each].
      destruct (calculate_column df time_points ∅ "TotalVehicles") as [d1|]; [|done].
      cbn. by rewrite calculate_column_absent.
    - change (filter _ rate_columns) with ["TotalVehicles"; "VehiclesWaiting"].
      unfold rate_columns. cbn [for_each].
      destruct (calculate_column df time_points ∅ "TotalVehicles") as [d1|]; [|done].
      cbn. destruct (calculate_column df time_points d1 "VehiclesWaiting") as [d2|]; [|done].
      cbn. by rewrite calculate_column_absent. }
  pose proof (rate_column_required df column Hin Habs) as Hreq.
  split; [exact Hskip|]. split; [|split].
  - intros d Hd. rewrite Hskip in Hd.
    assert (Hnone : d !! (column +:+ "_Rate") = None).
    { rate_column_cases Hin; revert Hd;
        [ change (filter _ rate_columns) with ["VehiclesWaiting"; "FuelConsumed"]
        | change (filter _ rate_columns) with ["TotalVehicles"; "FuelConsumed"]
        | change (filter _ rate_columns) with ["TotalVehicles"; "VehiclesWaiting"] ];
        cbn [for_each]; intros Hd;
        apply bind_Ok_inv in Hd as (d1 & H1 & Hd);
        apply bind_Ok_inv in Hd as (d2 & H2 & Hd); inversion Hd; subst;
        rewrite (calculate_column_other_keys _ _ _ _ _ _ H2) by done;
        rewrite (calculate_column_other_keys _ _ _ _ _ _ H1) by done; done. }
    split; [exact Hnone|]. unfold mean_rate. rewrite Hnone. reflexivity.
  - intros other. split.
    + pose proof (comparison_outcome df other) as H.
      destruct (Compare_results.analyze_comparison_results (Some df) (Some other))
        as [[t|]|e]; [|done|].
      * destruct H as (H1 & _). congruence.
      * destruct H as (_ & key & ->). eauto.
    + pose proof (comparison_outcome other df) as H.
      destruct (Compare_results.analyze_comparison_results (Some other) (Some df))
        as [[t|]|e]; [|done|].
      * destruct H as (_ & H2 & _). congruence.
      * destruct H as (_ & key & ->). eauto.
  - intros ->. split.
    + intros static. unfold Compare_results.analyze_comparison_results.
      cbn [Compare_results.check_fuel]. rewrite Habs. reflexivity.
    + intros ml. unfold Compare_results.analyze_comparison_results.
      destruct ml as [m|]; cbn [Compare_results.check_fuel].
      * destruct (has_column m "FuelConsumed"); simpl; rewrite ?Habs; simpl; eauto.
      * simpl. rewrite Habs. simpl. eauto.
Qed.

(** C6, counterexample: with FuelConsumed in the ML table and not in the
    static one, the time-based analysis ends without an exception, the
    static rate table has no fuel series, and the static fuel cell of
    the summary shows the mean 0 of the default; in [Compare_results]
    the same absence raises a KeyError and no table is produced for any
    metric. *)
Lemma missing_metric_not_reported :
  ((λ s, (ML_Agent s !! 3%nat, Static_Controller s !! 3%nat)) <$>
     main ml_with_fuel two_episodes)
  = Ok (Some (Fmt 2 (Fin 4) ""), Some (Fmt 2 (Fin 0) ""))
  ∧ (convert_episodes_to_time two_episodes ≫= λ p,
       map_to_list <$> calculate_rates p.1 p.2)
    = Ok [("TotalVehicles_Rate", [Fin 20; Fin 20])]
  ∧ Compare_results.analyze_comparison_results
      (Some (comparison_table [Fin 1] [Fin 10] [Fin 3] [Fin 2]))
      (Some table_without_fuel)
    = Raise (KeyError "static_episode_results.csv missing ‘FuelConsumed’ column").
Proof. repeat split; vm_compute; reflexivity. Qed.

Example convert_two_episodes :
  convert_episodes_to_time two_episodes = Ok (two_episodes_timed, [Fin 0; Fin 30]).
Proof. vm_compute. reflexivity. Qed.

Lemma missing_metric_skipped_witness :
  calculate_rates two_episodes_timed [Fin 0; Fin 30]
  = for_each (calculate_column two_episodes_timed [Fin 0; Fin 30]) ∅
      (filter (λ c, c ≠ "FuelConsumed") rate_columns)
  ∧ (∀ d, calculate_rates two_episodes_timed [Fin 0; Fin 30] = Ok d →
       d !! ("FuelConsumed" +:+ "_Rate") = None
       ∧ mean_rate d ("FuelConsumed" +:+ "_Rate") = f0)
  ∧ (∀ other,
       (∃ key, Compare_results.analyze_comparison_results
                 (Some two_episodes_timed) (Some other)
               = Raise (KeyError key))
       ∧ (∃ key, Compare_results.analyze_comparison_results
                   (Some other) (Some two_episodes_timed)
                 = Raise (KeyError key)))
  ∧ ("FuelConsumed" = "FuelConsumed" →
     (∀ static,
        Compare_results.analyze_comparison_results (Some two_episodes_timed) static
        = Raise (KeyError "episode_results.csv missing ‘FuelConsumed’ column"))
     ∧ (∀ ml, ∃ msg,
          Compare_results.analyze_comparison_results ml (Some two_episodes_timed)
          = Raise (KeyError msg))).
Proof.
  apply (missing_metric_skipped two_episodes_timed [Fin 0; Fin 30] "FuelConsumed").
  - vm_compute. do 2 right. left.
  - vm_compute. reflexivity.
Defined.

(* ------------------------------------------------------------------ *)
(** ** Standard deviation *)

Lemma foldl_add_Fin (qs : list Q) (a : Q) :
  ∃ r, foldl Float.add (Fin a) (map Fin qs) = Fin r ∧ r == a + Qsum qs.
Proof.
  revert a. induction qs as [|q qs IH]; intros a; simpl.
  - exists a. split; [done|]. unfold Qsum. simpl. ring.
  - destruct (IH (Qred (a + q))) as (r & Hr & Hq). exists r. split; [done|].
    rewrite Hq, Qred_correct. unfold Qsum. simpl. ring.
Qed.

Lemma fsum_Fin (qs : list Q) : ∃ r, fsum (map Fin qs) = Fin r ∧ r == Qsum qs.
Proof.
  destruct (foldl_add_Fin qs 0) as (r & Hr & Hq). exists r. split; [done|].
  rewrite Hq. ring.
Qed.

Lemma dropna_Fin (qs : list Q) : dropna (map Fin qs) = map Fin qs.
Proof.
  unfold dropna. induction qs as [|q qs IH]; [done|]. simpl.
  rewrite filter_cons_True by done. by rewrite IH.
Qed.

Lemma of_nat_positive (n : nat) : (0 < n)%nat → Float.sgn (inject_Z (Z.of_nat n)) = Gt.
Proof.
  intros Hn. unfold Float.sgn. apply Qgt_alt.
  change 0 with (inject_Z 0). rewrite <- Zlt_Qlt. lia.
Qed.

Lemma of_nat_nonzero (n : nat) : (0 < n)%nat → ¬ inject_Z (Z.of_nat n) == 0.
Proof.
  intros Hn H. change 0 with (inject_Z 0) in H.
  apply (proj1 (inject_Z_injective _ _)) in H. lia.
Qed.

Lemma div_of_nat (a : Q) (n : nat) :
  (0 < n)%nat → (Fin a / of_nat n)%float = Fin (Qred (a / inject_Z (Z.of_nat n))).
Proof.
  intros Hn. unfold Float.div, of_nat, of_Z. by rewrite of_nat_positive.
Qed.

(** The mean of finite values is their sum over their number. *)
Lemma mean_Fin (qs : list Q) :
  (0 < length qs)%nat →
  ∃ μ, Pandas.mean (map Fin qs) = Fin μ
       ∧ μ * inject_Z (Z.of_nat (length qs)) == Qsum qs.
Proof.
  intros Hn. unfold Pandas.mean. rewrite dropna_Fin, length_map.
  destruct (fsum_Fin qs) as (r & -> & Hr). rewrite div_of_nat by done.
  eexists. split; [done|]. rewrite Qred_correct, <- Hr.
  field. by apply of_nat_nonzero.
Qed.

Lemma sqdev_Fin (μ : Q) (qs : list Q) :
  ∃ r, sqdev (Fin μ) (map Fin qs) = Fin r
       ∧ r == Qsum (map (λ q, (q - μ) * (q - μ)) qs).
Proof.
  unfold sqdev. rewrite map_map. simpl.
  destruct (fsum_Fin (map (λ q, Qred (Qred (μ - q) * Qred (μ - q))) qs))
    as (r & Hr & Hq).
  rewrite map_map in Hr. exists r. split; [exact Hr|].
  rewrite Hq. clear. induction qs as [|q qs IH]; [done|].
  unfold Qsum in *. simpl. rewrite IH, !Qred_correct. ring.
Qed.

(** C5, counterexample: the standard deviation of a series with the one
    value 5 is the square root of nan, which is nan and not zero. *)
Lemma std_of_single_value :
  let s := analyze_stats.std (analyze_stats.stats_of [Fin 5]) in
  s = Sqrt NaN ∧ root_is_nan s = true ∧ root_is_zero s = false.
Proof. repeat split. Qed.

(** C5: the standard deviation of [stats_of] is nan when at most one
    value is left after the missing ones are dropped; for [n >= 2]
    finite values it is the square root of a variance [v] with
    [v * (n - 1)] equal to the sum of the squared deviations from the
    mean, the sample convention. *)
Theorem std_sample_convention :
  (∀ values : Series,
     (length (dropna values) ≤ 1)%nat →
     analyze_stats.std (analyze_stats.stats_of values) = Sqrt NaN)
  ∧ (∀ qs : list Q,
       (2 ≤ length qs)%nat →
       ∃ μ v : Q,
         analyze_stats.mean (analyze_stats.stats_of (map Fin qs)) = Fin μ
         ∧ analyze_stats.std (analyze_stats.stats_of (map Fin qs)) = Sqrt (Fin v)
         ∧ μ * inject_Z (Z.of_nat (length qs)) == Qsum qs
         ∧ v * inject_Z (Z.of_nat (length qs - 1))
           == Qsum (map (λ q, (q - μ) * (q - μ)) qs)).
Proof.
  split.
  - intros values Hn. simpl. unfold Pandas.std, Pandas.var.
    by rewrite bool_decide_eq_true_2.
  - intros qs Hn. simpl.
    destruct (mean_Fin qs) as (μ & Hμ & Hsum); [lia|].
    exists μ. unfold Pandas.std, Pandas.var.
    rewrite bool_decide_eq_false_2 by (rewrite dropna_Fin, length_map; lia).
    change (fsum (dropna (map Fin qs)) / of_nat (length (dropna (map Fin qs))))%float
      with (Pandas.mean (map Fin qs)).
    rewrite Hμ, dropna_Fin, length_map.
    destruct (sqdev_Fin μ qs) as (r & -> & Hr).
    rewrite div_of_nat by lia. eexists. repeat split; [done|].
    rewrite Qred_correct, <- Hr. field. apply of_nat_nonzero. lia.
Qed.

Lemma std_sample_convention_witness :
  ∃ μ v : Q,
    analyze_stats.mean (analyze_stats.stats_of (map Fin [1; 2; 4])) = Fin μ
    ∧ analyze_stats.std (analyze_stats.stats_of (map Fin [1; 2; 4])) = Sqrt (Fin v)
    ∧ μ * inject_Z (Z.of_nat (length [1; 2; 4])) == Qsum [1; 2; 4]
    ∧ v * inject_Z (Z.of_nat (length [1; 2; 4] - 1))
      == Qsum (map (λ q, (q - μ) * (q - μ)) [1; 2; 4]).
Proof.
  apply (proj2 std_sample_convention [1; 2; 4]). simpl. lia.
Defined.

(* ------------------------------------------------------------------ *)
(** ** Swapping treatment and baseline *)

Lemma gtb_Fin (r : Q) : (Fin r >? f0)%float = true ↔ 0 < r.
Proof.
  unfold Float.gtb, f0. rewrite cmp_Fin.
  destruct (r ?= 0) eqn:E; split; intros H; try done.
  - apply Qeq_alt in E. lra.
  - apply Qlt_alt in E. lra.
  - by apply Qgt_alt in E.
Qed.

Lemma ltb_Fin (r : Q) : (Fin r <? f0)%float = true ↔ r < 0.
Proof.
  unfold Float.ltb, f0. rewrite cmp_Fin.
  destruct (r ?= 0) eqn:E; split; intros H; try done.
  - apply Qeq_alt in E. lra.
  - apply Qgt_alt in E. lra.
Qed.

Lemma eqb_Fin (r r' : Q) : (Fin r =? Fin r')%float = true ↔ r == r'.
Proof.
  unfold Float.eqb. rewrite cmp_Fin.
  destruct (r ?= r') eqn:E; split; intros H; try done.
  - by apply Qeq_alt in E.
  - apply Qlt_alt in E. lra.
  - apply Qgt_alt in E. lra.
Qed.

(** For finite means and a baseline that is not zero the improvement is
    finite and has the value of the formula. *)
Lemma throughput_improvement_Fin (a b : Q) :
  ¬ b == 0 →
  ∃ r, throughput_improvement (Fin a) (Fin b) = Fin r ∧ r * b == (a - b) * 100.
Proof.
  intros Hb. unfold throughput_improvement, Float.sub, Float.div, Float.sgn.
  destruct (b ?= 0) eqn:E.
  - apply Qeq_alt in E. contradiction.
  - eexists. split; [reflexivity|]. rewrite !Qred_correct. by field.
  - eexists. split; [reflexivity|]. rewrite !Qred_correct. by field.
Qed.

Lemma bool_eq_of_iff (x y : bool) : (x = true ↔ y = true) → x = y.
Proof. destruct x, y; intros [H1 H2]; try done; [by rewrite H1|by rewrite H2]. Qed.

Lemma same_sign_cases (a b : Q) : 0 < a * b → (0 < a ∧ 0 < b) ∨ (a < 0 ∧ b < 0).
Proof.
  intros H. destruct (Qlt_le_dec 0 a) as [Ha|Ha].
  - left. split; [done|]. destruct (Qlt_le_dec 0 b) as [Hb|Hb]; [done|]. nra.
  - right. destruct (Qlt_le_dec b 0) as [Hb|Hb]; [|nra].
    split; [|done]. destruct (Qlt_le_dec a 0) as [Ha'|Ha']; [done|].
    assert (a == 0) as Ha0 by lra. rewrite Ha0 in H. lra.
Qed.

(** C9, counterexample: with means 2 and 1 the improvement of the first
    series over the second is 100 and that of the second over the first
    is -50, which is not -100. *)
Lemma improvement_not_antisymmetric :
  improvement_of [Fin 2] [Fin 1] = Fin 100
  ∧ improvement_of [Fin 1] [Fin 2] = Fin (-50)
  ∧ (improvement_of [Fin 2] [Fin 1] =? Float.neg (improvement_of [Fin 1] [Fin 2]))%float
    = false.
Proof. repeat split; vm_compute; reflexivity. Qed.

Lemma Qmult_zero_cancel (r b : Q) : r * b == 0 → ¬ b == 0 → r == 0.
Proof.
  intros H Hb. destruct (Qmult_integral _ _ H) as [Hr|Hb']; [done|contradiction].
Qed.

(** C9: for two series with finite means of the same sign, swapping the
    roles of treatment and baseline flips the sign of the
    higher-is-better improvement: positive becomes negative, negative
    becomes positive, zero stays zero. *)
Theorem improvement_sign_flips (A B : Numpy.ndarray) (a b : Q) :
  Numpy.mean A = Fin a →
  Numpy.mean B = Fin b →
  0 < a * b →
  let ab := improvement_of A B in
  let ba := improvement_of B A in
  (ab >? f0)%float = (ba <? f0)%float
  ∧ (ab <? f0)%float = (ba >? f0)%float
  ∧ (ab =? f0)%float = (ba =? f0)%float.
Proof.
  intros HA HB Hab ab ba. subst ab ba. unfold improvement_of. rewrite HA, HB.
  assert (Ha0 : ¬ a == 0) by (intros H; rewrite H in Hab; lra).
  assert (Hb0 : ¬ b == 0) by (intros H; rewrite H in Hab; lra).
  destruct (throughput_improvement_Fin a b Hb0) as (r1 & -> & H1).
  destruct (throughput_improvement_Fin b a Ha0) as (r2 & -> & H2).
  assert (Hsign : (0 < r1 ↔ r2 < 0) ∧ (r1 < 0 ↔ 0 < r2)).
  { destruct (same_sign_cases a b Hab) as [[Ha Hb]|[Ha Hb]]; split; split; intros H; nra. }
  assert (Hzero : r1 == 0 ↔ r2 == 0).
  { split; intros H.
    - rewrite H in H1. apply (Qmult_zero_cancel r2 a); [|done]. rewrite H2. lra.
    - rewrite H in H2. apply (Qmult_zero_cancel r1 b); [|done]. rewrite H1. lra. }
  repeat split.
  - apply bool_eq_of_iff. rewrite gtb_Fin, ltb_Fin. apply Hsign.
  - apply bool_eq_of_iff. rewrite gtb_Fin, ltb_Fin. apply Hsign.
  - apply bool_eq_of_iff. unfold f0. rewrite !eqb_Fin. apply Hzero.
Qed.

Lemma improvement_sign_flips_witness :
  let ab := improvement_of [Fin 2] [Fin 1] in
  let ba := improvement_of [Fin 1] [Fin 2] in
  (ab >? f0)%float = (ba <? f0)%float
  ∧ (ab <? f0)%float = (ba >? f0)%float
  ∧ (ab =? f0)%float = (ba =? f0)%float.
Proof.
  apply (improvement_sign_flips [Fin 2] [Fin 1] 2 1).
  - vm_compute. reflexivity.
  - vm_compute. reflexivity.
  - reflexivity.
Defined.

(* ------------------------------------------------------------------ *)
(** ** Resampling at the recorded times *)

Lemma cmp_antisym (x y : float) :
  Float.cmp y x = CompOpp <$> Float.cmp x y.
Proof.
  destruct x as [a| | |], y as [b| | |]; try reflexivity.
  simpl. by rewrite <- Qcompare_antisym.
Qed.

Lemma cmp_refl (x : float) : is_nan x = false → Float.cmp x x = Some Eq.
Proof.
  destruct x as [a| | |]; try done. intros _. simpl. f_equal.
  apply Qeq_alt. reflexivity.
Qed.

Lemma leb_not_nan (x y : float) : (x <=? y)%float = true → is_nan x = false.
Proof. by destruct x, y. Qed.

Lemma leb_gtb_false (x y : float) : (x <=? y)%float = true → (x >? y)%float = false.
Proof. unfold Float.leb, Float.gtb. by destruct (Float.cmp x y) as [[]|]. Qed.

Lemma leb_ltb_false (x y : float) : (x <=? y)%float = true → (y <? x)%float = false.
Proof.
  unfold Float.leb, Float.ltb. rewrite (cmp_antisym x y).
  by destruct (Float.cmp x y) as [[]|].
Qed.

Lemma leb_geb (x y : float) : (x <=? y)%float = true → (y >=? x)%float = true.
Proof.
  unfold Float.leb, Float.geb. rewrite (cmp_antisym x y).
  by destruct (Float.cmp x y) as [[]|].
Qed.

Lemma ltb_leb (x y : float) : (x <? y)%float = true → (x <=? y)%float = true.
Proof. unfold Float.leb, Float.ltb. by destruct (Float.cmp x y) as [[]|]. Qed.

Lemma ltb_geb_false (x y : float) : (x <? y)%float = true → (x >=? y)%float = false.
Proof. unfold Float.geb, Float.ltb. by destruct (Float.cmp x y) as [[]|]. Qed.

Lemma at_tail (l : Numpy.ndarray) (i : nat) : Numpy.at_ (tail l) i = Numpy.at_ l (S i).
Proof. unfold Numpy.at_. by rewrite lookup_tail. Qed.

(** The scan stops at the first cell that is greater than the key. *)
Lemma scan_stops (key : float) (l : Numpy.ndarray) (j : nat) :
  (j ≤ length l)%nat →
  (∀ i, (i < j)%nat → (key >=? Numpy.at_ l i)%float = true) →
  ((j < length l)%nat → (key >=? Numpy.at_ l j)%float = false) →
  Numpy.scan key l = j.
Proof.
  revert j. induction l as [|a l IH]; intros j Hj Hbefore Hat; simpl in *.
  - lia.
  - destruct j as [|j].
    + pose proof (Hat ltac:(lia)) as H. unfold Numpy.at_ in H. simpl in H.
      by rewrite H.
    + pose proof (Hbefore 0%nat ltac:(lia)) as H. unfold Numpy.at_ in H. simpl in H.
      rewrite H. f_equal. apply IH.
      * lia.
      * intros i Hi. apply (Hbefore (S i)). lia.
      * intros Hl. apply Hat. lia.
Qed.

(** With enough fuel the bisection over a monotone test ends at the
    first index [t] at which the test fails. *)
Lemma bisect_monotone (key : float) (xp : Numpy.ndarray) (t : nat) :
  (∀ i, (i < t)%nat → (key >=? Numpy.at_ xp i)%float = true) →
  (∀ i, (t ≤ i < length xp)%nat → (key >=? Numpy.at_ xp i)%float = false) →
  ∀ fuel imin imax,
    (imin ≤ t ≤ imax)%nat → (imax ≤ length xp)%nat → (imax - imin ≤ fuel)%nat →
    Numpy.bisect fuel key xp imin imax = t.
Proof.
  intros Hlow Hhigh. induction fuel as [|fuel IH]; intros imin imax Ht Hmax Hfuel.
  - cbn [Numpy.bisect]. lia.
  - cbn [Numpy.bisect]. case_bool_decide as Hlt; [|lia].
    assert (Hmid : ((imax - imin) / 2 < imax - imin)%nat)
      by (apply Nat.div_lt; lia).
    destruct (decide (imin + (imax - imin) / 2 < t)%nat) as [Hm|Hm].
    + rewrite (Hlow _ Hm). apply IH; lia.
    + rewrite (Hhigh (imin + (imax - imin) / 2)%nat) by lia. apply IH; lia.
Qed.

Section knots.
Variables (xp fp : Numpy.ndarray) (j : nat).
Hypothesis Hj : (j < length xp)%nat.
Hypothesis Hbefore : ∀ i, (i ≤ j)%nat → (Numpy.at_ xp i <=? Numpy.at_ xp j)%float = true.
Hypothesis Hafter :
  ∀ k, (j < k < length xp)%nat → (Numpy.at_ xp j <? Numpy.at_ xp k)%float = true.

Lemma knot_geb (i : nat) :
  (i ≤ j)%nat → (Numpy.at_ xp j >=? Numpy.at_ xp i)%float = true.
Proof using Hbefore. intros Hi. by apply leb_geb, Hbefore. Qed.

Lemma knot_geb_false (k : nat) :
  (j < k < length xp)%nat → (Numpy.at_ xp j >=? Numpy.at_ xp k)%float = false.
Proof using Hafter. intros Hk. by apply ltb_geb_false, Hafter. Qed.

Lemma knot_ltb_false (i : nat) :
  (i ≤ j)%nat → (Numpy.at_ xp j <? Numpy.at_ xp i)%float = false.
Proof using Hbefore. intros Hi. by apply leb_ltb_false, Hbefore. Qed.

Lemma knot_bisect (imin imax : nat) :
  (imin ≤ S j ≤ imax)%nat → (imax ≤ length xp)%nat →
  Numpy.index_before (Numpy.bisect (length xp) (Numpy.at_ xp j) xp imin imax)
  = Numpy.At j.
Proof using Hj Hbefore Hafter.
  intros Ht Hmax.
  rewrite (bisect_monotone (Numpy.at_ xp j) xp (S j)); [done| | |done|done|lia].
  - intros i Hi. apply knot_geb. lia.
  - intros i Hi. apply knot_geb_false. lia.
Qed.

(** The search finds a sample point that no later sample point repeats,
    whatever the guess. *)
Lemma search_at_knot (guess : nat) :
  Numpy.binary_search_with_guess (Numpy.at_ xp j) xp guess = Numpy.At j.
Proof using Hj Hbefore Hafter.
  unfold Numpy.binary_search_with_guess, Numpy.LIKELY_IN_CACHE_SIZE.
  assert (Hlast : (Numpy.at_ xp j >? Numpy.at_ xp (length xp - 1))%float = false).
  { apply leb_gtb_false.
    destruct (decide (j = length xp - 1)%nat) as [<-|Hne].
    - apply Hbefore. lia.
    - apply ltb_leb, Hafter. lia. }
  rewrite Hlast, (knot_ltb_false 0) by lia.
  case_bool_decide as Hlen.
  - f_equal. apply scan_stops.
    + destruct xp; simpl in *; lia.
    + intros i Hi. rewrite at_tail. apply knot_geb. lia.
    + intros Hl. rewrite at_tail. apply knot_geb_false.
      destruct xp; simpl in *; lia.
  - set (g := Nat.max 1 (Nat.min guess (length xp - 3))).
    assert (Hg : (1 ≤ g ≤ length xp - 3)%nat) by (unfold g; lia).
    destruct (decide (g ≤ j)%nat) as [Hgj|Hgj].
    + rewrite (knot_ltb_false g) by done.
      destruct (decide (g + 1 ≤ j)%nat) as [Hg1|Hg1].
      * rewrite (knot_ltb_false (g + 1)) by done.
        destruct (decide (g + 2 ≤ j)%nat) as [Hg2|Hg2].
        -- rewrite (knot_ltb_false (g + 2)) by done.
           destruct (bool_decide (g + 8 + 1 < length xp)%nat
                     && (Numpy.at_ xp j <? Numpy.at_ xp (g + 8))%float) eqn:E.
           ++ apply andb_true_iff in E as [E1 E2].
              apply bool_decide_eq_true in E1.
              destruct (decide (g + 8 ≤ j)%nat) as [H8|H8];
                [by rewrite (knot_ltb_false (g + 8)) in E2|].
              apply knot_bisect; lia.
           ++ apply knot_bisect; lia.
        -- rewrite Hafter by lia. f_equal. lia.
      * rewrite Hafter by lia. f_equal. lia.
    + rewrite Hafter by lia.
      destruct (decide (g - 1 ≤ j)%nat) as [Hg1|Hg1].
      * rewrite (knot_ltb_false (g - 1)) by done. f_equal. lia.
      * rewrite Hafter by lia.
        destruct (bool_decide (8 < g)%nat
                  && (Numpy.at_ xp j >=? Numpy.at_ xp (g - 8))%float) eqn:E.
        -- apply andb_true_iff in E as [E1 E2].
           apply bool_decide_eq_true in E1.
           destruct (decide (g - 8 ≤ j)%nat) as [H8|H8];
             [|by rewrite knot_geb_false in E2 by lia].
           apply knot_bisect; lia.
        -- apply knot_bisect; lia.
Qed.

Lemma knot_not_nan : is_nan (Numpy.at_ xp j) = false.
Proof using Hbefore. by apply (leb_not_nan _ (Numpy.at_ xp j)), Hbefore. Qed.

Lemma interp_value_at_knot :
  Numpy.interp_value xp fp (Numpy.at_ xp j) (Numpy.At j) = Numpy.at_ fp j.
Proof using Hbefore.
  unfold Numpy.interp_value. case_bool_decide; [done|].
  unfold Float.eqb. by rewrite cmp_refl by apply knot_not_nan.
Qed.

(** The value of the interpolation at a sample point that no later
    sample point repeats. *)
Lemma interp_at_knot :
  length fp = length xp →
  Numpy.interp [Numpy.at_ xp j] xp fp = Ok [Numpy.at_ fp j].
Proof using Hj Hbefore Hafter.
  intros Hlen. unfold Numpy.interp.
  rewrite bool_decide_eq_false_2 by lia.
  rewrite bool_decide_eq_false_2 by (intros H; by apply H).
  case_bool_decide as H1; cbn [map Numpy.interp_loop].
  - by replace j with 0%nat by lia.
  - by rewrite knot_not_nan, search_at_knot, interp_value_at_knot.
Qed.
End knots.

Lemma rates_of_length (df : DataFrame) (column : string) (rates : list float) :
  wf_df df →
  has_column df "GreenLightTime" = true →
  has_column df column = true →
  rates_of df column = Ok rates → length rates = len df.
Proof.
  intros Hwf Hdur Hcol. rewrite rates_of_closed by done. intros [= <-].
  case_bool_decide; simpl; [rewrite length_map, length_seq|]; lia.
Qed.

Lemma at_lookup (l : Numpy.ndarray) (i : nat) (x : float) :
  l !! i = Some x → Numpy.at_ l i = x.
Proof. unfold Numpy.at_. by intros ->. Qed.

(** With strictly increasing sample points the interpolation at all of
    them gives back the sample values. *)
Lemma interp_increasing_knots (xp fp : Numpy.ndarray) :
  length fp = length xp → (0 < length xp)%nat →
  (∀ i, (i < length xp)%nat → is_nan (Numpy.at_ xp i) = false) →
  (∀ i k, (i < k < length xp)%nat → (Numpy.at_ xp i <? Numpy.at_ xp k)%float = true) →
  Numpy.interp xp xp fp = Ok fp.
Proof.
  intros Hlen Hpos Hnan Hinc.
  assert (Hle : ∀ j i, (j < length xp)%nat → (i ≤ j)%nat →
                       (Numpy.at_ xp i <=? Numpy.at_ xp j)%float = true).
  { intros j i Hj Hi. destruct (decide (i = j)) as [->|Hne].
    - unfold Float.leb. rewrite cmp_refl by auto. done.
    - apply ltb_leb, Hinc. lia. }
  unfold Numpy.interp.
  rewrite bool_decide_eq_false_2 by lia.
  rewrite bool_decide_eq_false_2 by (intros H; by apply H).
  case_bool_decide as H1; f_equal.
  - destruct xp as [|x [|]], fp as [|y [|]]; simpl in *; try lia. done.
  - assert (Hloop : ∀ n k g, (k + n = length xp)%nat →
              Numpy.interp_loop xp fp g (drop k xp) = drop k fp).
    { induction n as [|n IH]; intros k g Hk.
      - rewrite !drop_ge by lia. done.
      - destruct (lookup_lt_is_Some_2 xp k ltac:(lia)) as [x Hx].
        destruct (lookup_lt_is_Some_2 fp k ltac:(lia)) as [y Hy].
        rewrite (drop_S _ _ _ Hx), (drop_S _ _ _ Hy). cbn [Numpy.interp_loop].
        rewrite <- (at_lookup _ _ _ Hx).
        rewrite (Hnan k) by lia.
        rewrite (search_at_knot xp k) by (intros; auto with lia).
        rewrite (interp_value_at_knot xp fp k) by (intros; auto with lia).
        rewrite (at_lookup _ _ _ Hy). f_equal. apply IH. lia. }
    apply (Hloop (length xp) 0%nat 0%nat). lia.
Qed.

(** C8, counterexample: when the second of two episodes lasts 0 s both
    have the cumulative time 30, the rates are 20 and 0, and the
    interpolation at the two recorded times gives 0 and 0; no function
    of the time can give 20 at the first 30 and 0 at the second. *)
Lemma equal_times_not_reproduced :
  convert_episodes_to_time tied_episodes = Ok (tied_episodes_timed, [Fin 0])
  ∧ rates_of tied_episodes_timed "TotalVehicles" = Ok [Fin 20; Fin 0]
  ∧ calculate_column tied_episodes_timed [Fin 30; Fin 30] ∅ "TotalVehicles"
    = Ok {[ "TotalVehicles_Rate" := [Fin 0; Fin 0] ]}
  ∧ ∀ g : float → float, map g [Fin 30; Fin 30] ≠ [Fin 20; Fin 0].
Proof.
  repeat split; try (vm_compute; reflexivity).
  intros g H. simpl in H. congruence.
Qed.

(** C8: a table is resampled at the recorded cumulative time of its
    episode [j].  When the times up to [j] are not greater and the times
    after [j] are greater than that of [j], the resampled series has the
    rate of episode [j] as its value. *)
Theorem resample_at_recorded_time (df : DataFrame) (column : string)
    (xp rates : list float) (j : nat) :
  wf_df df →
  has_column df "GreenLightTime" = true →
  has_column df column = true →
  getcol df "CumulativeTime" = Ok xp →
  rates_of df column = Ok rates →
  (j < len df)%nat →
  (∀ i, (i ≤ j)%nat → (Numpy.at_ xp i <=? Numpy.at_ xp j)%float = true) →
  (∀ k, (j < k < len df)%nat → (Numpy.at_ xp j <? Numpy.at_ xp k)%float = true) →
  calculate_column df [Numpy.at_ xp j] ∅ column
  = Ok {[ column +:+ "_Rate" := [Numpy.at_ rates j] ]}.
Proof.
  intros Hwf Hdur Hcol Hxp Hrates Hj Hbefore Hafter.
  assert (Hlx : length xp = len df).
  { unfold getcol in Hxp. destruct (data df !! "CumulativeTime") as [s|] eqn:E;
      [|discriminate]. injection Hxp as ->. by apply Hwf in E. }
  pose proof (rates_of_length _ _ _ Hwf Hdur Hcol Hrates) as Hlr.
  unfold calculate_column. rewrite Hcol, Hrates. simpl. rewrite Hxp. simpl.
  rewrite interp_at_knot; [|lia|done|by rewrite Hlx|lia]. simpl.
  by rewrite insert_empty.
Qed.

Lemma resample_at_recorded_time_witness :
  calculate_column two_episodes_timed [Numpy.at_ [Fin 30; Fin 60] 0] ∅ "TotalVehicles"
  = Ok {[ "TotalVehicles" +:+ "_Rate" := [Numpy.at_ [Fin 20; Fin 30] 0] ]}.
Proof.
  apply (resample_at_recorded_time two_episodes_timed "TotalVehicles"
           [Fin 30; Fin 60] [Fin 20; Fin 30] 0).
  - apply wf_df_decide. vm_compute. reflexivity.
  - vm_compute. reflexivity.
  - vm_compute. reflexivity.
  - vm_compute. reflexivity.
  - vm_compute. reflexivity.
  - vm_compute. lia.
  - intros i Hi. replace i with 0%nat by lia. vm_compute. reflexivity.
  - intros k Hk. replace k with 1%nat by (vm_compute in Hk; lia). vm_compute. reflexivity.
Defined.

(* ------------------------------------------------------------------ *)
(** ** Further properties: analyze_stats.py *)

Lemma getcol_present (df : DataFrame) (c : string) :
  has_column df c = true → ∃ s, getcol df c = Ok s ∧ data df !! c = Some s.
Proof.
  unfold has_column, getcol. intros H. apply bool_decide_eq_true in H as [s Hs].
  exists s. by rewrite Hs.
Qed.

Lemma gtb_irrefl (x : float) : (x >? x)%float = false.
Proof.
  unfold Float.gtb. destruct x as [q| | |]; try reflexivity.
  rewrite cmp_Fin. by rewrite (proj1 (Qeq_alt q q) (Qeq_refl q)).
Qed.

Lemma ltb_irrefl (x : float) : (x <? x)%float = false.
Proof.
  unfold Float.ltb. destruct x as [q| | |]; try reflexivity.
  rewrite cmp_Fin. by rewrite (proj1 (Qeq_alt q q) (Qeq_refl q)).
Qed.

(** A loop that appends one entry for each item that passes a test. *)
Lemma for_each_filter_append {R I : Type} (step : list R → I → result (list R))
    (P : I → bool) (mk : I → R) :
  (∀ acc m, step acc m = if P m then Ok (acc ++ [mk m]) else Ok acc) →
  ∀ l acc, for_each step acc l = Ok (acc ++ map mk (filter (λ m, P m = true) l)).
Proof.
  intros Hstep. induction l as [|m l IH]; intros acc.
  - by rewrite app_nil_r.
  - cbn [for_each]. rewrite Hstep. destruct (P m) eqn:HP.
    + change (Ok (acc ++ [mk m]) ≫= λ s', for_each step s' l)
        with (for_each step (acc ++ [mk m]) l).
      rewrite IH, filter_cons_True by done. by rewrite <- app_assoc.
    + change (Ok acc ≫= λ s', for_each step s' l) with (for_each step acc l).
      rewrite IH, filter_cons_False; [done|]. by rewrite HP.
Qed.

Lemma filter_in_both (ml static : DataFrame) (l : list string) :
  filter (λ m, in_both ml static m = true) l
  = filter (λ m, has_column ml m = true ∧ has_column static m = true) l.
Proof.
  induction l as [|m l IH]; [done|]. unfold in_both in *.
  destruct (has_column ml m) eqn:H1; destruct (has_column static m) eqn:H2; simpl.
  - rewrite !filter_cons_True by (rewrite ?H1, ?H2; done). by rewrite IH.
  - rewrite !filter_cons_False; [done|rewrite H2; intros []; done|rewrite H1, H2; done].
  - rewrite !filter_cons_False; [done|rewrite H1; intros []; done|rewrite H1; done].
  - rewrite !filter_cons_False; [done|rewrite H1; intros []; done|rewrite H1; done].
Qed.

(** X1: [statistical_comparison] never raises; its rows are, in the order
    of the list, the comparison metrics that are a column of both
    tables. *)
Theorem statistical_comparison_rows (ml_episodes static_episodes : DataFrame) :
  ∃ rows,
    analyze_stats.statistical_comparison ml_episodes static_episodes = Ok rows
    ∧ map analyze_stats.Metric rows
      = filter (λ m, has_column ml_episodes m = true
                     ∧ has_column static_episodes m = true)
          analyze_stats.comparison_metrics.
Proof.
  unfold analyze_stats.statistical_comparison.
  eexists. split.
  - apply (for_each_filter_append _ (in_both ml_episodes static_episodes)
             (λ metric,
                let ml_stats :=
                  analyze_stats.stats_of
                    (dropna (default [] (data ml_episodes !! metric))) in
                let static_stats :=
                  analyze_stats.stats_of
                    (dropna (default [] (data static_episodes !! metric))) in
                {| analyze_stats.Metric := metric;
                   analyze_stats.ML_Mean := analyze_stats.mean ml_stats;
                   analyze_stats.Static_Mean := analyze_stats.mean static_stats;
                   analyze_stats.ML_Std := analyze_stats.std ml_stats;
                   analyze_stats.Static_Std := analyze_stats.std static_stats;
                   analyze_stats.Improvement_pct :=
                     analyze_stats.improvement ml_stats static_stats |})).
    intros acc m. unfold in_both, has_column, getcol.
    destruct (data ml_episodes !! m) as [a|]; [|done].
    destruct (data static_episodes !! m) as [b|]; done.
  - rewrite app_nil_l, map_map. simpl. rewrite map_id.
    apply filter_in_both.
Qed.

Lemma count_step_eq (ml static : DataFrame) (c : TrafficSignalComparison.counts)
    (m : string) :
  TrafficSignalComparison.count_step ml static c m
  = Ok (TrafficSignalComparison.mkCounts
          (TrafficSignalComparison.ml_better_count c + Nat.b2n (ml_wins ml static m))
          (TrafficSignalComparison.static_better_count c
           + Nat.b2n (static_wins ml static m))).
Proof.
  unfold TrafficSignalComparison.count_step, static_wins, ml_wins, in_both,
    TrafficSignalComparison.mean_or_zero, has_column, getcol.
  destruct c as [a b].
  destruct (data ml !! m) as [x|]; simpl.
  - destruct (data static !! m) as [y|]; simpl.
    + case_bool_decide; simpl; f_equal; f_equal; lia.
    + f_equal. f_equal; lia.
  - f_equal. f_equal; lia.
Qed.

Lemma length_filter_cons {A} (f : A → bool) (x : A) (l : list A) :
  length (filter (λ m, f m = true) (x :: l))
  = (Nat.b2n (f x) + length (filter (λ m, f m = true) l))%nat.
Proof.
  destruct (f x) eqn:E.
  - by rewrite filter_cons_True.
  - rewrite filter_cons_False; [done|]. by rewrite E.
Qed.

Lemma count_loop (ml static : DataFrame) (l : list string)
    (c : TrafficSignalComparison.counts) :
  for_each (TrafficSignalComparison.count_step ml static) c l
  = Ok (TrafficSignalComparison.mkCounts
          (TrafficSignalComparison.ml_better_count c
           + length (filter (λ m, ml_wins ml static m = true) l))
          (TrafficSignalComparison.static_better_count c
           + length (filter (λ m, static_wins ml static m = true) l))).
Proof.
  revert c. induction l as [|m l IH]; intros c.
  - destruct c. simpl. f_equal. f_equal; lia.
  - cbn [for_each]. rewrite count_step_eq.
    match goal with
    | |- Ok ?c' ≫= _ = _ =>
        change (for_each (TrafficSignalComparison.count_step ml static) c' l = 
                Ok (TrafficSignalComparison.mkCounts
          (TrafficSignalComparison.ml_better_count c
           + length (filter (λ m, ml_wins ml static m = true) (m :: l)))
          (TrafficSignalComparison.static_better_count c
           + length (filter (λ m, static_wins ml static m = true) (m :: l)))))
    end.
    rewrite IH. cbn [TrafficSignalComparison.ml_better_count
                       TrafficSignalComparison.static_better_count].
    rewrite !length_filter_cons. f_equal. f_equal; lia.
Qed.

Lemma wins_partition (ml static : DataFrame) (l : list string) :
  (length (filter (λ m, ml_wins ml static m = true) l)
   + length (filter (λ m, static_wins ml static m = true) l)
   = length (filter (λ m, has_column ml m = true ∧ has_column static m = true) l))%nat.
Proof.
  rewrite <- filter_in_both.
  induction l as [|m l IH]; [done|].
  unfold static_wins in *.
  rewrite !length_filter_cons.
  destruct (in_both ml static m) eqn:Hb; destruct (ml_wins ml static m) eqn:Hw;
    simpl; try lia.
  unfold ml_wins in Hw. rewrite Hb in Hw. discriminate.
Qed.

(** X2: the counting loop of [generate_performance_report] never raises,
    and its two counters add up to the number of metrics that are a
    column of both tables: every compared metric is counted for exactly
    one policy. *)
Theorem performance_counts_total (ml_episodes static_episodes : DataFrame) :
  ∃ c v,
    TrafficSignalComparison.generate_performance_report ml_episodes static_episodes
    = Ok (c, v)
    ∧ (TrafficSignalComparison.ml_better_count c
       + TrafficSignalComparison.static_better_count c
       = length (filter (λ m, has_column ml_episodes m = true
                              ∧ has_column static_episodes m = true)
                   TrafficSignalComparison.metrics_to_analyze))%nat.
Proof.
  unfold TrafficSignalComparison.generate_performance_report.
  rewrite count_loop. eexists _, _. split; [reflexivity|].
  cbn [TrafficSignalComparison.ml_better_count
       TrafficSignalComparison.static_better_count].
  apply wins_partition.
Qed.

(** X3: when every metric has the same mean in both tables, no metric is
    counted for the ML agent: a tie goes to the static controller, and
    the overall verdict is never in favour of the ML agent. *)
Theorem equal_means_count_for_static (ml_episodes static_episodes : DataFrame) :
  (∀ m a b, data ml_episodes !! m = Some a → data static_episodes !! m = Some b →
            Pandas.mean a = Pandas.mean b) →
  ∃ c v,
    TrafficSignalComparison.generate_performance_report ml_episodes static_episodes
    = Ok (c, v)
    ∧ TrafficSignalComparison.ml_better_count c = 0%nat
    ∧ TrafficSignalComparison.static_better_count c
      = length (filter (λ m, has_column ml_episodes m = true
                             ∧ has_column static_episodes m = true)
                  TrafficSignalComparison.metrics_to_analyze)
    ∧ v ≠ TrafficSignalComparison.ML_Agent_better.
Proof.
  intros Heq.
  assert (Hno : ∀ l, filter (λ m, ml_wins ml_episodes static_episodes m = true) l = []).
  { induction l as [|m l IH]; [done|]. rewrite filter_cons_False; [done|].
    unfold ml_wins, in_both, has_column, TrafficSignalComparison.mean_or_zero,
      analyze_stats.better.
    destruct (data ml_episodes !! m) as [a|] eqn:Ha; [|done].
    destruct (data static_episodes !! m) as [b|] eqn:Hb; [|done].
    rewrite (Heq m a b Ha Hb). simpl.
    rewrite gtb_irrefl, ltb_irrefl.
    rewrite bool_decide_eq_false_2; [done|]. by case_bool_decide. }
  unfold TrafficSignalComparison.generate_performance_report.
  rewrite count_loop. eexists _, _. split; [reflexivity|].
  pose proof (wins_partition ml_episodes static_episodes
                TrafficSignalComparison.metrics_to_analyze) as Hp.
  cbn [TrafficSignalComparison.ml_better_count
       TrafficSignalComparison.static_better_count].
  rewrite Hno in *. cbn [length] in *. split; [done|]. split; [lia|].
  unfold TrafficSignalComparison.overall_of.
  cbn [TrafficSignalComparison.ml_better_count
       TrafficSignalComparison.static_better_count].
  rewrite bool_decide_eq_false_2 by lia. by case_bool_decide.
Qed.

Lemma equal_means_count_for_static_witness :
  ∃ c v,
    TrafficSignalComparison.generate_performance_report two_episodes two_episodes
    = Ok (c, v)
    ∧ TrafficSignalComparison.ml_better_count c = 0%nat
    ∧ TrafficSignalComparison.static_better_count c
      = length (filter (λ m, has_column two_episodes m = true
                             ∧ has_column two_episodes m = true)
                  TrafficSignalComparison.metrics_to_analyze)
    ∧ v ≠ TrafficSignalComparison.ML_Agent_better.
Proof.
  apply (equal_means_count_for_static two_episodes two_episodes).
  intros m a b Ha Hb. rewrite Ha in Hb. injection Hb as ->. reflexivity.
Defined.

(** X4: [create_dashboard] tests only the ML interval table for the
    columns FuelConsumed and QueueLength before it reads them from both
    interval tables: when the ML table has such a column and the static
    table does not, it raises a KeyError. *)
Theorem dashboard_untested_static_column
    (ml_episodes static_episodes ml_intervals static_intervals ml_rewards : DataFrame)
    (column : string) :
  column ∈ ["FuelConsumed"; "QueueLength"] →
  has_column ml_intervals column = true →
  has_column static_intervals column = false →
  ∃ key,
    TrafficSignalComparison.create_dashboard ml_episodes static_episodes
      ml_intervals static_intervals ml_rewards
    = Raise (KeyError key).
Proof.
  intros Hin Hml Hst.
  unfold TrafficSignalComparison.create_dashboard,
    TrafficSignalComparison.line_plot_reads.
  unfold has_column in Hml, Hst.
  apply bool_decide_eq_true in Hml as [s Hs].
  apply bool_decide_eq_false in Hst.
  assert (Hnone : data static_intervals !! column = None).
  { destruct (data static_intervals !! column) eqn:E; [|done].
    exfalso. apply Hst. eauto. }
  clear Hst. unfold has_column, getcol.
  repeat (apply elem_of_cons in Hin as [Hin|Hin]); [..|by apply elem_of_nil in Hin];
    subst; rewrite ?Hs, ?Hnone; simpl.
  - destruct (data ml_intervals !! "SimulationTime"); simpl; [|eauto].
    destruct (data static_intervals !! "SimulationTime"); simpl; eauto.
  - destruct (data ml_intervals !! "FuelConsumed"); simpl.
    + destruct (data ml_intervals !! "SimulationTime"); simpl; [|eauto].
      destruct (data static_intervals !! "SimulationTime"); simpl; [|eauto].
      destruct (data static_intervals !! "FuelConsumed"); simpl; eauto.
    + destruct (data ml_intervals !! "SimulationTime"); simpl; [|eauto].
      destruct (data static_intervals !! "SimulationTime"); simpl; eauto.
Qed.

Lemma dashboard_untested_static_column_witness :
  ∃ key,
    TrafficSignalComparison.create_dashboard two_episodes two_episodes
      (single_column "QueueLength" [Fin 1]) (single_column "SimulationTime" [Fin 1])
      two_episodes
    = Raise (KeyError key).
Proof.
  apply (dashboard_untested_static_column two_episodes two_episodes
           (single_column "QueueLength" [Fin 1]) (single_column "SimulationTime" [Fin 1])
           two_episodes "QueueLength").
  - vm_compute. right. left.
  - vm_compute. reflexivity.
  - vm_compute. reflexivity.
Defined.

Lemma div_Fin_pos (a b : Q) : 0 < b → (Fin a / Fin b)%float = Fin (Qred (a / b)).
Proof.
  intros Hb. unfold Float.div, Float.sgn. by rewrite (proj1 (Qgt_alt b 0) Hb).
Qed.



(* ------------------------------------------------------------------ *)
(** ** Further properties: Compare_results.py *)

(** X6: with both tables loaded, [analyze_comparison_results] produces
    its table exactly when both tables have the columns Episode,
    TotalVehicles, VehiclesWaiting and FuelConsumed, and raises a
    KeyError otherwise; the table has six rows, and its last row holds
    under ML Agent the improvement
    [(mean(ml) - mean(static)) / mean(static) * 100] of the TotalVehicles
    means, printed with one decimal and a percent sign, and under
    Fixed-Time the baseline text. *)
Theorem comparison_requires_four_columns (ml static : DataFrame) :
  match Compare_results.analyze_comparison_results (Some ml) (Some static) with
  | Ok (Some t) =>
      required_present ml = true ∧ required_present static = true
      ∧ length (Compare_results.Metric t) = 6%nat
      ∧ length (Compare_results.ML_Agent t) = 6%nat
      ∧ length (Compare_results.Fixed_Time t) = 6%nat
      ∧ Compare_results.Metric t !! 5%nat = Some "Performance Improvement (%)"
      ∧ Compare_results.Fixed_Time t !! 5%nat = Some (Text "Baseline (0%)")
      ∧ ∃ ml_tv static_tv,
          data ml !! "TotalVehicles" = Some ml_tv
          ∧ data static !! "TotalVehicles" = Some static_tv
          ∧ Compare_results.ML_Agent t !! 5%nat
            = Some (Fmt 1 (((Pandas.mean ml_tv - Pandas.mean static_tv)
                            / Pandas.mean static_tv) * f100)%float "%")
  | Ok None => False
  | Raise e =>
      required_present ml && required_present static = false
      ∧ ∃ key, e = KeyError key
  end.
Proof.
  pose proof (comparison_outcome ml static) as H.
  destruct (Compare_results.analyze_comparison_results (Some ml) (Some static))
    as [[t|]|e]; [|done|done].
  destruct H as (H1 & H2 & ml_tv & static_tv & ml_vw & static_vw & ml_fc & static_fc
                 & Hmt & Hst & _ & _ & _ & _ & HM & HA & HF).
  rewrite HM, HA, HF. repeat split; try done.
  by exists ml_tv, static_tv.
Qed.

(* ------------------------------------------------------------------ *)
(** ** Further properties: analyze_ml_training_time_based.py *)

Section training_file.
Import Matplotlib analyze_ml_training_time_based.

Lemma length_diff (s : Series) : length (diff s) = length s.
Proof.
  destruct s as [|x r]; [done|]. unfold diff. cbn [length].
  rewrite length_zip_with. cbn [length]. lia.
Qed.

(** X7: when the episode table has a FuelConsumed column,
    [generate_training_summary] never returns a summary: the fuel mean
    overwrites the sixth value instead of being appended, seven values
    are left for eight labels, and the construction of the table
    raises (unless an earlier read has raised already). *)
Theorem training_summary_with_fuel_raises (episode_data reward_data : DataFrame)
    (total_training_time training_efficiency : float) :
  has_column episode_data "FuelConsumed" = true →
  ∃ e,
    generate_training_summary episode_data reward_data
      total_training_time training_efficiency = Raise e
    ∧ ((∀ c, c ∈ ["CumulativeReward"; "TotalVehicles"; "FuelConsumed"; "CumulativeTime"] →
             has_column episode_data c = true) →
       (0 < len episode_data)%nat → wf_df episode_data →
       e = ValueError "All arrays must be of the same length").
Proof.
  intros Hfuel. unfold generate_training_summary. rewrite Hfuel.
  destruct (getcol_present _ _ Hfuel) as (fc & Hfc & _). rewrite Hfc.
  assert (Hend : ∀ V : list value, length V = 6%nat →
            ∃ e, (list_assign V 5 (Fmt 2 (Pandas.mean fc)) ≫= λ Value,
                    convergence_value episode_data ≫= λ conv,
                      make_frame training_metrics (Value ++ [conv])) = Raise e
                 ∧ (raises (convergence_value episode_data) = false →
                    e = ValueError "All arrays must be of the same length")).
  { intros V HV. unfold list_assign. rewrite bool_decide_eq_true_2 by lia. simpl.
    destruct (convergence_value episode_data) as [conv|e]; simpl; [|eauto].
    - unfold make_frame. rewrite bool_decide_eq_false_2.
      + eauto.
      + rewrite length_app, length_insert, HV. simpl. lia.
    - exists e. split; [done|]. discriminate. }
  assert (Hconv : has_column episode_data "CumulativeTime" = true →
                  wf_df episode_data →
                  raises (convergence_value episode_data) = false).
  { intros Hct Hwf. unfold convergence_value.
    destruct (has_column episode_data "CumulativeReward"
              && bool_decide (10 < len episode_data)%nat) eqn:Hg; [|done].
    apply andb_true_iff in Hg as [Hcr Hlen].
    destruct (getcol_present _ _ Hcr) as (c & -> & Hc). simpl.
    destruct (where_ _ _) as [|i l] eqn:Hw; [done|].
    assert (Hi : (i < len episode_data)%nat).
    { assert (Hin : i ∈ i :: l) by apply list_elem_of_here.
      rewrite <- Hw in Hin. unfold where_ in Hin.
      apply list_elem_of_filter in Hin as [_ Hin]. apply elem_of_seq in Hin.
      unfold rolling_mean in Hin. rewrite length_map, length_seq in Hin.
      rewrite length_diff, (Hwf _ _ Hc) in Hin. unfold len. lia. }
    by rewrite (iloc_cell episode_data Hwf "CumulativeTime" i Hct Hi). }
  destruct (has_column episode_data "CumulativeReward") eqn:Hcr.
  - destruct (getcol_present _ _ Hcr) as (cr & -> & Hcr'). simpl.
    destruct (iloc_last cr) as [final|e] eqn:Hlast; simpl.
    + destruct (has_column episode_data "TotalVehicles") eqn:Htv.
      * destruct (getcol_present _ _ Htv) as (tv & -> & _). simpl.
        destruct (Hend ([Fmt 2 (total_training_time / f60)%float;
                         Len (len episode_data); Fmt 2 training_efficiency;
                         Fmt 2 final; Fmt 1 (Pandas.mean tv); Plain (Pandas.max tv)])
                    eq_refl) as (e & He & Hv).
        exists e. split; [exact He|]. intros Hall Hn Hwf. apply Hv, Hconv; [|done].
        apply Hall. set_solver.
      * simpl.
        destruct (Hend ([Fmt 2 (total_training_time / f60)%float;
                         Len (len episode_data); Fmt 2 training_efficiency;
                         Fmt 2 final; Str "N/A"; Str "N/A"])
                    eq_refl) as (e & He & Hv).
        exists e. split; [exact He|]. intros Hall. rewrite Hall in Htv; [done|set_solver].
    + exists e. split; [done|]. intros _ Hn Hwf.
      unfold iloc_last in Hlast. destruct cr as [|x r]; [|].
      * apply Hwf in Hcr'. simpl in Hcr'. unfold len in Hn. lia.
      * destruct (last (x :: r)) eqn:El; [discriminate|].
        apply last_None in El. discriminate.
  - simpl. destruct (has_column episode_data "TotalVehicles") eqn:Htv.
    + destruct (getcol_present _ _ Htv) as (tv & -> & _). simpl.
      destruct (Hend ([Fmt 2 (total_training_time / f60)%float;
                       Len (len episode_data); Fmt 2 training_efficiency;
                       Str "N/A"; Fmt 1 (Pandas.mean tv); Plain (Pandas.max tv)])
                  eq_refl) as (e & He & Hv).
      exists e. split; [exact He|]. intros Hall. rewrite Hall in Hcr; [done|set_solver].
    + simpl.
      destruct (Hend ([Fmt 2 (total_training_time / f60)%float;
                       Len (len episode_data); Fmt 2 training_efficiency;
                       Str "N/A"; Str "N/A"; Str "N/A"])
                  eq_refl) as (e & He & Hv).
      exists e. split; [exact He|]. intros Hall. rewrite Hall in Hcr; [done|set_solver].
Qed.

Lemma training_summary_with_fuel_raises_witness :
  ∃ e,
    generate_training_summary training_episodes
      (single_column "Reward" []) (Fin 60) (Fin 2) = Raise e
    ∧ ((∀ c, c ∈ ["CumulativeReward"; "TotalVehicles"; "FuelConsumed"; "CumulativeTime"] →
             has_column training_episodes c = true) →
       (0 < len training_episodes)%nat →
       wf_df training_episodes →
       e = ValueError "All arrays must be of the same length").
Proof.
  apply (training_summary_with_fuel_raises training_episodes
           (single_column "Reward" []) (Fin 60) (Fin 2)).
  vm_compute. reflexivity.
Defined.

(** X8: when the episode table has a TotalVehicles column and no
    FuelConsumed column, every summary that [generate_training_summary]
    returns has eight values of which the sixth, labelled as the average
    fuel, is the maximum of TotalVehicles and the seventh, labelled as
    the best episode, is "N/A". *)
Theorem training_summary_misaligned (episode_data reward_data : DataFrame)
    (total_training_time training_efficiency : float)
    (tv : Series) (labels : list string) (values : list value) :
  has_column episode_data "FuelConsumed" = false →
  data episode_data !! "TotalVehicles" = Some tv →
  generate_training_summary episode_data reward_data
    total_training_time training_efficiency = Ok (labels, values) →
  length values = 8%nat
  ∧ labels !! 5%nat = Some "Average Fuel per Episode (L)"
  ∧ values !! 5%nat = Some (Plain (Pandas.max tv))
  ∧ labels !! 6%nat = Some "Best Episode Performance (Vehicles)"
  ∧ values !! 6%nat = Some (Str "N/A").
Proof.
  intros Hfuel Htv. unfold generate_training_summary. rewrite Hfuel.
  assert (Hhas : has_column episode_data "TotalVehicles" = true).
  { unfold has_column. rewrite Htv. apply bool_decide_eq_true. eauto. }
  assert (Hg : getcol episode_data "TotalVehicles" = Ok tv).
  { unfold getcol. by rewrite Htv. }
  rewrite Hhas, Hg.
  intros H. apply bind_Ok_inv in H as (V4 & H4 & H).
  assert (HV4 : ∃ v, V4 = [Fmt 2 (total_training_time / f60)%float;
                           Len (len episode_data); Fmt 2 training_efficiency; v]).
  { destruct (has_column episode_data "CumulativeReward").
    - apply bind_Ok_inv in H4 as (c & _ & H4).
      apply bind_Ok_inv in H4 as (final & _ & H4). injection H4 as <-. eauto.
    - injection H4 as <-. eauto. }
  destruct HV4 as (v & ->). simpl in H.
  apply bind_Ok_inv in H as (conv & _ & H).
  unfold make_frame in H. simpl in H. injection H as <- <-. done.
Qed.

Lemma training_summary_misaligned_witness :
  length [Fmt 2 (Fin 1); Len 3; Fmt 2 (Fin 2); Str "N/A"; Fmt 1 (Fin 3);
          Plain (Fin 5); Str "N/A"; Str "N/A"] = 8%nat
  ∧ training_metrics !! 5%nat = Some "Average Fuel per Episode (L)"
  ∧ [Fmt 2 (Fin 1); Len 3; Fmt 2 (Fin 2); Str "N/A"; Fmt 1 (Fin 3);
     Plain (Fin 5); Str "N/A"; Str "N/A"] !! 5%nat
    = Some (Plain (Pandas.max [Fin 1; Fin 5; Fin 3]))
  ∧ training_metrics !! 6%nat = Some "Best Episode Performance (Vehicles)"
  ∧ [Fmt 2 (Fin 1); Len 3; Fmt 2 (Fin 2); Str "N/A"; Fmt 1 (Fin 3);
     Plain (Fin 5); Str "N/A"; Str "N/A"] !! 6%nat
    = Some (Str "N/A").
Proof.
  apply (training_summary_misaligned
           (single_column "TotalVehicles" [Fin 1; Fin 5; Fin 3])
           (single_column "Reward" []) (Fin 60) (Fin 2) [Fin 1; Fin 5; Fin 3]).
  - vm_compute. reflexivity.
  - vm_compute. reflexivity.
  - vm_compute. reflexivity.
Defined.

Lemma cumsum_from_length (s : Series) (acc : float) :
  length (cumsum_from acc s) = length s.
Proof.
  revert acc. induction s as [|x s IH]; intros acc; [done|]. simpl.
  destruct (is_nan x); simpl; by rewrite IH.
Qed.

(** X9: on a well-formed table without rows [analyze_training_efficiency]
    raises an IndexError, with an EpisodeDuration column as well as
    without one, because it reads the last cell of the time axis. *)
Theorem training_efficiency_empty (episode_data reward_data : DataFrame) :
  wf_df episode_data →
  len episode_data = 0%nat →
  analyze_training_efficiency (Some episode_data) (Some reward_data)
  = Raise (IndexError "single positional indexer is out-of-bounds").
Proof.
  intros Hwf Hn. unfold analyze_training_efficiency, training_efficiency_of.
  destruct (has_column episode_data "EpisodeDuration") eqn:Hd.
  - destruct (getcol_present _ _ Hd) as (d & -> & Hd'). simpl.
    unfold getcol, setcol. simpl. rewrite lookup_insert_eq. simpl.
    apply Hwf in Hd'. unfold len in Hn. rewrite Hn in Hd'.
    destruct d; [done|discriminate].
  - unfold getcol, setcol. simpl. rewrite lookup_insert_eq. simpl.
    rewrite Hn. done.
Qed.

Lemma training_efficiency_empty_witness :
  analyze_training_efficiency (Some (single_column "EpisodeDuration" []))
    (Some (single_column "Reward" []))
  = Raise (IndexError "single positional indexer is out-of-bounds").
Proof.
  apply (training_efficiency_empty (single_column "EpisodeDuration" [])
           (single_column "Reward" [])).
  - apply wf_df_decide. vm_compute. reflexivity.
  - reflexivity.
Defined.

Lemma bind_Ok {A B} (a : A) (f : A → result B) : Ok a ≫= f = f a.
Proof. reflexivity. Qed.

Lemma getcol_setcol_eq (df : DataFrame) (c : string) (s : Series) :
  getcol (setcol df c s) c = Ok s.
Proof. unfold getcol, setcol. cbn [data]. by rewrite lookup_insert_eq. Qed.

Lemma len_setcol (df : DataFrame) (c : string) (s : Series) :
  len (setcol df c s) = len df.
Proof. reflexivity. Qed.

Lemma Qred_inject_Z (z : Z) : Qred (inject_Z z) = inject_Z z.
Proof.
  unfold Qred, inject_Z. simpl.
  pose proof (Z.ggcd_gcd z 1) as Hg.
  pose proof (Z.ggcd_correct_divisors z 1) as Hd.
  destruct (Z.ggcd z 1) as [g [a b]]. simpl in *.
  rewrite Z.gcd_1_r in Hg. subst g. destruct Hd as [Ha Hb].
  assert (a = z) as -> by lia. assert (b = 1%Z) as -> by lia. reflexivity.
Qed.

Lemma of_nat_mul_f60 (i : nat) :
  (of_nat i * f60)%float = Fin (inject_Z (Z.of_nat i * 60)).
Proof.
  unfold Float.mul, of_nat, of_Z, f60. f_equal.
  transitivity (Qred (inject_Z (Z.of_nat i * 60))); [|apply Qred_inject_Z].
  apply Qred_complete. change 60 with (inject_Z 60). by rewrite <- inject_Z_mult.
Qed.

(** X10: without an EpisodeDuration column the time axis is
    0, 60, ..., 60 (n-1), so the total training time of [n >= 1] episodes
    is [60 (n-1)] seconds and not [60 n]: one episode gives the total 0
    and an infinite efficiency, and [n >= 2] episodes give the
    efficiency [n / (n-1)] episodes per minute. *)
Theorem training_efficiency_fallback (episode_data : DataFrame) (k : nat) :
  has_column episode_data "EpisodeDuration" = false →
  len episode_data = S k →
  ∃ episode_data' e,
    training_efficiency_of episode_data
    = Ok (episode_data', Fin (inject_Z (Z.of_nat k * 60)), e)
    ∧ data episode_data' !! "CumulativeTime"
      = Some (map (λ i, Fin (inject_Z (Z.of_nat i * 60))) (seq 0 (S k)))
    ∧ (k = 0%nat → e = PInf)
    ∧ ((0 < k)%nat → ∃ r, e = Fin r ∧ r * inject_Z (Z.of_nat k) == inject_Z (Z.of_nat (S k))).
Proof.
  intros Hd Hn. unfold training_efficiency_of. rewrite Hd.
  rewrite getcol_setcol_eq, bind_Ok, len_setcol, Hn.
  assert (Hmap : map (λ i, (of_nat i * f60)%float) (seq 0 (S k))
                 = map (λ i, Fin (inject_Z (Z.of_nat i * 60))) (seq 0 (S k))).
  { apply map_ext. intros i. apply of_nat_mul_f60. }
  rewrite Hmap.
  assert (Hlast : iloc_last (map (λ i, Fin (inject_Z (Z.of_nat i * 60))) (seq 0 (S k)))
                  = Ok (Fin (inject_Z (Z.of_nat k * 60)))).
  { unfold iloc_last. rewrite seq_S, map_app. cbn [map Nat.add]. by rewrite last_snoc. }
  rewrite Hlast, bind_Ok. eexists _, _. split; [reflexivity|].
  split; [unfold setcol; cbn [data]; by rewrite lookup_insert_eq|]. split.
  - intros ->. vm_compute. reflexivity.
  - intros Hk.
    assert (Hpos : 0 < inject_Z (Z.of_nat k * 60)).
    { change 0 with (inject_Z 0). rewrite <- Zlt_Qlt. lia. }
    rewrite div_f60_Fin. unfold of_nat, of_Z.
    rewrite div_Fin_pos.
    + eexists. split; [reflexivity|]. rewrite !Qred_correct.
      rewrite inject_Z_mult. change (inject_Z 60) with 60.
      field. apply of_nat_nonzero. lia.
    + rewrite Qred_correct. apply Qlt_shift_div_l; lra.
Qed.

Lemma training_efficiency_fallback_witness :
  ∃ episode_data' e,
    training_efficiency_of (single_column "TotalVehicles" [Fin 1; Fin 5; Fin 3])
    = Ok (episode_data', Fin (inject_Z (Z.of_nat 2 * 60)), e)
    ∧ data episode_data' !! "CumulativeTime"
      = Some (map (λ i, Fin (inject_Z (Z.of_nat i * 60))) (seq 0 3))
    ∧ (2%nat = 0%nat → e = PInf)
    ∧ ((0 < 2)%nat → ∃ r, e = Fin r ∧ r * inject_Z (Z.of_nat 2) == inject_Z (Z.of_nat 3)).
Proof.
  apply (training_efficiency_fallback
           (single_column "TotalVehicles" [Fin 1; Fin 5; Fin 3]) 2).
  - vm_compute. reflexivity.
  - reflexivity.
Defined.

End training_file.

(* ------------------------------------------------------------------ *)
(** ** Further properties: Compare_results_time_based.py *)

Lemma wf_setcol (df : DataFrame) (c : string) (s : Series) :
  wf_df df → length s = index_len df → wf_df (setcol df c s).
Proof.
  intros Hwf Hs c' s'. unfold setcol. cbn [data index_len].
  rewrite lookup_insert_Some. intros [[_ <-]|[_ H]]; [done|by apply Hwf in H].
Qed.

(** The table once the duration column is there. *)
Lemma duration_column (df : DataFrame) :
  wf_df df →
  ∃ df1 g,
    (if negb (has_column df "GreenLightTime")
     then setcol_scalar df "GreenLightTime" f30 else df) = df1
    ∧ wf_df df1 ∧ index_len df1 = index_len df
    ∧ data df1 !! "GreenLightTime" = Some g
    ∧ (data df !! "GreenLightTime" = None → g = replicate (len df) f30)
    ∧ (∀ s, data df !! "GreenLightTime" = Some s → g = s)
    ∧ ∀ c, c ≠ "GreenLightTime" → data df1 !! c = data df !! c.
Proof.
  intros Hwf. unfold has_column. case_bool_decide as Hc; simpl.
  - destruct Hc as [s Hs]. exists df, s. repeat split; try done.
    + rewrite Hs. discriminate.
    + intros s'. rewrite Hs. by intros [= ->].
  - assert (Hnone : data df !! "GreenLightTime" = None).
    { destruct (data df !! "GreenLightTime") eqn:E; [|done]. exfalso. eauto. }
    eexists _, _. split; [reflexivity|]. repeat split.
    + apply wf_setcol; [done|]. by rewrite length_replicate.
    + unfold setcol_scalar, setcol. cbn [data]. by rewrite lookup_insert_eq.
    + rewrite Hnone. discriminate.
    + intros c Hne. unfold setcol_scalar, setcol. cbn [data].
      by rewrite lookup_insert_ne.
Qed.

(** What a successful [convert_episodes_to_time] has computed. *)
Lemma convert_inv (df df' : DataFrame) (time_points : Numpy.ndarray) :
  wf_df df →
  convert_episodes_to_time df = Ok (df', time_points) →
  ∃ df1 g,
    wf_df df1 ∧ index_len df1 = index_len df
    ∧ data df1 !! "GreenLightTime" = Some g
    ∧ (data df !! "GreenLightTime" = None → g = replicate (len df) f30)
    ∧ (∀ s, data df !! "GreenLightTime" = Some s → g = s)
    ∧ (∀ c, c ≠ "GreenLightTime" → data df1 !! c = data df !! c)
    ∧ df' = setcol df1 "CumulativeTime" (cumsum g)
    ∧ Numpy.arange0 (Pandas.max (cumsum g)) f30 = Ok time_points.
Proof.
  intros Hwf. unfold convert_episodes_to_time.
  destruct (duration_column df Hwf)
    as (df1 & g & -> & Hwf1 & Hlen & Hg & Hnone & Hsome & Hother).
  assert (Hget : getcol df1 "GreenLightTime" = Ok g) by (unfold getcol; by rewrite Hg).
  rewrite Hget, bind_Ok, getcol_setcol_eq, bind_Ok.
  intros H. apply bind_Ok_inv in H as (tp & Htp & H). injection H as <- <-.
  exists df1, g. repeat split; done.
Qed.

(** X11: on a well-formed table a successful [convert_episodes_to_time]
    returns a well-formed table with the same rows whose CumulativeTime
    column is the running sum of its GreenLightTime column; that column
    is the given one, or 30 for every row when the table has none, and
    every other column is unchanged. *)
Theorem convert_adds_time_axis (df df' : DataFrame) (time_points : Numpy.ndarray) :
  wf_df df →
  convert_episodes_to_time df = Ok (df', time_points) →
  wf_df df' ∧ len df' = len df
  ∧ ∃ g,
      data df' !! "GreenLightTime" = Some g
      ∧ data df' !! "CumulativeTime" = Some (cumsum g)
      ∧ length (cumsum g) = len df
      ∧ (data df !! "GreenLightTime" = None → g = replicate (len df) f30)
      ∧ (∀ s, data df !! "GreenLightTime" = Some s → g = s)
      ∧ ∀ c, c ≠ "GreenLightTime" → c ≠ "CumulativeTime" →
             data df' !! c = data df !! c.
Proof.
  intros Hwf H.
  destruct (convert_inv df df' time_points Hwf H)
    as (df1 & g & Hwf1 & Hlen & Hg & Hnone & Hsome & Hother & -> & _).
  assert (Hl : length (cumsum g) = index_len df1).
  { unfold cumsum. rewrite cumsum_from_length. by apply Hwf1 in Hg. }
  split; [by apply wf_setcol|]. split; [exact Hlen|].
  exists g. unfold setcol. cbn [data]. repeat split.
  - by rewrite lookup_insert_ne.
  - by rewrite lookup_insert_eq.
  - unfold len. by rewrite Hl.
  - exact Hnone.
  - exact Hsome.
  - intros c H1 H2. rewrite lookup_insert_ne by done. by apply Hother.
Qed.

Lemma convert_adds_time_axis_witness :
  wf_df two_episodes_timed ∧ len two_episodes_timed = len two_episodes
  ∧ ∃ g,
      data two_episodes_timed !! "GreenLightTime" = Some g
      ∧ data two_episodes_timed !! "CumulativeTime" = Some (cumsum g)
      ∧ length (cumsum g) = len two_episodes
      ∧ (data two_episodes !! "GreenLightTime" = None
         → g = replicate (len two_episodes) f30)
      ∧ (∀ s, data two_episodes !! "GreenLightTime" = Some s → g = s)
      ∧ ∀ c, c ≠ "GreenLightTime" → c ≠ "CumulativeTime" →
             data two_episodes_timed !! c = data two_episodes !! c.
Proof.
  apply (convert_adds_time_axis two_episodes two_episodes_timed [Fin 0; Fin 30]).
  - apply wf_df_decide. vm_compute. reflexivity.
  - vm_compute. reflexivity.
Defined.

Lemma leb_Fin (a b : Q) : (Fin a <=? Fin b)%float = true ↔ a <= b.
Proof.
  unfold Float.leb. rewrite cmp_Fin.
  destruct (a ?= b) eqn:E; split; intros H; try done;
    first [ apply Qeq_alt in E | apply Qlt_alt in E | apply Qgt_alt in E ]; lra.
Qed.

Lemma duration_ok_Fin (x : float) :
  duration_ok x = true → ∃ q, x = Fin q ∧ 0 <= q.
Proof.
  unfold duration_ok, nonneg, Float.geb, f0. destruct x as [q| | |]; try done.
  rewrite cmp_Fin. simpl. intros H. exists q. split; [done|].
  destruct (q ?= 0) eqn:E; try done;
    first [ apply Qeq_alt in E | apply Qgt_alt in E ]; lra.
Qed.

(** The running sum of durations [>= 0] from a finite start: every cell
    is finite and not below the start, and the cells do not decrease. *)
Lemma cumsum_from_sorted (s : Series) (a : Q) :
  Forall (λ x, duration_ok x = true) s →
  Forall (λ x, ∃ q, x = Fin q ∧ a <= q) (cumsum_from (Fin a) s)
  ∧ ∀ i j x y, (i ≤ j)%nat →
      cumsum_from (Fin a) s !! i = Some x → cumsum_from (Fin a) s !! j = Some y →
      (x <=? y)%float = true.
Proof.
  revert a. induction s as [|d s IH]; intros a Hs.
  - split; [constructor|]. intros i j x y _ H. cbn in H. by destruct i.
  - apply Forall_cons in Hs as [Hd Hs].
    apply duration_ok_Fin in Hd as (q & -> & Hq).
    cbn [cumsum_from is_nan]. cbv zeta. cbn [Float.add].
    destruct (IH (Qred (a + q)) Hs) as [Hall Hsorted].
    assert (Hstep : a <= Qred (a + q)) by (rewrite Qred_correct; lra).
    split.
    + constructor; [eauto|].
      eapply Forall_impl; [exact Hall|]. intros x (r & -> & Hr). exists r.
      split; [done|lra].
    + intros i j x y Hij Hi Hj. destruct i as [|i].
      * injection Hi as <-. destruct j as [|j].
        -- injection Hj as <-. apply leb_Fin. lra.
        -- cbn in Hj. apply list_elem_of_lookup_2 in Hj.
           rewrite Forall_forall in Hall.
           destruct (Hall y Hj) as (r & -> & Hr).
           by apply leb_Fin.
      * destruct j as [|j]; [lia|]. apply (Hsorted i j); [lia|done|done].
Qed.

(** X12: when the durations are numbers [>= 0] (or the duration column
    is missing), the time axis that [convert_episodes_to_time] adds does
    not decrease and has one finite cell per episode. *)
Theorem time_axis_nondecreasing (df df' : DataFrame) (time_points : Numpy.ndarray) :
  wf_df df →
  (∀ s, data df !! "GreenLightTime" = Some s → Forall (λ x, duration_ok x = true) s) →
  convert_episodes_to_time df = Ok (df', time_points) →
  ∃ xp,
    data df' !! "CumulativeTime" = Some xp
    ∧ length xp = len df
    ∧ Forall (λ x, is_finite x = true) xp
    ∧ ∀ i j x y, (i ≤ j)%nat → xp !! i = Some x → xp !! j = Some y →
                 (x <=? y)%float = true.
Proof.
  intros Hwf Hdur H.
  destruct (convert_inv df df' time_points Hwf H)
    as (df1 & g & Hwf1 & Hlen & Hg & Hnone & Hsome & Hother & -> & _).
  assert (Hok : Forall (λ x, duration_ok x = true) g).
  { destruct (data df !! "GreenLightTime") as [s|] eqn:E.
    - rewrite (Hsome s eq_refl). by apply Hdur.
    - rewrite (Hnone eq_refl). apply Forall_forall. intros x Hx.
      apply elem_of_replicate in Hx as [-> _]. reflexivity. }
  destruct (cumsum_from_sorted g 0 Hok) as [Hall Hsorted].
  exists (cumsum g). unfold setcol. cbn [data]. rewrite lookup_insert_eq.
  split; [done|]. split.
  - unfold cumsum. rewrite cumsum_from_length. apply Hwf1 in Hg. unfold len. lia.
  - split; [|exact Hsorted].
    eapply Forall_impl; [exact Hall|]. by intros x (q & -> & _).
Qed.

Lemma time_axis_nondecreasing_witness :
  ∃ xp,
    data two_episodes_timed !! "CumulativeTime" = Some xp
    ∧ length xp = len two_episodes
    ∧ Forall (λ x, is_finite x = true) xp
    ∧ ∀ i j x y, (i ≤ j)%nat → xp !! i = Some x → xp !! j = Some y →
                 (x <=? y)%float = true.
Proof.
  apply (time_axis_nondecreasing two_episodes two_episodes_timed [Fin 0; Fin 30]).
  - apply wf_df_decide. vm_compute. reflexivity.
  - intros s Hs. vm_compute in Hs. injection Hs as <-.
    repeat constructor.
  - vm_compute. reflexivity.
Defined.

(** The points of a grid with the finite end [m]. *)
Lemma arange0_points (m : Q) (tp : Numpy.ndarray) :
  Numpy.arange0 (Fin m) f30 = Ok tp →
  length tp = Z.to_nat (Qceiling (m / 30))
  ∧ ∀ i t, tp !! i = Some t →
      ∃ q, t = Fin q ∧ q == 30 * inject_Z (Z.of_nat i) ∧ q < m.
Proof.
  unfold Numpy.arange0, f30. rewrite div_Fin_pos by reflexivity.
  intros [= <-]. rewrite (Qceiling_comp _ _ (Qred_correct (m / 30))).
  split; [by rewrite length_map, length_seq|].
  intros i t Hi. change (map ?f ?l) with (f <$> l) in Hi.
  rewrite list_lookup_fmap in Hi.
  destruct (seq 0 (Z.to_nat (Qceiling (m / 30))) !! i) as [k|] eqn:Hk; [|done].
  apply lookup_seq in Hk as [-> Hlt]. simpl in Hi. injection Hi as <-.
  unfold Float.mul, of_nat, of_Z. eexists. split; [reflexivity|].
  rewrite Qred_correct. split; [ring|].
  assert (Hz : (Z.of_nat i <= Qceiling (m / 30) - 1)%Z) by lia.
  pose proof (Qceiling_lt (m / 30)) as Hc.
  rewrite Zle_Qle in Hz.
  assert (Heq : m == m / 30 * 30) by field.
  set (x := m / 30) in *. clearbody x. lra.
Qed.

(** X13: the grid that [convert_episodes_to_time] returns has
    [ceil(m / 30)] points, where [m] is the largest cumulative time;
    point [i] is [30 i] and lies strictly before [m], so the end of the
    recorded time is never a grid point. *)
Theorem grid_before_end (df df' : DataFrame) (time_points : Numpy.ndarray) :
  wf_df df →
  convert_episodes_to_time df = Ok (df', time_points) →
  ∃ xp m,
    data df' !! "CumulativeTime" = Some xp
    ∧ Pandas.max xp = Fin m
    ∧ length time_points = Z.to_nat (Qceiling (m / 30))
    ∧ ∀ i t, time_points !! i = Some t →
        ∃ q, t = Fin q ∧ q == 30 * inject_Z (Z.of_nat i) ∧ q < m.
Proof.
  intros Hwf H.
  destruct (convert_inv df df' time_points Hwf H)
    as (df1 & g & _ & _ & _ & _ & _ & _ & -> & Hgrid).
  exists (cumsum g). unfold setcol. cbn [data]. rewrite lookup_insert_eq.
  destruct (Pandas.max (cumsum g)) as [m| | |] eqn:Hmax; try discriminate.
  exists m. destruct (arange0_points m time_points Hgrid) as [Hlen Hpts].
  repeat split; done.
Qed.

Lemma grid_before_end_witness :
  ∃ xp m,
    data two_episodes_timed !! "CumulativeTime" = Some xp
    ∧ Pandas.max xp = Fin m
    ∧ length [Fin 0; Fin 30] = Z.to_nat (Qceiling (m / 30))
    ∧ ∀ i t, [Fin 0; Fin 30] !! i = Some t →
        ∃ q, t = Fin q ∧ q == 30 * inject_Z (Z.of_nat i) ∧ q < m.
Proof.
  apply (grid_before_end two_episodes two_episodes_timed [Fin 0; Fin 30]).
  - apply wf_df_decide. vm_compute. reflexivity.
  - vm_compute. reflexivity.
Defined.

Lemma dropna_finite (s : Series) :
  Forall (λ x, is_finite x = true) s → dropna s = s.
Proof.
  unfold dropna. induction 1 as [|x s Hx Hs IH]; [done|].
  rewrite filter_cons_True by (by destruct x). by rewrite IH.
Qed.

(** The maximum of finite cells that do not decrease is the last one. *)
Lemma foldl_fmax_last (l : Series) (a : Q) :
  Forall (λ x, ∃ q, x = Fin q ∧ a <= q) l →
  (∀ i j x y, (i ≤ j)%nat → l !! i = Some x → l !! j = Some y →
              (x <=? y)%float = true) →
  ∃ m y, foldl fmax (Fin a) l = Fin m ∧ last (Fin a :: l) = Some (Fin y) ∧ m == y.
Proof.
  revert a. induction l as [|x l IH]; intros a Hall Hsorted.
  - exists a, a. done.
  - apply Forall_cons in Hall as [(q & -> & Hq) Hall].
    assert (Hmax : ∃ a', fmax (Fin a) (Fin q) = Fin a' ∧ a' == q).
    { unfold fmax. destruct (Fin q >? Fin a)%float eqn:E; [by exists q|].
      exists a. split; [done|]. unfold Float.gtb in E. rewrite cmp_Fin in E.
      destruct (q ?= a) eqn:E'; try discriminate;
        first [ apply Qeq_alt in E' | apply Qlt_alt in E' ]; lra. }
    destruct Hmax as (a' & Hf & Ha').
    assert (Hall' : Forall (λ x, ∃ r, x = Fin r ∧ a' <= r) l).
    { apply Forall_forall. intros x Hx.
      rewrite Forall_forall in Hall. destruct (Hall x Hx) as (r & -> & _).
      exists r. split; [done|].
      apply list_elem_of_lookup in Hx as [j Hj].
      pose proof (Hsorted 0%nat (S j) (Fin q) (Fin r) ltac:(lia) eq_refl Hj) as Hle.
      apply leb_Fin in Hle. lra. }
    destruct (IH a' Hall') as (m & y & Hm & Hlast & Hmy).
    { intros i j x y Hij Hi Hj. apply (Hsorted (S i) (S j)); [lia|done|done]. }
    cbn [foldl]. rewrite Hf, Hm. destruct l as [|z l].
    + exists m, q. split; [done|]. split; [done|].
      cbn in Hlast. injection Hlast as <-. lra.
    + exists m, y. split; [done|]. split; [|done].
      rewrite !last_cons_cons in *. done.
Qed.

(** With durations [>= 0] the largest cumulative time is the last one. *)
Lemma max_cumsum_last (g : Series) :
  Forall (λ x, duration_ok x = true) g → g ≠ [] →
  ∃ m y, Pandas.max (cumsum g) = Fin m ∧ last (cumsum g) = Some (Fin y) ∧ m == y.
Proof.
  intros Hok Hne. destruct (cumsum_from_sorted g 0 Hok) as [Hall Hsorted].
  pose proof (cumsum_from_length g (Fin 0)) as Hlen.
  unfold cumsum, f0. revert Hall Hsorted Hlen.
  generalize (cumsum_from (Fin 0) g). intros l Hall Hsorted Hlen.
  unfold Pandas.max. rewrite dropna_finite.
  2:{ eapply Forall_impl; [exact Hall|]. by intros x (q & -> & _). }
  destruct l as [|x r]; [by destruct g|].
  apply Forall_cons in Hall as [(q & -> & Hq) Hall].
  destruct (foldl_fmax_last r q) as (m & y & Hm & Hlast & Hmy).
  - apply Forall_forall. intros z Hz. rewrite Forall_forall in Hall.
    destruct (Hall z Hz) as (r' & -> & _). exists r'. split; [done|].
    apply list_elem_of_lookup in Hz as [j Hj].
    pose proof (Hsorted 0%nat (S j) (Fin q) (Fin r') ltac:(lia) eq_refl Hj) as Hle.
    by apply leb_Fin in Hle.
  - intros i j x y Hij Hi Hj. apply (Hsorted (S i) (S j)); [lia|done|done].
  - exists m, y. done.
Qed.

(** The running sum of [n] durations of 30 s from a whole start. *)
Lemma cumsum_from_replicate (n : nat) (a : Z) :
  cumsum_from (Fin (inject_Z a)) (replicate n f30)
  = map (λ i, Fin (inject_Z (a + (Z.of_nat i + 1) * 30))) (seq 0 n).
Proof.
  revert a. induction n as [|n IH]; intros a; [done|].
  assert (Hadd : (Fin (inject_Z a) + f30)%float = Fin (inject_Z (a + 30))).
  { unfold Float.add, f30. f_equal.
    transitivity (Qred (inject_Z (a + 30))); [|apply Qred_inject_Z].
    apply Qred_complete. change 30 with (inject_Z 30). by rewrite <- inject_Z_plus. }
  change (cumsum_from (Fin (inject_Z a)) (replicate (S n) f30))
    with ((Fin (inject_Z a) + f30)%float
          :: cumsum_from (Fin (inject_Z a) + f30)%float (replicate n f30)).
  rewrite Hadd, IH. cbn [seq map]. f_equal.
  rewrite <- seq_shift, map_map. apply map_ext. intros i. do 2 f_equal. lia.
Qed.

Lemma of_nat_mul_f30 (i : nat) :
  (of_nat i * f30)%float = Fin (inject_Z (Z.of_nat i * 30)).
Proof.
  unfold Float.mul, of_nat, of_Z, f30. f_equal.
  transitivity (Qred (inject_Z (Z.of_nat i * 30))); [|apply Qred_inject_Z].
  apply Qred_complete. change 30 with (inject_Z 30). by rewrite <- inject_Z_mult.
Qed.

(** X14: a table of [n >= 1] rows without a GreenLightTime column is
    converted as [n] episodes of 30 s: the cumulative times are
    30, 60, ..., 30 n and the grid has exactly the [n] points
    0, 30, ..., 30 (n-1). *)
Theorem convert_without_durations (df : DataFrame) (k : nat) :
  data df !! "GreenLightTime" = None →
  len df = S k →
  ∃ df',
    convert_episodes_to_time df
    = Ok (df', map (λ i, Fin (inject_Z (Z.of_nat i * 30))) (seq 0 (S k)))
    ∧ data df' !! "CumulativeTime"
      = Some (map (λ i, Fin (inject_Z ((Z.of_nat i + 1) * 30))) (seq 0 (S k))).
Proof.
  intros Hnone Hn. unfold convert_episodes_to_time.
  assert (Hhas : has_column df "GreenLightTime" = false).
  { unfold has_column. rewrite Hnone. apply bool_decide_eq_false. by intros [? ?]. }
  rewrite Hhas. cbn [negb]. unfold setcol_scalar.
  rewrite getcol_setcol_eq, bind_Ok, getcol_setcol_eq, bind_Ok.
  unfold len in Hn. rewrite Hn.
  assert (Hcs : cumsum (replicate (S k) f30)
                = map (λ i, Fin (inject_Z ((Z.of_nat i + 1) * 30))) (seq 0 (S k))).
  { unfold cumsum, f0. change 0 with (inject_Z 0). rewrite cumsum_from_replicate.
    apply map_ext. intros i. do 2 f_equal. }
  assert (Hok : Forall (λ x, duration_ok x = true) (replicate (S k) f30)).
  { apply Forall_forall. intros x Hx. by apply elem_of_replicate in Hx as [-> _]. }
  assert (Hmax : ∃ m, Pandas.max (cumsum (replicate (S k) f30)) = Fin m
                      ∧ m == inject_Z ((Z.of_nat k + 1) * 30)).
  { destruct (max_cumsum_last _ Hok) as (m & y & Hm & Hlast & Hmy); [done|].
    exists m. split; [done|]. rewrite Hmy.
    rewrite Hcs, seq_S, map_app in Hlast. cbn [map Nat.add] in Hlast.
    rewrite last_snoc in Hlast. by injection Hlast as <-. }
  destruct Hmax as (m & Hm & Hmeq). rewrite Hm.
  destruct (Numpy.arange0 (Fin m) f30) as [tp|e] eqn:Htp.
  2:{ unfold Numpy.arange0, f30 in Htp. rewrite div_Fin_pos in Htp by reflexivity.
      discriminate. }
  rewrite bind_Ok. eexists. split.
  - unfold mret, result_ret. do 2 f_equal.
    unfold Numpy.arange0, f30 in Htp. rewrite div_Fin_pos in Htp by reflexivity.
    injection Htp as <-. fold f30.
    assert (Hc : Z.to_nat (Qceiling (Qred (m / 30))) = S k).
    { rewrite (Qceiling_comp _ (inject_Z (Z.of_nat (S k)))); [by rewrite Qceiling_Z, Nat2Z.id|].
      rewrite Qred_correct, Hmeq, inject_Z_mult. change (inject_Z 30) with 30.
      replace (Z.of_nat k + 1)%Z with (Z.of_nat (S k)) by lia. by field. }
    rewrite Hc. apply map_ext. intros i. apply of_nat_mul_f30.
  - unfold setcol. cbn [data]. by rewrite lookup_insert_eq, Hcs.
Qed.

Lemma convert_without_durations_witness :
  ∃ df',
    convert_episodes_to_time (single_column "TotalVehicles" [Fin 1; Fin 5; Fin 3])
    = Ok (df', map (λ i, Fin (inject_Z (Z.of_nat i * 30))) (seq 0 3))
    ∧ data df' !! "CumulativeTime"
      = Some (map (λ i, Fin (inject_Z ((Z.of_nat i + 1) * 30))) (seq 0 3)).
Proof.
  apply (convert_without_durations
           (single_column "TotalVehicles" [Fin 1; Fin 5; Fin 3]) 2).
  - vm_compute. reflexivity.
  - reflexivity.
Defined.

Lemma length_interp_loop (xp fp x : Numpy.ndarray) (guess : nat) :
  length (Numpy.interp_loop xp fp guess x) = length x.
Proof.
  revert guess. induction x as [|x_val r IH]; intros guess; [done|].
  cbn [Numpy.interp_loop]. destruct (is_nan x_val); cbn [length]; by rewrite IH.
Qed.

Lemma interp_length (x xp fp v : Numpy.ndarray) :
  Numpy.interp x xp fp = Ok v → length v = length x.
Proof.
  unfold Numpy.interp. repeat case_bool_decide; try discriminate;
    intros [= <-]; [by rewrite length_map|by rewrite length_interp_loop].
Qed.

Lemma calculate_column_inv (df : DataFrame) (tp : Numpy.ndarray)
    (acc d : gmap string Numpy.ndarray) (c : string) :
  calculate_column df tp acc c = Ok d →
  (has_column df c = false ∧ d = acc)
  ∨ (has_column df c = true
     ∧ ∃ v, d = <[c +:+ "_Rate" := v]> acc ∧ length v = length tp).
Proof.
  unfold calculate_column. destruct (has_column df c); intros H.
  - right. split; [done|].
    apply bind_Ok_inv in H as (rates & _ & H).
    apply bind_Ok_inv in H as (xp & _ & H).
    apply bind_Ok_inv in H as (v & Hv & H). injection H as <-.
    exists v. split; [done|]. by apply interp_length in Hv.
  - left. by injection H as <-.
Qed.

(** X15: when [calculate_rates] succeeds, its result has a series under
    the key of each of the three rate columns that the table has and
    under no other key, and every series has one value per grid
    point. *)
Theorem calculate_rates_keys (df : DataFrame) (time_points : Numpy.ndarray)
    (d : gmap string Numpy.ndarray) :
  calculate_rates df time_points = Ok d →
  (∀ c, c ∈ rate_columns →
        (is_Some (d !! (c +:+ "_Rate")) ↔ has_column df c = true))
  ∧ ∀ k v, d !! k = Some v →
      length v = length time_points ∧ ∃ c, c ∈ rate_columns ∧ k = c +:+ "_Rate".
Proof.
  unfold calculate_rates, rate_columns. cbn [for_each]. intros H.
  apply bind_Ok_inv in H as (d1 & H1 & H).
  apply bind_Ok_inv in H as (d2 & H2 & H).
  apply bind_Ok_inv in H as (d3 & H3 & H). injection H as <-.
  apply calculate_column_inv in H1, H2, H3.
  split.
  - intros c Hc.
    repeat (apply elem_of_cons in Hc as [Hc|Hc]); [..|by apply elem_of_nil in Hc];
      subst c;
      destruct H1 as [[E1 ->]|[E1 (v1 & -> & L1)]];
      destruct H2 as [[E2 ->]|[E2 (v2 & -> & L2)]];
      destruct H3 as [[E3 ->]|[E3 (v3 & -> & L3)]];
      rewrite ?E1, ?E2, ?E3; cbn [String.append];
      rewrite ?lookup_insert_eq, ?lookup_insert_ne, ?lookup_empty by done;
      rewrite ?lookup_insert_eq, ?lookup_insert_ne, ?lookup_empty by done;
      rewrite ?lookup_insert_eq, ?lookup_insert_ne, ?lookup_empty by done;
      split; intros H; try done; try (by destruct H); eauto.
  - intros k v Hk.
    destruct H1 as [[E1 ->]|[E1 (v1 & -> & L1)]];
      destruct H2 as [[E2 ->]|[E2 (v2 & -> & L2)]];
      destruct H3 as [[E3 ->]|[E3 (v3 & -> & L3)]];
      repeat (apply lookup_insert_Some in Hk as [[<- <-]|[_ Hk]];
              [split; [done|]; eexists; split; [|reflexivity]; set_solver|]);
      by rewrite lookup_empty in Hk.
Qed.

Lemma calculate_rates_keys_witness :
  (∀ c, c ∈ rate_columns →
        (is_Some (({[ "TotalVehicles_Rate" := [Fin 20; Fin 20] ]}
                   : gmap string Numpy.ndarray) !! (c +:+ "_Rate"))
         ↔ has_column two_episodes_timed c = true))
  ∧ ∀ k v, ({[ "TotalVehicles_Rate" := [Fin 20; Fin 20] ]}
              : gmap string Numpy.ndarray) !! k = Some v →
      length v = length [Fin 0; Fin 30]
      ∧ ∃ c, c ∈ rate_columns ∧ k = c +:+ "_Rate".
Proof.
  apply (calculate_rates_keys two_episodes_timed [Fin 0; Fin 30]).
  vm_compute. reflexivity.
Defined.

Lemma getcol_absent (df : DataFrame) (c : string) :
  has_column df c = false → getcol df c = Raise (KeyError c).
Proof.
  unfold has_column, getcol. intros H. apply bool_decide_eq_false in H.
  destruct (data df !! c) eqn:E; [|done]. exfalso. eauto.
Qed.

Lemma calculate_column_no_time_axis (df : DataFrame) (tp : Numpy.ndarray)
    (acc : gmap string Numpy.ndarray) (c : string) :
  wf_df df →
  has_column df "GreenLightTime" = true →
  has_column df "CumulativeTime" = false →
  has_column df c = true →
  calculate_column df tp acc c = Raise (KeyError "CumulativeTime").
Proof.
  intros Hwf Hdur Hct Hc. unfold calculate_column.
  rewrite Hc, (rates_of_closed df c Hwf Hdur Hc), bind_Ok.
  by rewrite (getcol_absent _ _ Hct).
Qed.

(** X16: [calculate_rates] on a well-formed table that has durations
    and at least one of the three rate columns but no CumulativeTime
    column, that is on a table that did not pass through
    [convert_episodes_to_time], raises KeyError('CumulativeTime'). *)
Theorem calculate_rates_needs_time_axis (df : DataFrame) (time_points : Numpy.ndarray)
    (column : string) :
  wf_df df →
  has_column df "GreenLightTime" = true →
  has_column df "CumulativeTime" = false →
  column ∈ rate_columns →
  has_column df column = true →
  calculate_rates df time_points = Raise (KeyError "CumulativeTime").
Proof.
  intros Hwf Hdur Hct Hin Hc. unfold calculate_rates.
  pose proof (λ acc c, calculate_column_no_time_axis df time_points acc c Hwf Hdur Hct)
    as Hraise.
  pose proof (λ acc c, calculate_column_absent df time_points acc c) as Hskip.
  unfold rate_columns in *. cbn [for_each].
  destruct (has_column df "TotalVehicles") eqn:E1.
  { by rewrite Hraise. }
  rewrite Hskip, bind_Ok by done.
  destruct (has_column df "VehiclesWaiting") eqn:E2.
  { by rewrite Hraise. }
  rewrite Hskip, bind_Ok by done.
  destruct (has_column df "FuelConsumed") eqn:E3.
  { by rewrite Hraise. }
  repeat (apply elem_of_cons in Hin as [->|Hin]); [congruence..|].
  by apply elem_of_nil in Hin.
Qed.

Lemma calculate_rates_needs_time_axis_witness :
  calculate_rates two_episodes [Fin 0; Fin 30] = Raise (KeyError "CumulativeTime").
Proof.
  apply (calculate_rates_needs_time_axis two_episodes [Fin 0; Fin 30] "TotalVehicles").
  - apply wf_df_decide. vm_compute. reflexivity.
  - vm_compute. reflexivity.
  - vm_compute. reflexivity.
  - vm_compute. left.
  - vm_compute. reflexivity.
Defined.



Lemma mean_rate_missing (d : gmap string Numpy.ndarray) (key : string) :
  d !! key = None → mean_rate d key = Fin 0.
Proof. unfold mean_rate. by intros ->. Qed.

Lemma full_loss (s : Q) : 0 < s → throughput_improvement (Fin 0) (Fin s) = Fin (-100).
Proof.
  intros Hs. unfold throughput_improvement.
  change (Fin 0 - Fin s)%float with (Fin (Qred (0 - s))).
  rewrite div_Fin_pos by done.
  rewrite (Qred_complete (Qred (0 - s) / s) (-1)).
  - reflexivity.
  - rewrite Qred_correct. field. lra.
Qed.

Lemma full_gain (s : Q) : 0 < s → queue_reduction (Fin 0) (Fin s) = Fin 100.
Proof.
  intros Hs. unfold queue_reduction.
  change (Fin s - Fin 0)%float with (Fin (Qred (s - 0))).
  rewrite div_Fin_pos by done.
  rewrite (Qred_complete (Qred (s - 0) / s) 1).
  - reflexivity.
  - rewrite Qred_correct. field. lra.
Qed.

(** X18: when the ML rate table has no series for a metric (the metric
    is absent from the ML episodes) and the static mean of that metric is
    a positive number, the summary counts the default [0] as the ML
    mean: it reports a throughput improvement of -100 %, and a queue
    reduction or fuel saving of +100 %. *)
Theorem missing_ml_series_improvement
    (ml_episode static_episode : DataFrame)
    (ml_data static_data : gmap string Numpy.ndarray)
    (ml_time static_time : Numpy.ndarray) (i : nat) (key : string) (s : Q) :
  (i, key) ∈ improvement_rows →
  ml_data !! key = None →
  mean_rate static_data key = Fin s →
  0 < s →
  ML_Agent (generate_time_based_summary ml_episode static_episode
              ml_data static_data ml_time static_time) !! i
  = Some (Fmt 1 (Fin (if bool_decide (i = 4%nat) then -100 else 100)) "%").
Proof.
  intros Hin Hml Hst Hs.
  destruct (improvement_cells ml_episode static_episode ml_data static_data
              ml_time static_time i key Hin) as [H _].
  cbv zeta in H. rewrite H, Hst, (mean_rate_missing _ _ Hml).
  rewrite (proj2 (gtb_Fin s) Hs).
  unfold improvement_rows in Hin.
  repeat (apply elem_of_cons in Hin as [Hin|Hin]); [..|by apply elem_of_nil in Hin];
    injection Hin as -> ->; cbn [row_improvement bool_decide decide_rel];
    rewrite ?full_loss by done.
  - done.
  - by rewrite full_gain.
  - unfold fuel_savings. fold (queue_reduction (Fin 0) (Fin s)). by rewrite full_gain.
Qed.

Lemma missing_ml_series_improvement_witness :
  ML_Agent (generate_time_based_summary one_episode one_episode
              ∅ {[ "FuelConsumed_Rate" := [Fin 4] ]} [Fin 0] [Fin 0]) !! 6%nat
  = Some (Fmt 1 (Fin (if bool_decide (6%nat = 4%nat) then -100 else 100)) "%").
Proof.
  apply (missing_ml_series_improvement one_episode one_episode
           ∅ {[ "FuelConsumed_Rate" := [Fin 4] ]} [Fin 0] [Fin 0]
           6%nat "FuelConsumed_Rate" 4).
  - vm_compute. do 2 right. left.
  - reflexivity.
  - vm_compute. reflexivity.
  - reflexivity.
Defined.

Lemma has_column_setcol (df : DataFrame) (c c' : string) (s : Series) :
  has_column (setcol df c s) c'
  = if bool_decide (c = c') then true else has_column df c'.
Proof.
  unfold has_column, setcol. cbn [data]. destruct (decide (c = c')) as [<-|Hc].
  - rewrite (bool_decide_eq_true_2 (c = c)) by done.
    rewrite lookup_insert_eq. apply bool_decide_eq_true. eauto.
  - rewrite (bool_decide_eq_false_2 (c = c')) by done.
    by rewrite lookup_insert_ne.
Qed.

Lemma plot_same_length (x y : Series) :
  length x = length y → Matplotlib.plot x y = Ok ().
Proof. intros H. unfold Matplotlib.plot. by rewrite bool_decide_eq_true_2. Qed.

(** Every series of a rate table has one value per grid point. *)
Lemma calculate_rates_lengths (df : DataFrame) (tp : Numpy.ndarray)
    (d : gmap string Numpy.ndarray) :
  calculate_rates df tp = Ok d →
  map_Forall (λ _ (v : Numpy.ndarray), length v = length tp) d.
Proof.
  assert (Hstep : ∀ acc d' c,
            map_Forall (λ _ (v : Numpy.ndarray), length v = length tp) acc →
            calculate_column df tp acc c = Ok d' →
            map_Forall (λ _ (v : Numpy.ndarray), length v = length tp) d').
  { intros acc d' c Hacc H.
    apply calculate_column_inv in H as [[_ ->]|[_ (v & -> & Hv)]]; [done|].
    by apply map_Forall_insert_2. }
  unfold calculate_rates, rate_columns. cbn [for_each]. intros H.
  apply bind_Ok_inv in H as (d1 & H1 & H).
  apply bind_Ok_inv in H as (d2 & H2 & H).
  apply bind_Ok_inv in H as (d3 & H3 & H). injection H as <-.
  eapply Hstep; [|exact H3]. eapply Hstep; [|exact H2].
  eapply Hstep; [|exact H1]. apply map_Forall_empty.
Qed.

(** A rate plot of two rate tables on their own grids is drawn. *)
Lemma rate_plot_ok (ml_data static_data : gmap string Numpy.ndarray)
    (ml_time static_time : Numpy.ndarray) (key : string) :
  map_Forall (λ _ (v : Numpy.ndarray), length v = length ml_time) ml_data →
  map_Forall (λ _ (v : Numpy.ndarray), length v = length static_time) static_data →
  rate_plot ml_data static_data ml_time static_time key = Ok ().
Proof.
  intros H1 H2. unfold rate_plot, getitem.
  destruct (ml_data !! key) as [a|] eqn:Ea;
    [|by rewrite (bool_decide_eq_false_2 (is_Some None)) by (by intros [? ?])].
  destruct (static_data !! key) as [b|] eqn:Eb;
    [|rewrite (bool_decide_eq_false_2 (is_Some None)) by (by intros [? ?]);
      by rewrite andb_false_r].
  rewrite !bool_decide_eq_true_2 by eauto. cbn [andb].
  apply H1 in Ea. apply H2 in Eb.
  rewrite bind_Ok, plot_same_length by (by rewrite length_map).
  rewrite !bind_Ok. apply plot_same_length. by rewrite length_map.
Qed.

(** A converted table is well formed, has the rows of the table it
    comes from, and has the duration and the time columns. *)
Lemma converted_table (df df' : DataFrame) (time_points : Numpy.ndarray) :
  wf_df df →
  convert_episodes_to_time df = Ok (df', time_points) →
  wf_df df' ∧ len df' = len df
  ∧ has_column df' "GreenLightTime" = true
  ∧ has_column df' "CumulativeTime" = true.
Proof.
  intros Hwf H.
  destruct (convert_inv df df' time_points Hwf H)
    as (df1 & g & Hwf1 & Hlen & Hg & _ & _ & _ & -> & _).
  assert (Hgl : length g = index_len df1) by (by apply Hwf1 in Hg).
  split; [apply wf_setcol; [done|]; unfold cumsum; by rewrite cumsum_from_length|].
  split; [unfold len, setcol; cbn [index_len]; done|].
  rewrite !has_column_setcol. split; [|done].
  rewrite bool_decide_eq_false_2 by done.
  unfold has_column. rewrite Hg. apply bool_decide_eq_true. eauto.
Qed.

(** On a converted table with rows the rate table is computed. *)
Lemma calculate_rates_ok (df : DataFrame) (tp : Numpy.ndarray) :
  wf_df df → (0 < len df)%nat →
  has_column df "GreenLightTime" = true →
  has_column df "CumulativeTime" = true →
  ∃ d, calculate_rates df tp = Ok d.
Proof.
  intros Hwf Hn Hdur Hct.
  assert (Hcol : ∀ acc c, ∃ d, calculate_column df tp acc c = Ok d).
  { intros acc c. unfold calculate_column.
    destruct (has_column df c) eqn:Hc; [|by eexists].
    destruct (rates_of df c) as [rates|] eqn:Hr;
      [|by rewrite (rates_of_closed df c Hwf Hdur Hc) in Hr].
    pose proof (rates_of_length _ _ _ Hwf Hdur Hc Hr) as Hlr.
    destruct (getcol_present _ _ Hct) as (xp & -> & Hxp).
    rewrite !bind_Ok. apply Hwf in Hxp.
    unfold Numpy.interp.
    rewrite bool_decide_eq_false_2 by (unfold len in *; lia).
    rewrite bool_decide_eq_false_2 by (intros H; apply H; unfold len in *; lia).
    case_bool_decide; rewrite bind_Ok; by eexists. }
  unfold calculate_rates, rate_columns. cbn [for_each].
  destruct (Hcol ∅ "TotalVehicles") as (d1 & ->). rewrite bind_Ok.
  destruct (Hcol d1 "VehiclesWaiting") as (d2 & ->). rewrite bind_Ok.
  destruct (Hcol d2 "FuelConsumed") as (d3 & ->). rewrite bind_Ok.
  by exists d3.
Qed.

(** X19: once both conversions of [main] have returned their tables
    and grids, the rest of [main] raises nothing on well-formed episode
    tables with at least one row each: both rate tables are computed,
    every rate plot of [create_time_based_plots] gets as many abscissas
    as ordinates, and [main] returns the summary of the converted tables
    and their rate tables. *)
Theorem main_runs (ml_episode static_episode ml' static' : DataFrame)
    (ml_time static_time : Numpy.ndarray) :
  wf_df ml_episode → wf_df static_episode →
  (0 < len ml_episode)%nat → (0 < len static_episode)%nat →
  convert_episodes_to_time ml_episode = Ok (ml', ml_time) →
  convert_episodes_to_time static_episode = Ok (static', static_time) →
  ∃ ml_data static_data bars,
    calculate_rates ml' ml_time = Ok ml_data
    ∧ calculate_rates static' static_time = Ok static_data
    ∧ create_time_based_plots ml_data static_data ml_time static_time = Ok bars
    ∧ main_with_plots ml_episode static_episode
      = Ok (generate_time_based_summary ml' static'
              ml_data static_data ml_time static_time)
    ∧ main ml_episode static_episode
      = Ok (generate_time_based_summary ml' static'
              ml_data static_data ml_time static_time).
Proof.
  intros Hwf1 Hwf2 Hn1 Hn2 Hc1 Hc2.
  destruct (converted_table _ _ _ Hwf1 Hc1) as (Hwf1' & Hl1 & Hd1 & Ht1).
  destruct (converted_table _ _ _ Hwf2 Hc2) as (Hwf2' & Hl2 & Hd2 & Ht2).
  destruct (calculate_rates_ok ml' ml_time Hwf1' ltac:(lia) Hd1 Ht1) as (d1 & E1).
  destruct (calculate_rates_ok static' static_time Hwf2' ltac:(lia) Hd2 Ht2)
    as (d2 & E2).
  pose proof (calculate_rates_lengths _ _ _ E1) as L1.
  pose proof (calculate_rates_lengths _ _ _ E2) as L2.
  assert (Hplots : create_time_based_plots d1 d2 ml_time static_time
                   = Ok (bar_values d1 ml_time, bar_values d2 static_time)).
  { unfold create_time_based_plots.
    rewrite !(rate_plot_ok d1 d2 ml_time static_time) by done.
    by rewrite !bind_Ok. }
  exists d1, d2, (bar_values d1 ml_time, bar_values d2 static_time).
  split; [done|]. split; [done|]. split; [done|].
  unfold main_with_plots, main.
  rewrite Hc1, !bind_Ok, Hc2, !bind_Ok, E1, !bind_Ok, E2, !bind_Ok, Hplots, !bind_Ok.
  done.
Qed.

Lemma main_runs_witness :
  ∃ ml_data static_data bars,
    calculate_rates two_episodes_timed [Fin 0; Fin 30] = Ok ml_data
    ∧ calculate_rates (setcol one_episode "CumulativeTime" [Fin 30]) [Fin 0]
      = Ok static_data
    ∧ create_time_based_plots ml_data static_data [Fin 0; Fin 30] [Fin 0] = Ok bars
    ∧ main_with_plots two_episodes one_episode
      = Ok (generate_time_based_summary two_episodes_timed
              (setcol one_episode "CumulativeTime" [Fin 30])
              ml_data static_data [Fin 0; Fin 30] [Fin 0])
    ∧ main two_episodes one_episode
      = Ok (generate_time_based_summary two_episodes_timed
              (setcol one_episode "CumulativeTime" [Fin 30])
              ml_data static_data [Fin 0; Fin 30] [Fin 0]).
Proof.
  apply (main_runs two_episodes one_episode two_episodes_timed
           (setcol one_episode "CumulativeTime" [Fin 30]) [Fin 0; Fin 30] [Fin 0]).
  - apply wf_df_decide. vm_compute. reflexivity.
  - apply wf_df_decide. vm_compute. reflexivity.
  - vm_compute. lia.
  - vm_compute. lia.
  - vm_compute. reflexivity.
  - vm_compute. reflexivity.
Defined.

(* ------------------------------------------------------------------ *)
(** ** Further properties: moving averages of the training scripts *)

Section moving_averages.
Import Matplotlib analyze_ml_training_time_based.

Lemma length_rolling_mean (w : nat) (s : Series) :
  length (rolling_mean w s) = length s.
Proof. unfold rolling_mean. by rewrite length_map, length_seq. Qed.

Lemma length_dropna_le (s : Series) : (length (dropna s) ≤ length s)%nat.
Proof. unfold dropna. apply length_filter. Qed.

Lemma dropna_NaN_cons (s : Series) : dropna (NaN :: s) = dropna s.
Proof. unfold dropna. by rewrite filter_cons_False. Qed.

(** A window that starts with nan and is not longer than [w] has no mean. *)
Lemma window_mean_NaN_head (w : nat) (win : Series) :
  (length win < w)%nat → window_mean w (NaN :: win) = NaN.
Proof.
  intros H. unfold window_mean. rewrite dropna_NaN_cons.
  rewrite bool_decide_eq_true_2; [done|].
  pose proof (length_dropna_le win). lia.
Qed.

Lemma rolling_mean_lookup (w : nat) (s : Series) (i : nat) :
  (i < length s)%nat →
  rolling_mean w s !! i
  = Some (window_mean w (take (Nat.min w (S i)) (drop (S i - w) s))).
Proof.
  intros Hi. unfold rolling_mean.
  change (map ?f ?l) with (f <$> l). rewrite list_lookup_fmap.
  by rewrite lookup_seq_lt.
Qed.

(** After a leading nan the first [w] moving averages are nan. *)
Lemma rolling_mean_after_NaN (w : nat) (s : Series) (i : nat) :
  (i < w)%nat → (i ≤ length s)%nat →
  rolling_mean w (NaN :: s) !! i = Some NaN.
Proof.
  intros Hw Hi. rewrite rolling_mean_lookup by (cbn [length]; lia).
  replace (S i - w)%nat with 0%nat by lia.
  replace (Nat.min w (S i)) with (S i) by lia.
  cbn [drop take]. rewrite window_mean_NaN_head; [done|].
  rewrite length_take. lia.
Qed.

Lemma length_dropna_prefix (k : nat) (l : Series) :
  (∀ i, (i < k)%nat → (i < length l)%nat → l !! i = Some NaN) →
  (length (dropna l) ≤ length l - k)%nat.
Proof.
  revert l. induction k as [|k IH]; intros l H.
  - pose proof (length_dropna_le l). lia.
  - destruct l as [|x l]; [done|].
    pose proof (H 0%nat ltac:(lia) ltac:(cbn [length]; lia)) as H0.
    injection H0 as ->. rewrite dropna_NaN_cons. cbn [length].
    replace (S (length l) - S k)%nat with (length l - k)%nat by lia.
    apply IH. intros i Hi Hl. apply (H (S i)); [lia|cbn [length]; lia].
Qed.

Lemma lt_tenth_of_root_NaN (x : float) : lt_tenth_of_root x (Sqrt NaN) = false.
Proof. reflexivity. Qed.

(** X20: for a well-formed table of exactly eleven episodes with a
    CumulativeReward column, the convergence cell of the training
    summary is always "Not converged": the test [len > 10] admits the
    table, but the ten-episode moving average of the reward differences
    has a single value, whose standard deviation is nan. *)
Theorem eleven_episodes_never_converge (episode_data : DataFrame) :
  wf_df episode_data →
  has_column episode_data "CumulativeReward" = true →
  len episode_data = 11%nat →
  convergence_value episode_data = Ok (Str "Not converged").
Proof.
  intros Hwf Hcr Hn. unfold convergence_value. rewrite Hcr, Hn.
  rewrite bool_decide_eq_true_2 by lia. cbn [andb].
  destruct (getcol_present _ _ Hcr) as (c & -> & Hc). rewrite bind_Ok.
  apply Hwf in Hc. unfold len in Hn. rewrite Hn in Hc.
  set (rd := rolling_mean 10 (diff c)).
  assert (Hrd : length rd = 11%nat).
  { unfold rd. by rewrite length_rolling_mean, length_diff. }
  assert (Hstd : Pandas.std rd = Sqrt NaN).
  { unfold Pandas.std, Pandas.var. rewrite bool_decide_eq_true_2; [done|].
    pose proof (length_dropna_prefix 10 rd) as Hp. rewrite Hrd in Hp.
    apply Hp. intros i Hi _. unfold rd. destruct c as [|x r]; [done|].
    unfold diff. apply rolling_mean_after_NaN; [done|].
    rewrite length_zip_with. cbn [length] in *. lia. }
  rewrite Hstd.
  assert (Hw : where_ (λ x, lt_tenth_of_root x (Sqrt NaN)) rd = []).
  { unfold where_. generalize (seq 0 (length rd)). intros l.
    induction l as [|i l IH]; [done|]. by rewrite filter_cons_False. }
  by rewrite Hw.
Qed.

Lemma eleven_episodes_never_converge_witness :
  convergence_value
    (single_column "CumulativeReward" (map (λ i, of_nat (i * i)) (seq 0 11)))
  = Ok (Str "Not converged").
Proof.
  apply (eleven_episodes_never_converge
           (single_column "CumulativeReward" (map (λ i, of_nat (i * i)) (seq 0 11)))).
  - apply wf_df_decide. vm_compute. reflexivity.
  - vm_compute. reflexivity.
  - reflexivity.
Defined.

Lemma fsum_finite (qs : list Q) : ∃ r, fsum (map Fin qs) = Fin r.
Proof. destruct (fsum_Fin qs) as (r & Hr & _). eauto. Qed.

Lemma finite_list (s : Series) :
  Forall (λ x, is_finite x = true) s → ∃ qs, s = map Fin qs.
Proof.
  induction 1 as [|x s Hx Hs (qs & ->)]; [by exists []|].
  destruct x as [q| | |]; try discriminate. by exists (q :: qs).
Qed.

(** A full window of finite cells has a finite mean. *)
Lemma window_mean_finite (w : nat) (win : Series) :
  (0 < w)%nat → length win = w → Forall (λ x, is_finite x = true) win →
  ∃ q, window_mean w win = Fin q.
Proof.
  intros Hw Hl Hf. unfold window_mean. rewrite dropna_finite by done.
  rewrite bool_decide_eq_false_2 by lia.
  destruct (finite_list win Hf) as (qs & ->).
  destruct (fsum_finite qs) as (r & ->). rewrite div_of_nat by lia. eauto.
Qed.

Lemma map_finite {A} (f : A → float) (l : list A) :
  (∀ i, i ∈ l → ∃ q, f i = Fin q) → ∃ qs, map f l = map Fin qs ∧ length qs = length l.
Proof.
  induction l as [|i l IH]; intros H; [by exists []|].
  destruct (H i) as (q & Hq); [left|].
  destruct IH as (qs & Hqs & Hl); [intros j Hj; apply H; by right|].
  exists (q :: qs). cbn [map length]. by rewrite Hq, Hqs, Hl.
Qed.

Lemma map_all_NaN {A} (f : A → float) (l : list A) :
  (∀ i, i ∈ l → f i = NaN) → map f l = replicate (length l) NaN.
Proof.
  induction l as [|i l IH]; intros H; [done|]. cbn [map length replicate].
  rewrite H by left. rewrite IH; [done|]. intros j Hj. apply H. by right.
Qed.

(** The moving average of finite cells: [w - 1] nan, then finite cells. *)
Lemma rolling_mean_shape (w : nat) (s : Series) :
  (0 < w ≤ length s)%nat → Forall (λ x, is_finite x = true) s →
  ∃ qs, rolling_mean w s = replicate (w - 1) NaN ++ map Fin qs
        ∧ length qs = (length s - (w - 1))%nat.
Proof.
  intros Hw Hf.
  destruct (map_finite
              (λ i, window_mean w (take (Nat.min w (S i)) (drop (S i - w) s)))
              (seq (w - 1) (length s - (w - 1)))) as (qs & Hqs & Hl).
  { intros i Hi. apply elem_of_seq in Hi. apply window_mean_finite; [lia|..].
    - rewrite length_take, length_drop. lia.
    - apply Forall_take, Forall_drop, Hf. }
  exists qs. split; [|by rewrite Hl, length_seq].
  unfold rolling_mean.
  replace (seq 0 (length s))
    with (seq 0 (w - 1) ++ seq (w - 1) (length s - (w - 1))).
  2:{ change (w - 1)%nat with (0 + (w - 1))%nat at 2.
      rewrite <- seq_app. f_equal. lia. }
  rewrite map_app, Hqs. f_equal.
  rewrite (map_all_NaN _ (seq 0 (w - 1))); [by rewrite length_seq|].
  intros i Hi. apply elem_of_seq in Hi. unfold window_mean.
  rewrite bool_decide_eq_true_2; [done|].
  pose proof (length_dropna_le (take (Nat.min w (S i)) (drop (S i - w) s))) as Hd.
  rewrite length_take in Hd. lia.
Qed.

Lemma diff_NaN_cons (l : Series) : l ≠ [] → diff (NaN :: l) = NaN :: diff l.
Proof.
  destruct l as [|x l]; [done|]. intros _. unfold diff. cbn [zip_with].
  by destruct x.
Qed.

Lemma zip_with_Fin (f : float → float → float) (g : Q → Q → Q) (a b : list Q) :
  (∀ x y, f (Fin x) (Fin y) = Fin (g x y)) →
  zip_with f (map Fin a) (map Fin b) = map Fin (zip_with g a b).
Proof.
  intros Hfg. revert b. induction a as [|x a IH]; intros [|y b]; try done.
  cbn [map zip_with]. by rewrite Hfg, IH.
Qed.

(** The differences of [k] nan followed by finite cells: one more nan,
    one finite cell less. *)
Lemma diff_shape (k : nat) (q : Q) (qs : list Q) :
  ∃ qs', diff (replicate k NaN ++ map Fin (q :: qs))
         = replicate (S k) NaN ++ map Fin qs'
         ∧ length qs' = length qs.
Proof.
  induction k as [|k (qs' & IH & Hl)].
  - cbn [replicate app]. unfold diff.
    change (map Fin (q :: qs)) with (map Fin (q :: qs)) at 1.
    cbn [map]. change (Fin q :: map Fin qs) with (map Fin (q :: qs)).
    rewrite (zip_with_Fin _ (λ prev cur, Qred (cur - prev))) by done.
    eexists. split; [reflexivity|].
    rewrite length_zip_with. cbn [length]. lia.
  - exists qs'. split; [|done]. cbn [replicate app].
    rewrite diff_NaN_cons, IH; [done|]. by destruct k.
Qed.

Lemma dropna_shape (k : nat) (qs : list Q) :
  dropna (replicate k NaN ++ map Fin qs) = map Fin qs.
Proof.
  induction k as [|k IH]; [apply dropna_Fin|].
  cbn [replicate app]. by rewrite dropna_NaN_cons.
Qed.

Lemma smoothed_plot_ok (episode_data : DataFrame) (time_minutes : Series)
    (column : string) :
  wf_df episode_data → length time_minutes = len episode_data →
  smoothed_plot episode_data time_minutes column = Ok ().
Proof.
  intros Hwf Hl. unfold smoothed_plot.
  destruct (has_column episode_data column) eqn:Hc; [|done].
  destruct (getcol_present _ _ Hc) as (c & -> & Hc'). apply Hwf in Hc'.
  unfold len in *. unfold mbind, result_bind, mret, result_ret.
  case_bool_decide.
  - rewrite (plot_same_length time_minutes (rolling_mean _ c))
      by (rewrite length_rolling_mean; lia).
    apply plot_same_length. lia.
  - apply plot_same_length. lia.
Qed.

(** X21: on a well-formed table with a time axis whose CurrentReward
    cells, if the column exists, are all numbers,
    [create_training_progress_plots] draws every curve with as many
    abscissas as ordinates: the first [window] times that it cuts off
    match the [window] nan cells that it drops from the differences of
    the moving average. *)
Theorem training_plots_run (episode_data reward_data : DataFrame) :
  wf_df episode_data →
  has_column episode_data "CumulativeTime" = true →
  (∀ s, data episode_data !! "CurrentReward" = Some s →
        Forall (λ x, is_finite x = true) s) →
  create_training_progress_plots episode_data reward_data = Ok ().
Proof.
  intros Hwf Hct Hfin. unfold create_training_progress_plots.
  destruct (getcol_present _ _ Hct) as (ct & -> & Hct'). rewrite bind_Ok.
  apply Hwf in Hct'.
  assert (Htm : length (map (λ t, (t / f60)%float) ct) = len episode_data)
    by (rewrite length_map; done).
  assert (H1 : (if has_column episode_data "CumulativeReward"
                then getcol episode_data "CumulativeReward"
                     ≫= λ c, plot (map (λ t, (t / f60)%float) ct) c
                else mret ()) = Ok ()).
  { destruct (has_column episode_data "CumulativeReward") eqn:Hc; [|done].
    destruct (getcol_present _ _ Hc) as (c & -> & Hc'). apply Hwf in Hc'.
    rewrite bind_Ok. apply plot_same_length. unfold len in *. lia. }
  rewrite H1, bind_Ok, !smoothed_plot_ok, !bind_Ok by done.
  destruct (has_column episode_data "CurrentReward") eqn:Hc; [|done].
  case_bool_decide as Hw; [|done].
  destruct (getcol_present _ _ Hc) as (c & -> & Hc'). rewrite bind_Ok.
  pose proof (Hfin c Hc') as Hf. apply Hwf in Hc'.
  set (w := Nat.min 20 (len episode_data / 5)) in *.
  assert (Hwn : (w ≤ len episode_data)%nat).
  { unfold w. pose proof (Nat.Div0.div_le_upper_bound (len episode_data) 5
                            (len episode_data)) as Hd.
    assert (len episode_data / 5 ≤ len episode_data)%nat by (apply Hd; lia). lia. }
  destruct (rolling_mean_shape w c) as (qs & -> & Hqs);
    [unfold len in *; lia|done|].
  destruct qs as [|q qs]; [cbn [length] in Hqs; unfold len in *; lia|].
  destruct (diff_shape (w - 1) q qs) as (qs' & -> & Hqs').
  rewrite dropna_shape. case_bool_decide; [|done].
  apply plot_same_length. rewrite length_drop, !length_map.
  cbn [length] in Hqs. unfold len in *. lia.
Qed.

Lemma training_plots_run_witness :
  create_training_progress_plots
    (mkDF 10 (<["CumulativeTime" := map (λ i, of_nat (60 * i)) (seq 0 10)]>
                {[ "CurrentReward" := map (λ i, of_nat (i * i)) (seq 0 10) ]}))
    (single_column "Reward" [])
  = Ok ().
Proof.
  apply (training_plots_run
    (mkDF 10 (<["CumulativeTime" := map (λ i, of_nat (60 * i)) (seq 0 10)]>
                {[ "CurrentReward" := map (λ i, of_nat (i * i)) (seq 0 10) ]}))
    (single_column "Reward" [])).
  - apply wf_df_decide. vm_compute. reflexivity.
  - vm_compute. reflexivity.
  - intros s Hs. vm_compute in Hs. injection Hs as <-. repeat constructor.
Defined.


End moving_averages.

(* ------------------------------------------------------------------ *)
(** ** Further properties: analyze_results.py *)

(** X22: the statistics block of [analyze_traffic_results] succeeds
    exactly on a table with at least one row that has the four columns
    it reads; otherwise it raises the KeyError of a missing column or,
    on a table without rows, the IndexError of the read of the last
    cumulative reward, before any plot or summary file is produced. *)
Theorem statistics_need_columns_and_rows (episode_df : DataFrame) :
  wf_df episode_df →
  match analyze_results.episode_statistics episode_df with
  | Ok s =>
      Forall (λ c, has_column episode_df c = true) analyze_results.statistics_columns
      ∧ (0 < len episode_df)%nat
      ∧ analyze_results.Total_Episodes s = len episode_df
      ∧ ∀ cr, data episode_df !! "CumulativeReward" = Some cr →
              last cr = Some (analyze_results.Final_Cumulative_Reward s)
  | Raise e =>
      (∃ c, c ∈ analyze_results.statistics_columns
            ∧ has_column episode_df c = false ∧ e = KeyError c)
      ∨ (len episode_df = 0%nat
         ∧ e = IndexError "single positional indexer is out-of-bounds")
  end.
Proof.
  intros Hwf. unfold analyze_results.episode_statistics,
    analyze_results.statistics_columns.
  destruct (has_column episode_df "TotalVehicles") eqn:H1;
    [|rewrite (getcol_absent _ _ H1); left; eexists; repeat split;
      [|exact H1]; set_solver].
  destruct (getcol_present _ _ H1) as (tv & -> & _). rewrite bind_Ok.
  destruct (has_column episode_df "VehiclesWaiting") eqn:H2;
    [|rewrite (getcol_absent _ _ H2); left; eexists; repeat split;
      [|exact H2]; set_solver].
  destruct (getcol_present _ _ H2) as (vw & -> & _). rewrite bind_Ok.
  destruct (has_column episode_df "EpisodeDuration") eqn:H3;
    [|rewrite (getcol_absent _ _ H3); left; eexists; repeat split;
      [|exact H3]; set_solver].
  destruct (getcol_present _ _ H3) as (ed & -> & _). rewrite bind_Ok.
  destruct (has_column episode_df "CumulativeReward") eqn:H4;
    [|rewrite (getcol_absent _ _ H4); left; eexists; repeat split;
      [|exact H4]; set_solver].
  destruct (getcol_present _ _ H4) as (cr & -> & Hcr). rewrite bind_Ok.
  pose proof (Hwf _ _ Hcr) as Hl.
  unfold analyze_ml_training_time_based.iloc_last.
  destruct (last cr) as [v|] eqn:Hlast.
  - rewrite bind_Ok. cbn [analyze_results.Total_Episodes
      analyze_results.Final_Cumulative_Reward].
    split; [by repeat constructor|]. split.
    + unfold len. destruct cr; [done|]. simpl in Hl. lia.
    + split; [done|]. intros cr' Hcr'. by simplify_eq.
  - right. apply last_None in Hlast. subst cr. split; [unfold len; by simpl in Hl|done].
Qed.

Lemma statistics_need_columns_and_rows_witness :
  match analyze_results.episode_statistics training_episodes with
  | Ok s =>
      Forall (λ c, has_column training_episodes c = true)
        analyze_results.statistics_columns
      ∧ (0 < len training_episodes)%nat
      ∧ analyze_results.Total_Episodes s = len training_episodes
      ∧ ∀ cr, data training_episodes !! "CumulativeReward" = Some cr →
              last cr = Some (analyze_results.Final_Cumulative_Reward s)
  | Raise e =>
      (∃ c, c ∈ analyze_results.statistics_columns
            ∧ has_column training_episodes c = false ∧ e = KeyError c)
      ∨ (len training_episodes = 0%nat
         ∧ e = IndexError "single positional indexer is out-of-bounds")
  end.
Proof.
  apply (statistics_need_columns_and_rows training_episodes).
  apply wf_df_decide. vm_compute. reflexivity.
Defined.
